(** * Microgrid dashboard: the simulation loop, the render step and the
      integration seam of [app.js], embedded and verified.

    Numbers.  JavaScript numbers are IEEE doubles; this development reads
    every arithmetic expression of the source over the exact rationals [Q]
    (the formulas of the source, without rounding error).  The two
    transcendental or external readings of a tick, [Math.sin] at a multiple
    of [Math.PI / 12] and the wall clock, are inputs of the step.

    Randomness.  [Math.random()] is a stream of draws consumed in program
    order through a small state monad.

    Ranges.  Over [Q] a draw below 1 gives a reading strictly below the
    end of its range, which a double may reach; the ranges stated of the
    readings have their ends included, so that they are those of the
    doubles the browser computes as well.  Text made by [toFixed(1)] is
    bounded by the tenths it prints.

    The browser.  The callbacks of the timers and the listener of
    [DOMContentLoaded] run on the dashboard object with its page; an
    exception ends the callback that threw, and what it wrote before
    stays. *)

From stdpp Require Import gmap strings list fin_maps.
From Stdlib Require Import QArith Qminmax Qround Qabs Lqa.

Local Open Scope Q_scope.

(** ** The [Math] object *)

(** The source of [Math.random()]: the draws still to come. *)
Definition Draws : Type := nat -> Q.

(** A computation that consumes draws. *)
Definition Rand (A : Type) : Type := Draws -> A * Draws.

(** The draws after the next one. *)
Definition tail (s : Draws) : Draws := fun k => s (S k).

#[global] Instance Rand_ret : MRet Rand := fun A (a : A) s => (a, s).
#[global] Instance Rand_bind : MBind Rand :=
  fun A B (f : A -> Rand B) (m : Rand A) s => let '(a, s') := m s in f a s'.

Module Math.

(** [Math.round]: the nearest integer, halves going up. *)
Definition round (x : Q) : Q := inject_Z (Qfloor (x + 1 / 2)).

Definition floor (x : Q) : Z := Qfloor x.

Definition min (x y : Q) : Q := Qmin x y.

Definition max (x y : Q) : Q := Qmax x y.

Definition abs (x : Q) : Q := Qabs x.

Definition pow (x : Q) (n : Z) : Q := x ^ n.

(** [Math.random()]: the next draw. *)
Definition random : Rand Q := fun s => (s 0%nat, tail s).

End Math.

(** [x < y] and [x > y] as the tests of an [if]. *)
Definition ltb (x y : Q) : bool := negb (Qle_bool y x).
Definition gtb (x y : Q) : bool := ltb y x.

(** ** The data model of [initializeData] *)

Module solar.
Record t := mk
    { dcPower : Q; acPower : Q; efficiency : Q; irradiance : Q; moduleTemp : Q }.
Definition set_dcPower (v : Q) (r : t) : t :=
    mk v (acPower r) (efficiency r) (irradiance r) (moduleTemp r).
Definition set_acPower (v : Q) (r : t) : t :=
    mk (dcPower r) v (efficiency r) (irradiance r) (moduleTemp r).
End solar.

Module wind.
Record t := mk { power : Q; windSpeed : Q; efficiency : Q }.
Definition set_power (v : Q) (r : t) : t := mk v (windSpeed r) (efficiency r).
End wind.

Module cbg.
Record t := mk { power : Q; status : string; efficiency : Q }.
Definition set_power (v : Q) (r : t) : t := mk v (status r) (efficiency r).
End cbg.

Module generation.
Record t := mk
    { solar : solar.t; wind : wind.t; cbg : cbg.t; totalGeneration : Q }.
Definition set_solar (v : solar.t) (r : t) : t :=
    mk v (wind r) (cbg r) (totalGeneration r).
Definition set_wind (v : wind.t) (r : t) : t :=
    mk (solar r) v (cbg r) (totalGeneration r).
Definition set_cbg (v : cbg.t) (r : t) : t :=
    mk (solar r) (wind r) v (totalGeneration r).
Definition set_totalGeneration (v : Q) (r : t) : t :=
    mk (solar r) (wind r) (cbg r) v.
End generation.

Module pack.
Record t := mk { id : Z; soc : Q; soh : Q; temp : Q; voltage : Q }.
Definition set_soc (v : Q) (r : t) : t := mk (id r) v (soh r) (temp r) (voltage r).
Definition set_temp (v : Q) (r : t) : t := mk (id r) (soc r) (soh r) v (voltage r).
Definition set_voltage (v : Q) (r : t) : t := mk (id r) (soc r) (soh r) (temp r) v.
End pack.

Module storage.
Record t := mk
    { overallSOC : Q; totalCapacity : Q; chargePower : Q; dischargePower : Q;
      batteryPacks : list pack.t }.
Definition set_overallSOC (v : Q) (r : t) : t :=
    mk v (totalCapacity r) (chargePower r) (dischargePower r) (batteryPacks r).
Definition set_chargePower (v : Q) (r : t) : t :=
    mk (overallSOC r) (totalCapacity r) v (dischargePower r) (batteryPacks r).
Definition set_dischargePower (v : Q) (r : t) : t :=
    mk (overallSOC r) (totalCapacity r) (chargePower r) v (batteryPacks r).
Definition set_batteryPacks (v : list pack.t) (r : t) : t :=
    mk (overallSOC r) (totalCapacity r) (chargePower r) (dischargePower r) v.
End storage.

Module demand.
Record t := mk
    { totalLoad : Q; criticalLoads : Q; flexibleLoads : Q; peakReduction : Q }.
Definition set_totalLoad (v : Q) (r : t) : t :=
    mk v (criticalLoads r) (flexibleLoads r) (peakReduction r).
Definition set_criticalLoads (v : Q) (r : t) : t :=
    mk (totalLoad r) v (flexibleLoads r) (peakReduction r).
Definition set_flexibleLoads (v : Q) (r : t) : t :=
    mk (totalLoad r) (criticalLoads r) v (peakReduction r).
End demand.

Module powerQuality.
Record t := mk { voltage : Q; frequency : Q; thd : Q }.
End powerQuality.

Module systemMetrics.
Record t := mk
    { overallEfficiency : Q; uptime : Q; powerQuality : powerQuality.t }.
Definition set_overallEfficiency (v : Q) (r : t) : t :=
    mk v (uptime r) (powerQuality r).
End systemMetrics.

Module weather.
Record t := mk
    { temperature : Q; humidity : Q; windSpeed : Q; irradiance : Q;
      cloudCover : Q }.
Definition set_temperature (v : Q) (r : t) : t :=
    mk v (humidity r) (windSpeed r) (irradiance r) (cloudCover r).
Definition set_windSpeed (v : Q) (r : t) : t :=
    mk (temperature r) (humidity r) v (irradiance r) (cloudCover r).
Definition set_irradiance (v : Q) (r : t) : t :=
    mk (temperature r) (humidity r) (windSpeed r) v (cloudCover r).
Definition set_cloudCover (v : Q) (r : t) : t :=
    mk (temperature r) (humidity r) (windSpeed r) (irradiance r) v.
End weather.

(** An alert.  [type] and [message] are read out of arrays by index, and an
    index out of range reads [undefined] ([None]). *)
Module alert.
Record t := mk
    { id : Z; type : option string; message : option string; time : string }.
End alert.

(** [this.currentData]. *)
Module data.
Record t := mk
    { generation : generation.t; storage : storage.t; demand : demand.t;
      systemMetrics : systemMetrics.t; weather : weather.t;
      alerts : list alert.t }.
Definition set_generation (v : generation.t) (r : t) : t :=
    mk v (storage r) (demand r) (systemMetrics r) (weather r) (alerts r).
Definition set_storage (v : storage.t) (r : t) : t :=
    mk (generation r) v (demand r) (systemMetrics r) (weather r) (alerts r).
Definition set_demand (v : demand.t) (r : t) : t :=
    mk (generation r) (storage r) v (systemMetrics r) (weather r) (alerts r).
Definition set_systemMetrics (v : systemMetrics.t) (r : t) : t :=
    mk (generation r) (storage r) (demand r) v (weather r) (alerts r).
Definition set_weather (v : weather.t) (r : t) : t :=
    mk (generation r) (storage r) (demand r) (systemMetrics r) v (alerts r).
Definition set_alerts (v : list alert.t) (r : t) : t :=
    mk (generation r) (storage r) (demand r) (systemMetrics r) (weather r) v.
End data.

(** [initializeData]: the snapshot the dashboard starts from. *)
Definition initializeData : data.t :=
  data.mk
    (generation.mk
       (solar.mk 45.8 43.2 94.3 875 38.5)
       (wind.mk 12.3 8.2 89.1)
       (cbg.mk 18.5 "operational" 91.7)
       74.0)
    (storage.mk 67 150 8.5 0
       [ pack.mk 1 72 96 24.5 48.2;
         pack.mk 2 68 94 25.1 48.0;
         pack.mk 3 65 97 23.8 47.9;
         pack.mk 4 63 95 24.7 47.8 ])
    (demand.mk 65.5 28.2 37.3 23.4)
    (systemMetrics.mk 92.8 99.7 (powerQuality.mk 230.5 50.02 1.8))
    (weather.mk 28.5 65 8.2 875 15)
    [ alert.mk 1 (Some "info") (Some "Battery Pack 4 SOC below 65%") "14:23";
      alert.mk 2 (Some "warning")
        (Some "Cloud cover increasing - generation may decrease") "14:18" ].

(** Writes to a nested field, [data.weather.irradiance = v] and the like. *)
Definition set_solar (f : solar.t -> solar.t) (d : data.t) : data.t :=
  data.set_generation
    (generation.set_solar (f (generation.solar (data.generation d)))
       (data.generation d)) d.
Definition set_wind (f : wind.t -> wind.t) (d : data.t) : data.t :=
  data.set_generation
    (generation.set_wind (f (generation.wind (data.generation d)))
       (data.generation d)) d.
Definition set_cbg (f : cbg.t -> cbg.t) (d : data.t) : data.t :=
  data.set_generation
    (generation.set_cbg (f (generation.cbg (data.generation d)))
       (data.generation d)) d.
Definition set_totalGeneration (v : Q) (d : data.t) : data.t :=
  data.set_generation (generation.set_totalGeneration v (data.generation d)) d.
Definition set_storage (f : storage.t -> storage.t) (d : data.t) : data.t :=
  data.set_storage (f (data.storage d)) d.
Definition set_demand (f : demand.t -> demand.t) (d : data.t) : data.t :=
  data.set_demand (f (data.demand d)) d.
Definition set_weather (f : weather.t -> weather.t) (d : data.t) : data.t :=
  data.set_weather (f (data.weather d)) d.
Definition set_systemMetrics (f : systemMetrics.t -> systemMetrics.t)
    (d : data.t) : data.t :=
  data.set_systemMetrics (f (data.systemMetrics d)) d.

(** Paths the step reads and the properties speak of. *)
Abbreviation acPower d := (solar.acPower (generation.solar (data.generation d))).
Abbreviation dcPower d := (solar.dcPower (generation.solar (data.generation d))).
Abbreviation windPower d := (wind.power (generation.wind (data.generation d))).
Abbreviation cbgPower d := (cbg.power (generation.cbg (data.generation d))).
Abbreviation totalGeneration d := (generation.totalGeneration (data.generation d)).
Abbreviation totalLoad d := (demand.totalLoad (data.demand d)).
Abbreviation overallSOC d := (storage.overallSOC (data.storage d)).
Abbreviation chargePower d := (storage.chargePower (data.storage d)).
Abbreviation dischargePower d := (storage.dischargePower (data.storage d)).
Abbreviation batteryPacks d := (storage.batteryPacks (data.storage d)).
Abbreviation cloudCover d := (weather.cloudCover (data.weather d)).

(** ** [simulateDataChanges] *)

(** What a tick reads from outside the snapshot besides [Math.random()]:
    [sinHour] is the value of [Math.sin((hour - 6) * Math.PI / 12)] for
    [hour = new Date().getHours()], [now] is [Date.now()] and [hhmm] is
    [new Date().toLocaleTimeString('en-GB', ...)]. *)
Record Clock := { sinHour : Q; now : Z; hhmm : string }.

(** Solar variations (weather dependent). *)
Definition solarVariations (d : data.t) : Rand data.t :=
  let cloudFactor := (100 - cloudCover d) / 100 in
  r ← Math.random;
  let baseIrradiance := 850 + r * 100 in
  let d := set_weather
             (weather.set_irradiance (Math.round (baseIrradiance * cloudFactor))) d in
  let d := set_solar
             (solar.set_dcPower
                (Math.round (weather.irradiance (data.weather d) / 1000 * 52 * 10) / 10)) d in
  let d := set_solar
             (solar.set_acPower (Math.round (dcPower d * 0.94 * 10) / 10)) d in
  mret d.

(** The power curve of the wind turbine, as the step computes it from the
    wind speed: [Math.round(Math.pow(s / 12, 3) * 25 * 10) / 10]. *)
Definition windCurve (s : Q) : Q :=
  Math.round (Math.pow (s / 12) 3 * 25 * 10) / 10.

(** Wind variations. *)
Definition windVariations (d : data.t) : Rand data.t :=
  r ← Math.random;
  let d := set_weather
             (weather.set_windSpeed (Math.max 0 (8.2 + (r - 0.5) * 4))) d in
  let d := set_wind
             (wind.set_power (windCurve (weather.windSpeed (data.weather d)))) d in
  mret d.

(** CBG steady with minor variations. *)
Definition cbgVariations (d : data.t) : Rand data.t :=
  r ← Math.random;
  mret (set_cbg (cbg.set_power (18.5 + (r - 0.5) * 2)) d).

(** Total generation. *)
Definition sumGeneration (d : data.t) : data.t :=
  set_totalGeneration (acPower d + windPower d + cbgPower d) d.

(** Load variations (daily pattern). *)
Definition loadVariations (c : Clock) (d : data.t) : data.t :=
  let baseDemand := 65.5 in
  let hourlyFactor := 1 + 0.2 * sinHour c in
  let d := set_demand
             (demand.set_totalLoad (Math.round (baseDemand * hourlyFactor * 10) / 10)) d in
  let d := set_demand
             (demand.set_criticalLoads (Math.round (totalLoad d * 0.43 * 10) / 10)) d in
  let d := set_demand
             (demand.set_flexibleLoads (Math.round (totalLoad d * 0.57 * 10) / 10)) d in
  d.

(** Battery management. *)
Definition batteryManagement (d : data.t) : data.t :=
  let powerBalance := totalGeneration d - totalLoad d in
  if gtb powerBalance 0 && ltb (overallSOC d) 95 then
    let d := set_storage (storage.set_chargePower (Math.min (powerBalance * 0.8) 15)) d in
    let d := set_storage (storage.set_dischargePower 0) d in
    set_storage (storage.set_overallSOC (Math.min 95 (overallSOC d + 0.1))) d
  else if ltb powerBalance 0 && gtb (overallSOC d) 20 then
    let d := set_storage (storage.set_dischargePower (Math.min (Math.abs powerBalance) 20)) d in
    let d := set_storage (storage.set_chargePower 0) d in
    set_storage (storage.set_overallSOC (Math.max 20 (overallSOC d - 0.2))) d
  else d.

(** [array.forEach] with a body that mutates the element and draws. *)
Fixpoint forEach {A : Type} (body : A -> Rand A) (l : list A) : Rand (list A) :=
  match l with
  | [] => mret []
  | x :: l' => x' ← body x; l'' ← forEach body l'; mret (x' :: l'')
  end.

(** The body of the loop over the battery packs. *)
Definition updatePack (soc : Q) (p : pack.t) : Rand pack.t :=
  r1 ← Math.random;
  let p := pack.set_soc (Math.max 20 (Math.min 95 (soc + (r1 - 0.5) * 8))) p in
  r2 ← Math.random;
  let p := pack.set_temp (24 + (r2 - 0.5) * 4) p in
  let p := pack.set_voltage (47.5 + pack.soc p / 100 * 1.5) p in
  mret p.

(** Update individual battery packs. *)
Definition updatePacks (d : data.t) : Rand data.t :=
  packs ← forEach (updatePack (overallSOC d)) (batteryPacks d);
  mret (set_storage (storage.set_batteryPacks packs) d).

(** Weather changes. *)
Definition weatherChanges (d : data.t) : Rand data.t :=
  r1 ← Math.random;
  let d := set_weather (weather.set_temperature (28.5 + (r1 - 0.5) * 6)) d in
  r2 ← Math.random;
  let d := set_weather
             (weather.set_cloudCover
                (Math.max 0 (Math.min 100 (cloudCover d + (r2 - 0.5) * 10)))) d in
  mret d.

(** System efficiency. *)
Definition systemEfficiency (d : data.t) : Rand data.t :=
  r ← Math.random;
  mret (set_systemMetrics
          (systemMetrics.set_overallEfficiency (92.8 + (r - 0.5) * 2)) d).

Definition alertTypes : list string := ["info"; "warning"; "error"]%string.

Definition messages : list string :=
  [ "System optimization completed";
    "Peak demand period approaching";
    "Weather forecast updated";
    "Maintenance reminder: Monthly inspection due";
    "Load balancing adjustment made" ]%string.

(** [arr[Math.floor(x)]]: [undefined] for an index outside the array. *)
Definition at_index {A : Type} (arr : list A) (i : Z) : option A :=
  if (i <? 0)%Z then None else arr !! Z.to_nat i.

(** [arr.unshift(x)] and [arr.pop()]. *)
Definition unshift {A : Type} (x : A) (arr : list A) : list A := x :: arr.
Definition pop {A : Type} (arr : list A) : list A := removelast arr.

(** [data.alerts.unshift(newAlert); if (data.alerts.length > 5) data.alerts.pop()]. *)
Definition pushAlert (newAlert : alert.t) (alerts : list alert.t) : list alert.t :=
  let alerts := unshift newAlert alerts in
  if (5 <? length alerts)%nat then pop alerts else alerts.

(** The alert a tick creates, from the two draws that pick its type and
    its message. *)
Definition newAlert (c : Clock) (r1 r2 : Q) : alert.t :=
  alert.mk (now c)
    (at_index alertTypes (Math.floor (r1 * inject_Z (Z.of_nat (length alertTypes)))))
    (at_index messages (Math.floor (r2 * inject_Z (Z.of_nat (length messages)))))
    (hhmm c).

(** Randomly generate new alerts. *)
Definition spawnAlert (c : Clock) (d : data.t) : Rand data.t :=
  r ← Math.random;
  if ltb r 0.1 then
    r1 ← Math.random;
    r2 ← Math.random;
    mret (data.set_alerts (pushAlert (newAlert c r1 r2) (data.alerts d)) d)
  else mret d.

(** The simulation step. *)
Definition simulateDataChanges (c : Clock) (d : data.t) : Rand data.t :=
  d ← solarVariations d;
  d ← windVariations d;
  d ← cbgVariations d;
  let d := sumGeneration d in
  let d := loadVariations c d in
  let d := batteryManagement d in
  d ← updatePacks d;
  d ← weatherChanges d;
  d ← systemEfficiency d;
  spawnAlert c d.

(** One tick of the simulation: what the clock shows and the draws. *)
Record Tick := { clock : Clock; draws : Draws }.

Definition step (d : data.t) (t : Tick) : data.t :=
  fst (simulateDataChanges (clock t) d (draws t)).

(** The snapshot after the given ticks, oldest first, from [initializeData]. *)
Definition run (ticks : list Tick) : data.t := fold_left step ticks initializeData.

(** ** Vocabulary of the properties of the step *)

(** The fields no statement of the step assigns. *)
Definition untouched (d : data.t) :=
  (weather.humidity (data.weather d),
   systemMetrics.uptime (data.systemMetrics d),
   systemMetrics.powerQuality (data.systemMetrics d),
   demand.peakReduction (data.demand d),
   map pack.soh (batteryPacks d),
   solar.efficiency (generation.solar (data.generation d)),
   wind.efficiency (generation.wind (data.generation d)),
   cbg.efficiency (generation.cbg (data.generation d))).

(** A block keeps the storage record, the alerts and the unassigned
    fields. *)
Definition keeps (d d' : data.t) : Prop :=
  data.storage d' = data.storage d /\
  data.alerts d' = data.alerts d /\
  untouched d' = untouched d.

(** The draws left after [n] rounds of the loop: two draws a pack. *)
Definition afterPacks (n : nat) (s : Draws) : Draws :=
  Nat.iter n (fun s => tail (tail s)) s.

(** In range for a state of charge. *)
Definition soc_ok (x : Q) : Prop := 20 <= x /\ x <= 95.

(** The snapshot on which the battery block of a tick runs: the generation
    and the load of this tick are written, nothing else. *)
Definition atBattery (c : Clock) (d : data.t) (s : Draws) : data.t :=
  let d := fst (solarVariations d s) in
  let d := fst (windVariations d (tail s)) in
  let d := fst (cbgVariations d (tail (tail s))) in
  loadVariations c (sumGeneration d).

(** The draws left when the step reaches the alert block: three draws for
    the generation, two a pack, three for weather and efficiency. *)
Definition alertDraws (d : data.t) (s : Draws) : Draws :=
  tail (tail (tail (afterPacks (length (batteryPacks d)) (tail (tail (tail s)))))).

(** The power balance the battery block computes. *)
Definition powerBalance (d : data.t) : Q := totalGeneration d - totalLoad d.

(** Not both charging and discharging. *)
Definition one_way (d : data.t) : Prop := chargePower d = 0 \/ dischargePower d = 0.

(** ** Snapshots and ticks of the scenarios *)

(** The snapshot of the surplus scenario: generation 80, demand 60. *)
Definition surplus_example : data.t :=
  set_totalGeneration 80 (set_demand (demand.set_totalLoad 60) initializeData).

(** The snapshot of the deficit scenario: generation 50, demand 70. *)
Definition deficit_example : data.t :=
  set_totalGeneration 50 (set_demand (demand.set_totalLoad 70) initializeData).

(** A tick at noon whose draws are all [1/20]: the alert branch is taken. *)
Definition alert_tick : Tick :=
  {| clock := {| sinHour := 1; now := 1700000000000; hhmm := "12:00" |};
     draws := fun _ => 1 / 20 |}.

(** * The render step *)

(** ** The page *)

(** A template literal: text and interpolated numbers, [x.toFixed(1)] or
    [x] itself.  (Markup is written with single quotes.) *)
Inductive Piece := lit (s : string) | fixed1 (x : Q) | num (x : Q).

(** A [div] made by [document.createElement]. *)
Record Item := { className : string; innerHTML : list Piece }.

(** An element of the page, with the properties the dashboard writes. *)
Record Element :=
  { textContent : list Piece; children : list Item; width : list Piece }.

(** [datasets[0].data] of a doughnut chart, [[value, max - value]], with the
    text its plugin draws in the centre. *)
Record Gauge := { filled : Q; rest : Q; centerText : list Piece; color : string }.

(** The line chart: [data.labels], [datasets[0].data] and
    [datasets[1].data]. *)
Record LineChart :=
  { labels : list string; generationSeries : list Q; demandSeries : list Q }.

(** [this.charts]; [None] is the [null] handle. *)
Record Charts :=
  { solarGauge : option Gauge; windGauge : option Gauge;
    cbgGauge : option Gauge; batteryGauge : option Gauge;
    demandChart : option LineChart }.

(** The dashboard object, the document it renders into (by element id or
    selector) and the draws to come.  [D] is what [this.currentData] holds:
    a snapshot for the simulation and the render step, any object for the
    integration seam. *)
Record World (D : Type) :=
  { charts : Charts; currentData : D;
    document : gmap string Element; entropy : Draws }.
Arguments charts {D} w.
Arguments currentData {D} w.
Arguments document {D} w.
Arguments entropy {D} w.

Definition set_charts {D : Type} (v : Charts) (w : World D) : World D :=
  {| charts := v; currentData := currentData w; document := document w;
     entropy := entropy w |}.
Definition set_currentData {D D' : Type} (v : D') (w : World D) : World D' :=
  {| charts := charts w; currentData := v; document := document w;
     entropy := entropy w |}.
Definition set_document {D : Type} (v : gmap string Element) (w : World D) : World D :=
  {| charts := charts w; currentData := currentData w; document := v;
     entropy := entropy w |}.
Definition set_entropy {D : Type} (v : Draws) (w : World D) : World D :=
  {| charts := charts w; currentData := currentData w; document := document w;
     entropy := v |}.

(** A method either returns or throws; what it wrote before stays. *)
Inductive Result (A : Type) :=
  | Return (a : A) (w : World data.t)
  | Throw (e : string) (w : World data.t).
Arguments Return {A} a w.
Arguments Throw {A} e w.

Definition DOM (A : Type) : Type := World data.t -> Result A.

#[global] Instance DOM_ret : MRet DOM := fun A (a : A) w => Return a w.
#[global] Instance DOM_bind : MBind DOM :=
  fun A B (f : A -> DOM B) (m : DOM A) w =>
    match m w with
    | Return a w' => f a w'
    | Throw e w' => Throw e w'
    end.

Definition getData : DOM data.t := fun w => Return (currentData w) w.
Definition getCharts : DOM Charts := fun w => Return (charts w) w.
Definition putCharts (c : Charts) : DOM unit := fun w => Return tt (set_charts c w).

(** [Math.random()] inside a method. *)
Definition draw : DOM Q :=
  fun w => Return (entropy w 0%nat) (set_entropy (tail (entropy w)) w).

(** [document.getElementById(id)], [null] when there is no such element. *)
Definition getElementById (id : string) : DOM (option Element) :=
  fun w => Return (document w !! id) w.

Definition nullError : string := "TypeError: Cannot set properties of null".

(** A write to a property of what [getElementById] or [querySelector]
    returned, with no test in between. *)
Definition throw {A : Type} (e : string) : DOM A := fun w => Throw e w.

Definition putElement (id : string) (e : Element) : DOM unit :=
  fun w => Return tt (set_document (<[id := e]> (document w)) w).

Definition write (id : string) (f : Element -> Element) : DOM unit :=
  el ← getElementById id;
  match el with
  | Some e => putElement id (f e)
  | None => throw nullError
  end.

Definition setTextContent (id : string) (v : list Piece) : DOM unit :=
  write id (fun e => {| textContent := v; children := children e; width := width e |}).
Definition clearChildren (id : string) : DOM unit :=
  write id (fun e => {| textContent := textContent e; children := []; width := width e |}).
Definition appendChild (id : string) (c : Item) : DOM unit :=
  write id (fun e => {| textContent := textContent e; children := children e ++ [c];
                        width := width e |}).
Definition setWidth (sel : string) (v : list Piece) : DOM unit :=
  write sel (fun e => {| textContent := textContent e; children := children e; width := v |}).

(** Statements in sequence. *)
Fixpoint sequence (l : list (DOM unit)) : DOM unit :=
  match l with
  | [] => mret tt
  | m :: l' => _ ← m; sequence l'
  end.

(** ** The charts *)

Definition createGaugeChart (canvasId : string) (value max : Q)
    (label unit color : string) : DOM (option Gauge) :=
  ctx ← getElementById canvasId;
  match ctx with
  | None => mret None
  | Some _ =>
      mret (Some {| filled := value; rest := max - value;
                    centerText := [num value; lit unit]; color := color |})
  end.

(** The six points the line chart is created with. *)
Definition initialDemandChart : LineChart :=
  {| labels := ["14:00"; "14:05"; "14:10"; "14:15"; "14:20"; "14:25"]%string;
     generationSeries := [72.1; 73.5; 74.8; 74.2; 74.0; 74.3];
     demandSeries := [63.2; 64.8; 65.1; 65.5; 65.5; 65.2] |}.

Definition createDemandChart : DOM (option LineChart) :=
  ctx ← getElementById "demandChart";
  match ctx with
  | None => mret None
  | Some _ => mret (Some initialDemandChart)
  end.

Definition initializeCharts : DOM unit :=
  d ← getData;
  solar ← createGaugeChart "solarGauge" (acPower d) 60 "Solar Power" "kW" "#FFC185";
  wind ← createGaugeChart "windGauge" (windPower d) 25 "Wind Power" "kW" "#1FB8CD";
  cbg ← createGaugeChart "cbgGauge" (cbgPower d) 30 "CBG Power" "kW" "#B4413C";
  battery ← createGaugeChart "batteryGauge" (overallSOC d) 100 "Battery SOC" "%" "#5D878F";
  demand ← createDemandChart;
  putCharts {| solarGauge := solar; windGauge := wind; cbgGauge := cbg;
               batteryGauge := battery; demandChart := demand |}.

(** [if (gauge) { gauge.data.datasets[0].data[0] = x; ...[1] = max - x }]. *)
Definition updateGauge (g : option Gauge) (x max : Q) : option Gauge :=
  match g with
  | Some g =>
      Some {| filled := x; rest := max - x; centerText := centerText g;
              color := color g |}
  | None => None
  end.

(** [arr.push(x)] and [arr.shift()]. *)
Definition push {A : Type} (x : A) (arr : list A) : list A := arr ++ [x].
Definition shift {A : Type} (arr : list A) : list A := List.tl arr.

(** The body of [if (this.charts.demandChart)]. *)
Definition updateDemandChart (currentTime : string) (d : data.t)
    (ch : LineChart) : LineChart :=
  let ch := {| labels := push currentTime (labels ch);
               generationSeries := generationSeries ch;
               demandSeries := demandSeries ch |} in
  let ch := {| labels := labels ch;
               generationSeries := push (totalGeneration d) (generationSeries ch);
               demandSeries := demandSeries ch |} in
  let ch := {| labels := labels ch;
               generationSeries := generationSeries ch;
               demandSeries := push (totalLoad d) (demandSeries ch) |} in
  if (10 <? length (labels ch))%nat then
    {| labels := shift (labels ch);
       generationSeries := shift (generationSeries ch);
       demandSeries := shift (demandSeries ch) |}
  else ch.

Definition updateCharts (c : Clock) : DOM unit :=
  d ← getData;
  ch ← getCharts;
  let solar := updateGauge (solarGauge ch) (acPower d) 60 in
  let wind := updateGauge (windGauge ch) (windPower d) 25 in
  let cbg := updateGauge (cbgGauge ch) (cbgPower d) 30 in
  let battery := updateGauge (batteryGauge ch) (overallSOC d) 100 in
  let demand :=
    match demandChart ch with
    | Some l => Some (updateDemandChart (hhmm c) d l)
    | None => None
    end in
  putCharts {| solarGauge := solar; windGauge := wind; cbgGauge := cbg;
               batteryGauge := battery; demandChart := demand |}.

(** ** [updateDashboard] *)

(** [`${x.toFixed(1)}${unit}`] written to the element [id]. *)
Definition showFixed (id : string) (x : Q) (suffix : string) : DOM unit :=
  setTextContent id [fixed1 x; lit suffix].

(** [`${Math.round(x)}${unit}`] written to the element [id]. *)
Definition showRounded (id : string) (x : Q) (suffix : string) : DOM unit :=
  setTextContent id [num (Math.round x); lit suffix].

Definition updateGenerationValues (d : data.t) : list (DOM unit) :=
  [ showFixed "totalGeneration" (totalGeneration d) " kW";
    showFixed "solarDC" (dcPower d) " kW";
    showFixed "solarAC" (acPower d) " kW";
    showFixed "solarEfficiency" (solar.efficiency (generation.solar (data.generation d))) "%";
    showFixed "windPower" (windPower d) " kW";
    showFixed "windSpeed" (weather.windSpeed (data.weather d)) " m/s";
    showFixed "windEfficiency" (wind.efficiency (generation.wind (data.generation d))) "%";
    showFixed "cbgPower" (cbgPower d) " kW";
    showFixed "cbgEfficiency" (cbg.efficiency (generation.cbg (data.generation d))) "%" ].

Definition updateBatteryValues (d : data.t) : list (DOM unit) :=
  [ showRounded "overallSOC" (overallSOC d) "%";
    showFixed "chargePower" (chargePower d) " kW" ].

Definition updateDemandValues (d : data.t) : list (DOM unit) :=
  [ showFixed "criticalLoads" (demand.criticalLoads (data.demand d)) " kW";
    showFixed "flexibleLoads" (demand.flexibleLoads (data.demand d)) " kW";
    showFixed "peakReduction" (demand.peakReduction (data.demand d)) "%" ].

Definition updateWeatherValues (d : data.t) : list (DOM unit) :=
  [ showFixed "temperature" (weather.temperature (data.weather d)) "°C";
    setTextContent "irradiance" [num (weather.irradiance (data.weather d)); lit " W/m²"];
    showFixed "weatherWindSpeed" (weather.windSpeed (data.weather d)) " m/s";
    showRounded "cloudCover" (cloudCover d) "%" ].

Definition updateSystemMetrics (d : data.t) : list (DOM unit) :=
  [ showFixed "overallEfficiency"
      (systemMetrics.overallEfficiency (data.systemMetrics d)) "%";
    showFixed "voltageValue"
      (powerQuality.voltage (systemMetrics.powerQuality (data.systemMetrics d))) "V";
    showFixed "thdValue"
      (powerQuality.thd (systemMetrics.powerQuality (data.systemMetrics d))) "% THD";
    (r ← draw; showFixed "storageUtilization" (overallSOC d * 0.87 + r * 10) "%") ].

Definition updateFooterKPIs (d : data.t) : list (DOM unit) :=
  [ showFixed "footerUptime" (systemMetrics.uptime (data.systemMetrics d)) "%";
    showFixed "footerPeakReduction" (demand.peakReduction (data.demand d)) "%";
    showFixed "energyBalance" (totalGeneration d - totalLoad d) " kW";
    setTextContent "efficiencyGain"
      [lit "+"; fixed1 (systemMetrics.overallEfficiency (data.systemMetrics d) - 75.6);
       lit "%"] ].

Definition updatePowerFlowDiagram : DOM unit :=
  d ← getData;
  sequence
    [ showFixed "solarNodeValue" (acPower d) "kW";
      showFixed "windNodeValue" (windPower d) "kW";
      showFixed "cbgNodeValue" (cbgPower d) "kW";
      showRounded "batteryNodeValue" (overallSOC d) "% SOC";
      setTextContent "batteryPowerValue"
        (if gtb (chargePower d) 0
         then [lit "+"; fixed1 (chargePower d); lit "kW"]
         else [lit "-"; fixed1 (dischargePower d); lit "kW"]);
      showFixed "criticalLoadValue" (demand.criticalLoads (data.demand d)) "kW";
      showFixed "flexibleLoadValue" (demand.flexibleLoads (data.demand d)) "kW" ].

Definition packElement (p : pack.t) : Item :=
  let socClass :=
    if gtb (pack.soc p) 70 then "high"
    else if gtb (pack.soc p) 40 then "medium" else "low" in
  {| className := "pack-item";
     innerHTML :=
       [ lit "<div class='pack-id'>Pack "; num (inject_Z (pack.id p)); lit "</div>";
         lit "<div class='pack-soc "; lit socClass; lit "'>";
         num (Math.round (pack.soc p)); lit "%</div>";
         lit "<div class='pack-details'><span>SoH: "; num (pack.soh p);
         lit "%</span><span>"; fixed1 (pack.temp p); lit "°C</span></div>" ] |}.

Definition updateBatteryPacks : DOM unit :=
  d ← getData;
  _ ← clearChildren "batteryPacksList";
  sequence (map (fun p => appendChild "batteryPacksList" (packElement p))
              (batteryPacks d)).

(** An interpolated string that may be [undefined]. *)
Definition text (s : option string) : Piece :=
  match s with Some s => lit s | None => lit "undefined" end.

Definition alertElement (a : alert.t) : Item :=
  {| className := "alert-item " +:+ default "undefined" (alert.type a);
     innerHTML :=
       [ lit "<div style='font-weight: 500; margin-bottom: 4px;'>";
         text (alert.message a); lit "</div>";
         lit "<div style='font-size: 10px; opacity: 0.7;'>";
         lit (alert.time a); lit "</div>" ] |}.

Definition updateAlerts : DOM unit :=
  d ← getData;
  _ ← clearChildren "alertsList";
  sequence (map (fun a => appendChild "alertsList" (alertElement a)) (data.alerts d)).

(** The two percentages are quotients by [totalLoad].  Where [totalLoad]
    is zero the source computes [Infinity] or [NaN], which no width can
    take, and the quotient of [Q] is 0: what the bars get is stated for a
    positive [totalLoad] only. *)
Definition updateLoadBars : DOM unit :=
  d ← getData;
  let criticalPct := demand.criticalLoads (data.demand d) / totalLoad d * 100 in
  let flexiblePct := demand.flexibleLoads (data.demand d) / totalLoad d * 100 in
  _ ← setWidth ".load-fill.critical" [num criticalPct; lit "%"];
  setWidth ".load-fill.flexible" [num flexiblePct; lit "%"].

Definition updateDashboard (c : Clock) : DOM unit :=
  d ← getData;
  _ ← sequence (updateGenerationValues d);
  _ ← sequence (updateBatteryValues d);
  _ ← sequence (updateDemandValues d);
  _ ← sequence (updateWeatherValues d);
  _ ← sequence (updateSystemMetrics d);
  _ ← sequence (updateFooterKPIs d);
  _ ← updateCharts c;
  _ ← updatePowerFlowDiagram;
  _ ← updateBatteryPacks;
  _ ← updateAlerts;
  updateLoadBars.

(** The elements the text and list writers of [updateDashboard] write to,
    with no test that they are there. *)
Definition writtenElements : list string :=
  [ "totalGeneration"; "solarDC"; "solarAC"; "solarEfficiency"; "windPower";
    "windSpeed"; "windEfficiency"; "cbgPower"; "cbgEfficiency";
    "overallSOC"; "chargePower";
    "criticalLoads"; "flexibleLoads"; "peakReduction";
    "temperature"; "irradiance"; "weatherWindSpeed"; "cloudCover";
    "overallEfficiency"; "voltageValue"; "thdValue"; "storageUtilization";
    "footerUptime"; "footerPeakReduction"; "energyBalance"; "efficiencyGain";
    "solarNodeValue"; "windNodeValue"; "cbgNodeValue"; "batteryNodeValue";
    "batteryPowerValue"; "criticalLoadValue"; "flexibleLoadValue";
    "batteryPacksList"; "alertsList";
    ".load-fill.critical"; ".load-fill.flexible" ]%string.

(** The canvases of the five charts. *)
Definition canvases : list string :=
  [ "solarGauge"; "windGauge"; "cbgGauge"; "batteryGauge"; "demandChart" ]%string.

Definition emptyElement : Element :=
  {| textContent := []; children := []; width := [] |}.

(** A page with the given elements, all blank. *)
Definition page (ids : list string) : gmap string Element :=
  list_to_map (map (fun id => (id, emptyElement)) ids).

(** [this.charts = {}]: no chart yet. *)
Definition noCharts : Charts :=
  {| solarGauge := None; windGauge := None; cbgGauge := None;
     batteryGauge := None; demandChart := None |}.

(** The dashboard on the given page when [initializeData] has run and
    [initializeCharts] has not. *)
Definition freshDashboard (doc : gmap string Element) (s : Draws) : World data.t :=
  {| charts := noCharts; currentData := initializeData; document := doc;
     entropy := s |}.

(** ** Vocabulary of the properties of the render step *)

(** The line chart after the given renders, oldest first: each render
    brings the clock's label and the snapshot it shows. *)
Definition renderChart (ch : LineChart) (p : string * data.t) : LineChart :=
  updateDemandChart (fst p) (snd p) ch.

Definition runChart (renders : list (string * data.t)) : LineChart :=
  fold_left renderChart renders initialDemandChart.

(** The window of the line chart: three series of one length, at most 10. *)
Definition window_ok (ch : LineChart) : Prop :=
  length (generationSeries ch) = length (labels ch) /\
  length (demandSeries ch) = length (labels ch) /\
  (length (labels ch) <= 10)%nat.

(** One point more, and the oldest one out when that makes eleven. *)
Definition slide {A : Type} (x : A) (l : list A) : list A :=
  if (length l <? 10)%nat then l ++ [x] else List.tl l ++ [x].

(** What a chart constructor returns for the canvas [id]: the chart when
    the canvas is on the page, the null handle when it is not. *)
Definition onCanvas {A : Type} (doc : gmap string Element) (id : string) (chart : A) :
    option A :=
  match doc !! id with
  | Some _ => Some chart
  | None => None
  end.

(** The doughnut chart [createGaugeChart] makes. *)
Definition newGauge (value max : Q) (unit color : string) : Gauge :=
  {| filled := value; rest := max - value; centerText := [num value; lit unit];
     color := color |}.

(** The charts [initializeCharts] leaves for the snapshot [d] on the page
    [doc]. *)
Definition createdCharts (d : data.t) (doc : gmap string Element) : Charts :=
  {| solarGauge := onCanvas doc "solarGauge" (newGauge (acPower d) 60 "kW" "#FFC185");
     windGauge := onCanvas doc "windGauge" (newGauge (windPower d) 25 "kW" "#1FB8CD");
     cbgGauge := onCanvas doc "cbgGauge" (newGauge (cbgPower d) 30 "kW" "#B4413C");
     batteryGauge :=
       onCanvas doc "batteryGauge" (newGauge (overallSOC d) 100 "%" "#5D878F");
     demandChart := onCanvas doc "demandChart" initialDemandChart |}.

(** The charts [updateCharts] leaves for the snapshot [d], from the charts
    [ch], at the time the clock shows. *)
Definition updatedCharts (c : Clock) (d : data.t) (ch : Charts) : Charts :=
  {| solarGauge := updateGauge (solarGauge ch) (acPower d) 60;
     windGauge := updateGauge (windGauge ch) (windPower d) 25;
     cbgGauge := updateGauge (cbgGauge ch) (cbgPower d) 30;
     batteryGauge := updateGauge (batteryGauge ch) (overallSOC d) 100;
     demandChart :=
       match demandChart ch with
       | Some l => Some (updateDemandChart (hhmm c) d l)
       | None => None
       end |}.

(** A method leaves the charts and the snapshot alone: it writes to the
    document and draws, no more. *)
Definition only_document {A : Type} (m : DOM A) : Prop :=
  forall w : World data.t,
    match m w with
    | Return _ w' => charts w' = charts w /\ currentData w' = currentData w
    | Throw _ w' => charts w' = charts w /\ currentData w' = currentData w
    end.

(** What holds of the dashboard a method leaves: [R] when it returns, [T]
    when it throws. *)
Definition outcome {A : Type} (m : DOM A) (w : World data.t)
    (R T : World data.t -> Prop) : Prop :=
  match m w with
  | Return _ w' => R w'
  | Throw _ w' => T w'
  end.

(** A method leaves absent elements absent. *)
Definition keeps_absent {A : Type} (m : DOM A) : Prop :=
  forall (w : World data.t) (id : string),
    document w !! id = None ->
    match m w with
    | Return _ w' => document w' !! id = None
    | Throw _ w' => document w' !! id = None
    end.

(** A method throws when the element [id] is absent. *)
Definition faults_without {A : Type} (id : string) (m : DOM A) : Prop :=
  forall w : World data.t,
    document w !! id = None -> exists e w', m w = Throw e w'.

(** A dashboard on a page that has the text elements but no canvas, and
    one on a page that has the canvases but no text element. *)
Definition noCanvasWorld : World data.t :=
  freshDashboard (page writtenElements) (fun _ => 1 / 2).
Definition noTextWorld : World data.t :=
  freshDashboard (page canvases) (fun _ => 1 / 2).

(** * The integration seam *)

(** What the server may send: any JavaScript value. *)
#[warnings="-register-all"]
Inductive JSVal :=
  | JNum (x : Q)
  | JStr (s : string)
  | JArr (l : list JSVal)
  | JObj (fields : gmap string JSVal)
  | JUndefined.

(** An object literal. *)
Definition object (fields : list (string * JSVal)) : JSVal :=
  JObj (list_to_map fields).

(** [v.key]; [None] when [v] has no such property. *)
Definition prop (key : string) (v : JSVal) : option JSVal :=
  match v with
  | JObj fields => fields !! key
  | _ => None
  end.

(** [obj.k1.k2...] from the top of an object. *)
Definition path (keys : list string) (obj : gmap string JSVal) : option JSVal :=
  foldl (fun v key => v ≫= prop key) (Some (JObj obj)) keys.

(** [{ ...a, ...b }]: the properties of [a], then those of [b] over them. *)
Definition spread (a b : gmap string JSVal) : gmap string JSVal := b ∪ a.

(** The snapshot as the object [initializeData] builds. *)
Definition of_solar (r : solar.t) : JSVal :=
  object [ ("dcPower", JNum (solar.dcPower r)); ("acPower", JNum (solar.acPower r));
           ("efficiency", JNum (solar.efficiency r));
           ("irradiance", JNum (solar.irradiance r));
           ("moduleTemp", JNum (solar.moduleTemp r)) ]%string.
Definition of_wind (r : wind.t) : JSVal :=
  object [ ("power", JNum (wind.power r)); ("windSpeed", JNum (wind.windSpeed r));
           ("efficiency", JNum (wind.efficiency r)) ]%string.
Definition of_cbg (r : cbg.t) : JSVal :=
  object [ ("power", JNum (cbg.power r)); ("status", JStr (cbg.status r));
           ("efficiency", JNum (cbg.efficiency r)) ]%string.
Definition of_generation (r : generation.t) : JSVal :=
  object [ ("solar", of_solar (generation.solar r));
           ("wind", of_wind (generation.wind r));
           ("cbg", of_cbg (generation.cbg r));
           ("totalGeneration", JNum (generation.totalGeneration r)) ]%string.
Definition of_pack (r : pack.t) : JSVal :=
  object [ ("id", JNum (inject_Z (pack.id r))); ("soc", JNum (pack.soc r));
           ("soh", JNum (pack.soh r)); ("temp", JNum (pack.temp r));
           ("voltage", JNum (pack.voltage r)) ]%string.
Definition of_storage (r : storage.t) : JSVal :=
  object [ ("overallSOC", JNum (storage.overallSOC r));
           ("totalCapacity", JNum (storage.totalCapacity r));
           ("chargePower", JNum (storage.chargePower r));
           ("dischargePower", JNum (storage.dischargePower r));
           ("batteryPacks", JArr (map of_pack (storage.batteryPacks r))) ]%string.
Definition of_demand (r : demand.t) : JSVal :=
  object [ ("totalLoad", JNum (demand.totalLoad r));
           ("criticalLoads", JNum (demand.criticalLoads r));
           ("flexibleLoads", JNum (demand.flexibleLoads r));
           ("peakReduction", JNum (demand.peakReduction r)) ]%string.
Definition of_powerQuality (r : powerQuality.t) : JSVal :=
  object [ ("voltage", JNum (powerQuality.voltage r));
           ("frequency", JNum (powerQuality.frequency r));
           ("thd", JNum (powerQuality.thd r)) ]%string.
Definition of_systemMetrics (r : systemMetrics.t) : JSVal :=
  object [ ("overallEfficiency", JNum (systemMetrics.overallEfficiency r));
           ("uptime", JNum (systemMetrics.uptime r));
           ("powerQuality", of_powerQuality (systemMetrics.powerQuality r)) ]%string.
Definition of_weather (r : weather.t) : JSVal :=
  object [ ("temperature", JNum (weather.temperature r));
           ("humidity", JNum (weather.humidity r));
           ("windSpeed", JNum (weather.windSpeed r));
           ("irradiance", JNum (weather.irradiance r));
           ("cloudCover", JNum (weather.cloudCover r)) ]%string.
Definition of_option (s : option string) : JSVal :=
  match s with Some s => JStr s | None => JUndefined end.
Definition of_alert (r : alert.t) : JSVal :=
  object [ ("id", JNum (inject_Z (alert.id r))); ("type", of_option (alert.type r));
           ("message", of_option (alert.message r));
           ("time", JStr (alert.time r)) ]%string.
Definition of_data (r : data.t) : gmap string JSVal :=
  list_to_map
    [ ("generation", of_generation (data.generation r));
      ("storage", of_storage (data.storage r));
      ("demand", of_demand (data.demand r));
      ("systemMetrics", of_systemMetrics (data.systemMetrics r));
      ("weather", of_weather (data.weather r));
      ("alerts", JArr (map of_alert (data.alerts r))) ]%string.

(** [updateFromServer(newData)].  The render pass it ends with is the
    method [updateDashboard] of a dashboard whose [currentData] is whatever
    the merge has left, of any shape; it is taken as it comes. *)
Definition updateFromServer {R : Type}
    (updateDashboard : World (gmap string JSVal) -> R)
    (newData : gmap string JSVal) (this : World (gmap string JSVal)) : R :=
  let this := set_currentData (spread (currentData this) newData) this in
  updateDashboard this.

(** A render pass that only counts itself. *)
Definition countRender (passes : nat) (this : World (gmap string JSVal)) :
    nat * World (gmap string JSVal) :=
  (S passes, this).

(** A partial record that brings [generation.solar] and nothing else. *)
Definition solarOnly : gmap string JSVal :=
  list_to_map
    [ ("generation",
       object [ ("solar", object [ ("acPower", JNum 50) ]%string) ]%string) ]%string.

(** * Further vocabulary: what a tick computes *)

(** Every draw of [Math.random()] is in [[0, 1)]. *)
Definition unit_draws (s : Draws) : Prop := forall k : nat, 0 <= s k /\ s k < 1.

(** A tick as the browser produces it: draws in [[0, 1)] and a sine in
    [[-1, 1]]. *)
Definition genuine (t : Tick) : Prop :=
  unit_draws (draws t) /\ -1 <= sinHour (clock t) /\ sinHour (clock t) <= 1.

(** In range for a percentage. *)
Definition percent_ok (x : Q) : Prop := 0 <= x /\ x <= 100.

(** The readings of a tick as the step computes them, from the cloud cover
    it finds and its first three draws and the sine of the hour. *)
Definition irradianceOf (cloud r : Q) : Q :=
  Math.round ((850 + r * 100) * ((100 - cloud) / 100)).
Definition dcPowerOf (irradiance : Q) : Q :=
  Math.round (irradiance / 1000 * 52 * 10) / 10.
Definition acPowerOf (dc : Q) : Q := Math.round (dc * 0.94 * 10) / 10.
Definition windSpeedOf (r : Q) : Q := Math.max 0 (8.2 + (r - 0.5) * 4).
Definition cbgPowerOf (r : Q) : Q := 18.5 + (r - 0.5) * 2.
Definition totalLoadOf (sine : Q) : Q :=
  Math.round (65.5 * (1 + 0.2 * sine) * 10) / 10.
Definition criticalLoadsOf (load : Q) : Q := Math.round (load * 0.43 * 10) / 10.
Definition flexibleLoadsOf (load : Q) : Q := Math.round (load * 0.57 * 10) / 10.

(** The draws left when the step reaches "Weather changes". *)
Definition weatherDraws (d : data.t) (s : Draws) : Draws :=
  afterPacks (length (batteryPacks d)) (tail (tail (tail s))).

(** The snapshot on which the alert block of a tick runs. *)
Definition beforeAlert (c : Clock) (d : data.t) (s : Draws) : data.t :=
  let b := batteryManagement (atBattery c d s) in
  let p := fst (updatePacks b (tail (tail (tail s)))) in
  let w := fst (weatherChanges p (weatherDraws d s)) in
  fst (systemEfficiency w (tail (tail (weatherDraws d s)))).

(** Charging at 15 kW at most and discharging at 20 kW at most. *)
Definition power_ok (d : data.t) : Prop :=
  (0 <= chargePower d /\ chargePower d <= 15) /\
  (0 <= dischargePower d /\ dischargePower d <= 20).

(** The ranges of the generation readings of a tick in the browser.  The
    ends are closed, and the lower end of the wind speed is a tenth below
    the exact one, so that the ranges do not hang on the last digit of
    the arithmetic. *)
Definition readings_ok (d : data.t) : Prop :=
  (0 <= weather.irradiance (data.weather d) /\
   weather.irradiance (data.weather d) <= 950) /\
  (0 <= dcPower d /\ dcPower d <= 49.4) /\
  (0 <= acPower d /\ acPower d <= 46.4) /\
  (6.1 <= weather.windSpeed (data.weather d) /\
   weather.windSpeed (data.weather d) <= 10.2) /\
  (3.4 <= windPower d /\ windPower d <= 15.4) /\
  (17.5 <= cbgPower d /\ cbgPower d <= 19.5).

(** A pack as the loop over the packs leaves it, beside a state of charge
    [soc] of the whole battery. *)
Definition pack_near (soc : Q) (p : pack.t) : Prop :=
  Qabs (pack.soc p - soc) <= 4 /\ 22 <= pack.temp p /\ pack.temp p <= 26.

(** An alert whose type and message are defined, out of the two pools. *)
Definition alert_ok (a : alert.t) : Prop :=
  (exists ty, alert.type a = Some ty /\ In ty alertTypes) /\
  (exists m, alert.message a = Some m /\
             In m ("Battery Pack 4 SOC below 65%"
                   :: "Cloud cover increasing - generation may decrease"
                   :: messages)%string).

(** How many draws a step takes from a snapshot with [packs] battery
    packs: three for the generation, two a pack, three for the weather and
    the efficiency, one to decide on an alert and two more to make it. *)
Definition drawsTaken (packs : nat) (alert : bool) : nat :=
  3 + 2 * packs + 3 + 1 + (if alert then 2 else 0).

(** * Further vocabulary: what a render pass leaves *)

(** The elements [ids] are on the page. *)
Definition present (ids : list string) (w : World data.t) : Prop :=
  Forall (fun id => is_Some (document w !! id)) ids.

(** The dashboard [w'] differs from [w] in what its elements hold only. *)
Definition same_but_contents (w w' : World data.t) : Prop :=
  charts w' = charts w /\ currentData w' = currentData w /\
  entropy w' = entropy w /\ dom (document w') = dom (document w).

(** A plain writer: whether it returns or throws it changes what elements
    hold and no more, and it returns when the elements [ids] are there. *)
Definition plain (ids : list string) (m : DOM unit) : Prop :=
  forall w : World data.t,
    outcome m w (same_but_contents w) (same_but_contents w) /\
    (present ids w -> exists w', m w = Return tt w').

(** A method that returns leaves the element [id] as it was. *)
Definition leaves {A : Type} (id : string) (m : DOM A) : Prop :=
  forall w : World data.t,
    outcome m w (fun w' => document w' !! id = document w !! id) (fun _ => True).

(** A method leaves the snapshot as it was. *)
Definition data_kept {A : Type} (m : DOM A) : Prop :=
  forall w : World data.t,
    outcome m w (fun w' => currentData w' = currentData w)
      (fun w' => currentData w' = currentData w).

(** On a dashboard whose snapshot is [d], a method that returns leaves the
    element [id] such that [P] holds of it. *)
Definition settles {A : Type} (d : data.t) (id : string)
    (P : option Element -> Prop) (m : DOM A) : Prop :=
  forall w : World data.t,
    currentData w = d ->
    outcome m w (fun w' => P (document w' !! id)) (fun _ => True).

(** The element shows the text [v]. *)
Definition shows (v : list Piece) (e : option Element) : Prop :=
  textContent <$> e = Some v.

(** The element holds the items [items], and no other. *)
Definition lists (items : list Item) (e : option Element) : Prop :=
  children <$> e = Some items.

(** The bar is as wide as [v] says. *)
Definition spans (v : list Piece) (e : option Element) : Prop :=
  width <$> e = Some v.

(** A dashboard just made on a page with every element and every canvas. *)
Definition wholePage : World data.t :=
  freshDashboard (page (writtenElements ++ canvases)) (fun _ => 1 / 2).

(** The clock of a render at noon. *)
Definition noon : Clock := {| sinHour := 0; now := 0; hhmm := "12:00" |}.

(** The text fields of the page and what a render of the snapshot [d]
    leaves in each. *)
Definition textFields (d : data.t) : list (string * list Piece) :=
  [ ("totalGeneration", [fixed1 (totalGeneration d); lit " kW"]);
    ("solarDC", [fixed1 (dcPower d); lit " kW"]);
    ("solarAC", [fixed1 (acPower d); lit " kW"]);
    ("solarEfficiency",
     [fixed1 (solar.efficiency (generation.solar (data.generation d))); lit "%"]);
    ("windPower", [fixed1 (windPower d); lit " kW"]);
    ("windSpeed", [fixed1 (weather.windSpeed (data.weather d)); lit " m/s"]);
    ("windEfficiency",
     [fixed1 (wind.efficiency (generation.wind (data.generation d))); lit "%"]);
    ("cbgPower", [fixed1 (cbgPower d); lit " kW"]);
    ("cbgEfficiency",
     [fixed1 (cbg.efficiency (generation.cbg (data.generation d))); lit "%"]);
    ("overallSOC", [num (Math.round (overallSOC d)); lit "%"]);
    ("chargePower", [fixed1 (chargePower d); lit " kW"]);
    ("criticalLoads", [fixed1 (demand.criticalLoads (data.demand d)); lit " kW"]);
    ("flexibleLoads", [fixed1 (demand.flexibleLoads (data.demand d)); lit " kW"]);
    ("peakReduction", [fixed1 (demand.peakReduction (data.demand d)); lit "%"]);
    ("temperature", [fixed1 (weather.temperature (data.weather d)); lit "°C"]);
    ("irradiance", [num (weather.irradiance (data.weather d)); lit " W/m²"]);
    ("weatherWindSpeed", [fixed1 (weather.windSpeed (data.weather d)); lit " m/s"]);
    ("cloudCover", [num (Math.round (cloudCover d)); lit "%"]);
    ("overallEfficiency",
     [fixed1 (systemMetrics.overallEfficiency (data.systemMetrics d)); lit "%"]);
    ("voltageValue",
     [fixed1 (powerQuality.voltage (systemMetrics.powerQuality (data.systemMetrics d)));
      lit "V"]);
    ("thdValue",
     [fixed1 (powerQuality.thd (systemMetrics.powerQuality (data.systemMetrics d)));
      lit "% THD"]);
    ("footerUptime", [fixed1 (systemMetrics.uptime (data.systemMetrics d)); lit "%"]);
    ("footerPeakReduction", [fixed1 (demand.peakReduction (data.demand d)); lit "%"]);
    ("energyBalance", [fixed1 (totalGeneration d - totalLoad d); lit " kW"]);
    ("efficiencyGain",
     [lit "+"; fixed1 (systemMetrics.overallEfficiency (data.systemMetrics d) - 75.6);
      lit "%"]);
    ("solarNodeValue", [fixed1 (acPower d); lit "kW"]);
    ("windNodeValue", [fixed1 (windPower d); lit "kW"]);
    ("cbgNodeValue", [fixed1 (cbgPower d); lit "kW"]);
    ("batteryNodeValue", [num (Math.round (overallSOC d)); lit "% SOC"]);
    ("batteryPowerValue",
     if gtb (chargePower d) 0
     then [lit "+"; fixed1 (chargePower d); lit "kW"]
     else [lit "-"; fixed1 (dischargePower d); lit "kW"]);
    ("criticalLoadValue", [fixed1 (demand.criticalLoads (data.demand d)); lit "kW"]);
    ("flexibleLoadValue", [fixed1 (demand.flexibleLoads (data.demand d)); lit "kW"]) ]%string.

(** The dashboard [w1] in the course of a render pass started on [w]: the
    charts are [ch], the draws to come are [s], and the snapshot and the
    set of elements are those of [w]. *)
Definition during (ch : Charts) (s : Draws) (w w1 : World data.t) : Prop :=
  charts w1 = ch /\ currentData w1 = currentData w /\ entropy w1 = s /\
  dom (document w1) = dom (document w).

(** What holds when a render pass started on [w] has thrown: an element it
    writes to was absent; the snapshot and the set of elements are as they
    were, and one draw has been taken at most. *)
Definition thrown (w w' : World data.t) : Prop :=
  currentData w' = currentData w /\ dom (document w') = dom (document w) /\
  ~ present writtenElements w /\
  (entropy w' = entropy w \/ entropy w' = tail (entropy w)).


(** * Further vocabulary: the dashboard at work *)

(** [this.simulateDataChanges()] on the dashboard: the step on its snapshot,
    with the draws to come. *)
Definition simulate (c : Clock) : DOM unit :=
  fun w =>
    let '(d, s) := simulateDataChanges c (currentData w) (entropy w) in
    Return tt (set_entropy s (set_currentData d w)).

(** The callback of the interval of [startSimulation]; [c] is what the
    clock shows to the step and [c'] what it shows to the render pass. *)
Definition tick (c c' : Clock) : DOM unit :=
  _ ← simulate c;
  updateDashboard c'.

(** The dashboard a callback leaves: an exception ends the callback, and
    what it wrote before stays. *)
Definition after {A : Type} (r : Result A) : World data.t :=
  match r with
  | Return _ w => w
  | Throw _ w => w
  end.

(** The interval of [startSimulation] firing once for each pair of
    clocks, oldest first. *)
Definition interval (cs : list (Clock * Clock)) (w : World data.t) : World data.t :=
  fold_left (fun w p => after (tick (fst p) (snd p) w)) cs w.

(** The ticks of the simulation that the interval has made on [w]: the
    clocks the steps have read, and the draws each step has found. *)
Fixpoint ticksOf (cs : list (Clock * Clock)) (w : World data.t) : list Tick :=
  match cs with
  | [] => []
  | p :: cs' =>
      {| clock := fst p; draws := entropy w |}
      :: ticksOf cs' (after (tick (fst p) (snd p) w))
  end.

(** The doughnut chart as it is drawn for the reading [x] out of [max],
    when it was made for the reading [x0]: the centre shows [x0]. *)
Definition drawnGauge (x0 x max : Q) (suffix color : string) : Gauge :=
  {| filled := x; rest := max - x; centerText := [num x0; lit suffix];
     color := color |}.

(** The four doughnut charts made for the snapshot [d0], whatever they
    are drawn for now, and a line chart with its window. *)
Definition chartsMadeFor (d0 : data.t) (ch : Charts) : Prop :=
  (exists x, solarGauge ch = Some (drawnGauge (acPower d0) x 60 "kW" "#FFC185")) /\
  (exists x, windGauge ch = Some (drawnGauge (windPower d0) x 25 "kW" "#1FB8CD")) /\
  (exists x, cbgGauge ch = Some (drawnGauge (cbgPower d0) x 30 "kW" "#B4413C")) /\
  (exists x, batteryGauge ch = Some (drawnGauge (overallSOC d0) x 100 "%" "#5D878F")) /\
  (exists l, demandChart ch = Some l /\ window_ok l).

(** * Further vocabulary: the load and the surroundings *)

(** The ranges of the load, the temperature and the efficiency of a tick
    in the browser, ends included. *)
Definition ambient_ok (d : data.t) : Prop :=
  (52.4 <= totalLoad d /\ totalLoad d <= 78.6) /\
  (25.5 <= weather.temperature (data.weather d) /\
   weather.temperature (data.weather d) <= 31.5) /\
  (91.8 <= systemMetrics.overallEfficiency (data.systemMetrics d) /\
   systemMetrics.overallEfficiency (data.systemMetrics d) <= 93.8).

(** The widths of the two load bars, in percent. *)
Definition criticalPct (d : data.t) : Q :=
  demand.criticalLoads (data.demand d) / totalLoad d * 100.
Definition flexiblePct (d : data.t) : Q :=
  demand.flexibleLoads (data.demand d) / totalLoad d * 100.

(** The tenths that [x.toFixed(1)] shows: the integer [n] with [n / 10]
    nearest to [x], the larger of two; for a negative [x], those of [-x]
    with the sign. *)
Definition toFixed1 (x : Q) : Z :=
  if Qle_bool 0 x then Qfloor (x * 10 + 1 / 2)
  else (- Qfloor (- x * 10 + 1 / 2))%Z.

(** The bars show 43% and 57%, to a tenth. *)
Definition shares_ok (d : data.t) : Prop :=
  (42.9 <= criticalPct d /\ criticalPct d <= 43.1) /\
  (56.9 <= flexiblePct d /\ flexiblePct d <= 57.1).

(** * Further vocabulary: the dashboard in the browser *)

(** ** The views *)

(** An element as [switchView] sees it: its id, its [classList] and its
    [data-view] attribute.  Of the page [switchView] sees the list of its
    elements, in document order. *)
Record Node :=
  { nodeId : option string; classList : list string; dataView : option string }.

(** [classList.remove(c)], [classList.add(c)] and [classList.contains(c)]. *)
Definition removeClass (c : string) (n : Node) : Node :=
  {| nodeId := nodeId n; classList := filter (fun x => x <> c) (classList n);
     dataView := dataView n |}.
Definition addClass (c : string) (n : Node) : Node :=
  {| nodeId := nodeId n;
     classList := if bool_decide (c ∈ classList n) then classList n
                  else classList n ++ [c];
     dataView := dataView n |}.
Definition hasClass (c : string) (n : Node) : bool := bool_decide (c ∈ classList n).

(** The position of the first element that satisfies [P]: what
    [getElementById] and [querySelector] return, [None] for [null]. *)
Definition firstIndex (P : Node -> Prop) `{!forall n, Decision (P n)}
    (nodes : list Node) : option nat :=
  fst <$> list_find P nodes.

(** [document.querySelectorAll('.' + c).forEach(e =>
    e.classList.remove('active'))]. *)
Definition deactivate (c : string) (nodes : list Node) : list Node :=
  (fun n => if hasClass c n then removeClass "active" n else n) <$> nodes.

(** A name that stands for itself between the double quotes of an
    attribute selector: no quote, backslash, line break or null. *)
Definition plainChar (a : Ascii.ascii) : bool :=
  negb (bool_decide (Ascii.nat_of_ascii a ∈ [34; 92; 10; 12; 13; 0]%nat)).
Definition plainName (s : string) : bool :=
  forallb plainChar (String.list_ascii_of_string s).

(** What [switchView] does: it returns, or it throws a [TypeError] on a
    [null] element, with the elements as they are then.  The selector of
    a name that is not plain is beyond this model. *)
Inductive Switched :=
  | Shown (nodes : list Node)
  | NoElement (nodes : list Node)
  | Unmodelled.

Definition switchView (viewName : string) (nodes : list Node) : Switched :=
  let nodes := deactivate "view-content" nodes in
  match firstIndex (fun n => nodeId n = Some (viewName +:+ "-view")) nodes with
  | None => NoElement nodes
  | Some i =>
      let nodes := alter (addClass "active") i nodes in
      let nodes := deactivate "nav-item" nodes in
      if plainName viewName then
        match firstIndex (fun n => dataView n = Some viewName) nodes with
        | None => NoElement nodes
        | Some j => Shown (alter (addClass "active") j nodes)
        end
      else Unmodelled
  end.

(** The element has the class [active]. *)
Definition active (n : Node) : Prop := "active" ∈ classList n.

(** The same element, but for the class [active]; and the same elements
    in the same order. *)
Definition same_but_active (n n' : Node) : Prop :=
  nodeId n' = nodeId n /\ dataView n' = dataView n /\
  forall c, c <> "active"%string -> c ∈ classList n' <-> c ∈ classList n.
Definition same_elements (nodes nodes' : list Node) : Prop :=
  Forall2 same_but_active nodes nodes'.

(** Two views, the first one shown, and their two navigation items. *)
Definition twoViews : list Node :=
  [ {| nodeId := None; classList := ["nav-item"; "active"];
       dataView := Some "overview" |};
    {| nodeId := None; classList := ["nav-item"]; dataView := Some "storage" |};
    {| nodeId := Some "overview-view"; classList := ["view-content"; "active"];
       dataView := None |};
    {| nodeId := Some "storage-view"; classList := ["view-content"];
       dataView := None |} ]%string.

(** ** The dashboard object and the page *)

(** What the browser is asked to call back. *)
Inductive Callback :=
  | navClick (view : option string)
  | emergencyStopClick
  | flowViewChange
  | simulationTick
  | clockTick
  | connectionCheck
  | reconnection.

(** [target.addEventListener(event, listener)]. *)
Record Listener := { target : string; event : string; listener : Callback }.

(** [setInterval(callback, delay)] and [setTimeout(callback, delay)]. *)
Record Timer := { callback : Callback; delay : Q; repeating : bool }.

(** The dashboard object with its page: besides the charts, the snapshot,
    the elements and the draws, the flag [isConnected], the handle
    [simulationInterval], the [data-view] of the elements of class
    [nav-item], the [className] written to elements, the listeners and
    the timers registered, and whether [window.dashboard] is set. *)
Record Browser :=
  { dashboard : World data.t;
    isConnected : bool;
    simulationInterval : option nat;
    navItems : list (option string);
    classNames : gmap string string;
    listeners : list Listener;
    timers : list Timer;
    exported : bool }.

Definition set_dashboard (v : World data.t) (b : Browser) : Browser :=
  {| dashboard := v; isConnected := isConnected b;
     simulationInterval := simulationInterval b; navItems := navItems b;
     classNames := classNames b; listeners := listeners b; timers := timers b;
     exported := exported b |}.
Definition set_isConnected (v : bool) (b : Browser) : Browser :=
  {| dashboard := dashboard b; isConnected := v;
     simulationInterval := simulationInterval b; navItems := navItems b;
     classNames := classNames b; listeners := listeners b; timers := timers b;
     exported := exported b |}.
Definition set_simulationInterval (v : option nat) (b : Browser) : Browser :=
  {| dashboard := dashboard b; isConnected := isConnected b;
     simulationInterval := v; navItems := navItems b;
     classNames := classNames b; listeners := listeners b; timers := timers b;
     exported := exported b |}.
Definition set_classNames (v : gmap string string) (b : Browser) : Browser :=
  {| dashboard := dashboard b; isConnected := isConnected b;
     simulationInterval := simulationInterval b; navItems := navItems b;
     classNames := v; listeners := listeners b; timers := timers b;
     exported := exported b |}.
Definition set_listeners (v : list Listener) (b : Browser) : Browser :=
  {| dashboard := dashboard b; isConnected := isConnected b;
     simulationInterval := simulationInterval b; navItems := navItems b;
     classNames := classNames b; listeners := v; timers := timers b;
     exported := exported b |}.
Definition set_timers (v : list Timer) (b : Browser) : Browser :=
  {| dashboard := dashboard b; isConnected := isConnected b;
     simulationInterval := simulationInterval b; navItems := navItems b;
     classNames := classNames b; listeners := listeners b; timers := v;
     exported := exported b |}.
Definition set_exported (v : bool) (b : Browser) : Browser :=
  {| dashboard := dashboard b; isConnected := isConnected b;
     simulationInterval := simulationInterval b; navItems := navItems b;
     classNames := classNames b; listeners := listeners b; timers := timers b;
     exported := v |}.

(** A script either runs to its end or is ended by an exception; what it
    did before stays. *)
Inductive Ended (A : Type) :=
  | Done (a : A) (b : Browser)
  | Failed (e : string) (b : Browser).
Arguments Done {A} a b.
Arguments Failed {A} e b.

Definition Script (A : Type) : Type := Browser -> Ended A.

#[global] Instance Script_ret : MRet Script := fun A (a : A) b => Done a b.
#[global] Instance Script_bind : MBind Script :=
  fun A B (f : A -> Script B) (m : Script A) b =>
    match m b with
    | Done a b' => f a b'
    | Failed e b' => Failed e b'
    end.

(** A method of the dashboard, run on the dashboard of the page. *)
Definition inDashboard {A : Type} (m : DOM A) : Script A :=
  fun b =>
    match m (dashboard b) with
    | Return a w => Done a (set_dashboard w b)
    | Throw e w => Failed e (set_dashboard w b)
    end.

Definition assign (f : Browser -> Browser) : Script unit := fun b => Done tt (f b).

Definition addEventListener (l : Listener) : Script unit :=
  assign (fun b => set_listeners (listeners b ++ [l]) b).

(** [setInterval] and [setTimeout] return a handle: here the position of
    the timer among those registered. *)
Definition setTimer (t : Timer) : Script nat :=
  fun b => Done (length (timers b)) (set_timers (timers b ++ [t]) b).

Fixpoint forEachDo {A : Type} (f : A -> Script unit) (l : list A) : Script unit :=
  match l with
  | [] => mret tt
  | x :: l' => _ ← f x; forEachDo f l'
  end.

(** [document.getElementById(id)] in a script. *)
Definition getElement (id : string) : Script (option Element) :=
  fun b => Done (document (dashboard b) !! id) b.

Definition nullRead : string := "TypeError: Cannot read properties of null".

(** [document.getElementById(id).addEventListener(event, listener)]. *)
Definition listenOn (id event : string) (c : Callback) : Script unit :=
  el ← getElement id;
  match el with
  | Some _ => addEventListener {| target := id; event := event; listener := c |}
  | None => fun b => Failed nullRead b
  end.

(** The listener of a click on the navigation item whose [data-view] is
    [view]. *)
Definition navListener (view : option string) : Listener :=
  {| target := ".nav-item"; event := "click"; listener := navClick view |}.

Definition setupEventListeners : Script unit :=
  items ← (fun b => Done (navItems b) b);
  _ ← forEachDo (fun view => addEventListener (navListener view)) items;
  _ ← listenOn "emergencyStop" "click" emergencyStopClick;
  listenOn "flowViewSelect" "change" flowViewChange.

Definition startSimulation : Script unit :=
  h ← setTimer {| callback := simulationTick; delay := 3000; repeating := true |};
  assign (set_simulationInterval (Some h)).

(** [timeString] is what [toLocaleTimeString] returns for the time of the
    call. *)
Definition updateTime (timeString : string) : Script unit :=
  inDashboard (setTextContent "currentTime" [lit timeString]).

(** [new MicrogridDashboard()].  ([this.currentData = null] is
    overwritten by [initializeData] before it is read.) *)
Definition construct (timeString : string) : Script unit :=
  _ ← assign (fun b => set_dashboard (set_charts noCharts (dashboard b)) b);
  _ ← assign (set_simulationInterval None);
  _ ← assign (set_isConnected true);
  _ ← assign (fun b => set_dashboard (set_currentData initializeData (dashboard b)) b);
  _ ← setupEventListeners;
  _ ← inDashboard initializeCharts;
  _ ← startSimulation;
  _ ← updateTime timeString;
  _ ← setTimer {| callback := clockTick; delay := 1000; repeating := true |};
  mret tt.

Definition simulateConnectionStatus : Script unit :=
  _ ← setTimer {| callback := connectionCheck; delay := 30000; repeating := true |};
  mret tt.

(** The listener of [DOMContentLoaded]. *)
Definition onLoad (timeString : string) : Script unit :=
  _ ← construct timeString;
  _ ← assign (set_exported true);
  simulateConnectionStatus.

(** [document.getElementById(id).className = c]. *)
Definition setClassName (id c : string) : Script unit :=
  el ← getElement id;
  match el with
  | Some _ => assign (fun b => set_classNames (<[id := c]> (classNames b)) b)
  | None => fun b => Failed nullError b
  end.

(** The callback of the interval of [simulateConnectionStatus]. *)
Definition checkConnection : Script unit :=
  r ← inDashboard draw;
  if ltb r 0.05 then
    _ ← assign (set_isConnected false);
    _ ← inDashboard (setTextContent "connectionStatus" [lit "Disconnected"]);
    _ ← setClassName "connectionStatus" "status status--error";
    r' ← inDashboard draw;
    _ ← setTimer {| callback := reconnection; delay := 3000 + r' * 7000;
                    repeating := false |};
    mret tt
  else mret tt.

(** The callback of the timeout of [simulateConnectionStatus]. *)
Definition reconnect : Script unit :=
  _ ← assign (set_isConnected true);
  _ ← inDashboard (setTextContent "connectionStatus" [lit "Connected"]);
  setClassName "connectionStatus" "status status--success".

(** The page before the script runs: the elements [doc], the navigation
    items [nav], the draws [s], and nothing registered; the fields of the
    dashboard object are written by the constructor before they are
    read. *)
Definition loaded (doc : gmap string Element) (nav : list (option string))
    (s : Draws) : Browser :=
  {| dashboard := freshDashboard doc s; isConnected := false;
     simulationInterval := None; navItems := nav; classNames := ∅;
     listeners := []; timers := []; exported := false |}.

(** The elements the constructor needs. *)
Definition neededElements : list string :=
  ["emergencyStop"; "flowViewSelect"; "currentTime"]%string.

(** The three timers of a dashboard that has loaded. *)
Definition simulationTimer : Timer :=
  {| callback := simulationTick; delay := 3000; repeating := true |}.
Definition clockTimer : Timer :=
  {| callback := clockTick; delay := 1000; repeating := true |}.
Definition connectionTimer : Timer :=
  {| callback := connectionCheck; delay := 30000; repeating := true |}.
(** * Properties of the simulation step *)

(** ** Comparisons and clamps *)

Lemma ltb_lt (x y : Q) : ltb x y = true <-> x < y.
Proof.
  unfold ltb. rewrite negb_true_iff, <- not_true_iff_false, Qle_bool_iff.
  split; [apply Qnot_le_lt | apply Qlt_not_le].
Qed.

Lemma ltb_ge (x y : Q) : ltb x y = false <-> y <= x.
Proof.
  unfold ltb. rewrite negb_false_iff. apply Qle_bool_iff.
Qed.

Lemma gtb_gt (x y : Q) : gtb x y = true <-> y < x.
Proof. apply ltb_lt. Qed.

Lemma min_cases (x y : Q) :
  (x <= y /\ Math.min x y == x) \/ (y <= x /\ Math.min x y == y).
Proof.
  unfold Math.min. destruct (Q.min_spec x y) as [[H E] | [H E]]; [left | right];
    split; auto; lra.
Qed.

Lemma max_cases (x y : Q) :
  (x <= y /\ Math.max x y == y) \/ (y <= x /\ Math.max x y == x).
Proof.
  unfold Math.max. destruct (Q.max_spec x y) as [[H E] | [H E]]; [left | right];
    split; auto; lra.
Qed.

(** [Math.max(lo, Math.min(hi, x))] lands in [[lo, hi]]. *)
Lemma clamp_range (lo hi x : Q) :
  lo <= hi -> lo <= Math.max lo (Math.min hi x) /\ Math.max lo (Math.min hi x) <= hi.
Proof.
  intros Hlh.
  destruct (max_cases lo (Math.min hi x)) as [[H E] | [H E]];
    destruct (min_cases hi x) as [[H' E'] | [H' E']]; lra.
Qed.

(** ** Running the monad *)

(** Names the result of the next block of a monadic sequence. *)
Ltac next_block :=
  cbv beta iota delta [mbind mret Rand_bind Rand_ret];
  match goal with
  | |- context [match ?m ?s with pair _ _ => _ end] =>
      let E := fresh "E" in destruct (m s) eqn:E
  end.

(** Unfolds a block that is a straight line of draws and writes. *)
Ltac straight_line :=
  cbv beta iota zeta delta
    [solarVariations windVariations cbgVariations weatherChanges
     systemEfficiency updatePack mbind mret Rand_bind Rand_ret Math.random
     fst snd].

(** ** What each block leaves alone *)

Lemma keeps_refl (d : data.t) : keeps d d.
Proof. repeat split. Qed.

Lemma keeps_trans (d1 d2 d3 : data.t) : keeps d1 d2 -> keeps d2 d3 -> keeps d1 d3.
Proof.
  intros (H1 & H2 & H3) (K1 & K2 & K3).
  repeat split; congruence.
Qed.

Lemma solarVariations_keeps (d : data.t) (s : Draws) :
  keeps d (fst (solarVariations d s)).
Proof. straight_line. repeat split. Qed.

Lemma windVariations_keeps (d : data.t) (s : Draws) :
  keeps d (fst (windVariations d s)).
Proof. straight_line. repeat split. Qed.

Lemma cbgVariations_keeps (d : data.t) (s : Draws) :
  keeps d (fst (cbgVariations d s)).
Proof. straight_line. repeat split. Qed.

Lemma sumGeneration_keeps (d : data.t) : keeps d (sumGeneration d).
Proof. repeat split. Qed.

Lemma loadVariations_keeps (c : Clock) (d : data.t) : keeps d (loadVariations c d).
Proof. repeat split. Qed.

Lemma weatherChanges_keeps (d : data.t) (s : Draws) :
  keeps d (fst (weatherChanges d s)).
Proof. straight_line. repeat split. Qed.

Lemma systemEfficiency_keeps (d : data.t) (s : Draws) :
  keeps d (fst (systemEfficiency d s)).
Proof. straight_line. repeat split. Qed.

(** The battery block writes three fields of the storage record only. *)
Lemma batteryManagement_frame (d : data.t) :
  data.alerts (batteryManagement d) = data.alerts d /\
  untouched (batteryManagement d) = untouched d /\
  batteryPacks (batteryManagement d) = batteryPacks d.
Proof.
  unfold batteryManagement.
  destruct (gtb _ 0 && ltb _ 95); [repeat split |].
  destruct (ltb _ 0 && gtb _ 20); repeat split.
Qed.

(** The alert block writes the alerts only. *)
Lemma spawnAlert_frame (c : Clock) (d : data.t) (s : Draws) :
  data.storage (fst (spawnAlert c d s)) = data.storage d /\
  untouched (fst (spawnAlert c d s)) = untouched d.
Proof.
  unfold spawnAlert.
  cbv beta iota zeta delta [mbind mret Rand_bind Rand_ret Math.random fst snd].
  destruct (ltb (s 0%nat) 0.1); repeat split.
Qed.

(** ** The loop over the battery packs *)

Lemma afterPacks_S (n : nat) (s : Draws) :
  afterPacks (S n) s = afterPacks n (tail (tail s)).
Proof.
  unfold afterPacks. exact (Nat.iter_succ_r n (fun s => tail (tail s)) s).
Qed.

Lemma forEach_updatePack_draws (soc : Q) (l : list pack.t) (s : Draws) :
  snd (forEach (updatePack soc) l s) = afterPacks (length l) s.
Proof.
  revert s. induction l as [| p l IH]; intros s; [reflexivity |].
  cbn [forEach length]. rewrite afterPacks_S, <- IH.
  straight_line. destruct (forEach _ l _). reflexivity.
Qed.

Lemma forEach_updatePack_soh (soc : Q) (l : list pack.t) (s : Draws) :
  map pack.soh (fst (forEach (updatePack soc) l s)) = map pack.soh l.
Proof.
  revert s. induction l as [| p l IH]; intros s; [reflexivity |].
  cbn [forEach map]. rewrite <- (IH (tail (tail s))).
  straight_line. destruct (forEach _ l _). reflexivity.
Qed.

Lemma forEach_updatePack_length (soc : Q) (l : list pack.t) (s : Draws) :
  length (fst (forEach (updatePack soc) l s)) = length l.
Proof.
  rewrite <- (length_map pack.soh), forEach_updatePack_soh. apply length_map.
Qed.

Lemma forEach_updatePack_soc (soc : Q) (l : list pack.t) (s : Draws) :
  Forall (fun p => soc_ok (pack.soc p)) (fst (forEach (updatePack soc) l s)).
Proof.
  revert s. induction l as [| p l IH]; intros s; [constructor |].
  cbn [forEach]. specialize (IH (tail (tail s))).
  straight_line. destruct (forEach _ l _). constructor; [| exact IH].
  apply clamp_range. lra.
Qed.

Lemma updatePacks_frame (d : data.t) (s : Draws) :
  data.storage (fst (updatePacks d s)) =
    storage.set_batteryPacks
      (fst (forEach (updatePack (overallSOC d)) (batteryPacks d) s))
      (data.storage d) /\
  data.alerts (fst (updatePacks d s)) = data.alerts d /\
  untouched (fst (updatePacks d s)) = untouched d /\
  snd (updatePacks d s) = afterPacks (length (batteryPacks d)) s.
Proof.
  unfold updatePacks. cbv beta iota delta [mbind mret Rand_bind Rand_ret].
  pose proof (forEach_updatePack_soh (overallSOC d) (batteryPacks d) s) as Hsoh.
  pose proof (forEach_updatePack_draws (overallSOC d) (batteryPacks d) s) as Hs.
  destruct (forEach _ _ s) as [packs s']. cbn [fst snd] in *.
  repeat split; [| exact Hs].
  unfold untouched. cbn. unfold batteryPacks in Hsoh. rewrite Hsoh. reflexivity.
Qed.

(** ** The step, block by block *)

Lemma solarVariations_draws (d : data.t) (s : Draws) :
  snd (solarVariations d s) = tail s.
Proof. reflexivity. Qed.

Lemma windVariations_draws (d : data.t) (s : Draws) :
  snd (windVariations d s) = tail s.
Proof. reflexivity. Qed.

Lemma cbgVariations_draws (d : data.t) (s : Draws) :
  snd (cbgVariations d s) = tail s.
Proof. reflexivity. Qed.

Lemma weatherChanges_draws (d : data.t) (s : Draws) :
  snd (weatherChanges d s) = tail (tail s).
Proof. reflexivity. Qed.

Lemma systemEfficiency_draws (d : data.t) (s : Draws) :
  snd (systemEfficiency d s) = tail s.
Proof. reflexivity. Qed.

(** Replaces the named result of a block by the block's own outputs. *)
Ltac name_block lem :=
  next_block;
  match goal with
  | E : ?m ?s = (?a, ?s') |- _ =>
      let Ea := fresh in let Es := fresh in
      pose proof (f_equal fst E) as Ea; pose proof (f_equal snd E) as Es;
      cbn [fst snd] in Ea, Es; rewrite lem in Es; subst a s'; clear E
  end.

Lemma simulateDataChanges_blocks (c : Clock) (d : data.t) (s : Draws) :
  exists d3,
    simulateDataChanges c d s = spawnAlert c d3 (alertDraws d s) /\
    data.storage d3 =
      storage.set_batteryPacks
        (fst (forEach (updatePack (overallSOC (batteryManagement (atBattery c d s))))
                (batteryPacks d) (tail (tail (tail s)))))
        (data.storage (batteryManagement (atBattery c d s))) /\
    data.alerts d3 = data.alerts d /\
    untouched d3 = untouched d /\
    keeps d (atBattery c d s).
Proof.
  assert (keeps d (atBattery c d s)) as K.
  { unfold atBattery. cbv zeta.
    eapply keeps_trans; [apply solarVariations_keeps |].
    eapply keeps_trans; [apply windVariations_keeps |].
    eapply keeps_trans; [apply cbgVariations_keeps |].
    eapply keeps_trans; [apply sumGeneration_keeps | apply loadVariations_keeps]. }
  unfold simulateDataChanges.
  name_block solarVariations_draws.
  name_block windVariations_draws.
  name_block cbgVariations_draws.
  cbv zeta. fold (atBattery c d s).
  set (d0 := batteryManagement (atBattery c d s)).
  destruct (batteryManagement_frame (atBattery c d s)) as (Ba & Bu & Bp).
  fold d0 in Ba, Bu, Bp.
  pose proof K as (Ks & Ka & Ku).
  assert (batteryPacks d0 = batteryPacks d) as Hp
    by (rewrite Bp; unfold batteryPacks; rewrite Ks; reflexivity).
  destruct (updatePacks_frame d0 (tail (tail (tail s)))) as (Ps & Pa & Pu & Pd).
  rewrite Hp in Ps, Pd.
  next_block. cbn [fst snd] in Ps, Pa, Pu, Pd. subst.
  match goal with |- context [weatherChanges ?x ?y] =>
    destruct (weatherChanges_keeps x y) as (Ws & Wa & Wu)
  end.
  name_block weatherChanges_draws.
  match goal with |- context [systemEfficiency ?x ?y] =>
    destruct (systemEfficiency_keeps x y) as (Ss & Sa & Su)
  end.
  name_block systemEfficiency_draws.
  eexists; split; [reflexivity |].
  cbn [fst snd] in *.
  repeat split; try congruence; apply K.
Qed.

Lemma spawnAlert_alerts (c : Clock) (d : data.t) (s : Draws) :
  data.alerts (fst (spawnAlert c d s)) =
  if ltb (s 0%nat) 0.1
  then pushAlert (newAlert c (s 1%nat) (s 2%nat)) (data.alerts d)
  else data.alerts d.
Proof.
  unfold spawnAlert.
  cbv beta iota zeta delta [mbind mret Rand_bind Rand_ret Math.random fst snd].
  destruct (ltb (s 0%nat) 0.1); reflexivity.
Qed.

Lemma step_storage (d : data.t) (t : Tick) :
  data.storage (step d t) =
  storage.set_batteryPacks (batteryPacks (step d t))
    (data.storage (batteryManagement (atBattery (clock t) d (draws t)))).
Proof.
  unfold step, batteryPacks.
  destruct (simulateDataChanges_blocks (clock t) d (draws t))
    as (d3 & -> & Hs & _).
  destruct (spawnAlert_frame (clock t) d3 (alertDraws d (draws t))) as (-> & _).
  rewrite Hs. reflexivity.
Qed.

Lemma step_packs (d : data.t) (t : Tick) :
  batteryPacks (step d t) =
  fst (forEach
         (updatePack (overallSOC (batteryManagement (atBattery (clock t) d (draws t)))))
         (batteryPacks d) (tail (tail (tail (draws t))))).
Proof.
  unfold step, batteryPacks.
  destruct (simulateDataChanges_blocks (clock t) d (draws t))
    as (d3 & -> & Hs & _).
  destruct (spawnAlert_frame (clock t) d3 (alertDraws d (draws t))) as (-> & _).
  rewrite Hs. reflexivity.
Qed.

Lemma step_untouched (d : data.t) (t : Tick) : untouched (step d t) = untouched d.
Proof.
  unfold step.
  destruct (simulateDataChanges_blocks (clock t) d (draws t))
    as (d3 & -> & _ & _ & Hu & _).
  destruct (spawnAlert_frame (clock t) d3 (alertDraws d (draws t))) as (_ & ->).
  exact Hu.
Qed.

Lemma step_alerts (d : data.t) (t : Tick) :
  data.alerts (step d t) =
  if ltb (alertDraws d (draws t) 0%nat) 0.1
  then pushAlert
         (newAlert (clock t) (alertDraws d (draws t) 1%nat) (alertDraws d (draws t) 2%nat))
         (data.alerts d)
  else data.alerts d.
Proof.
  unfold step.
  destruct (simulateDataChanges_blocks (clock t) d (draws t))
    as (d3 & -> & _ & Ha & _).
  rewrite spawnAlert_alerts, Ha. reflexivity.
Qed.

Lemma atBattery_storage (c : Clock) (d : data.t) (s : Draws) :
  data.storage (atBattery c d s) = data.storage d.
Proof.
  destruct (simulateDataChanges_blocks c d s) as (d3 & _ & _ & _ & _ & K).
  apply K.
Qed.

Lemma run_snoc (ticks : list Tick) (t : Tick) :
  run (ticks ++ [t]) = step (run ticks) t.
Proof. unfold run. rewrite fold_left_app. reflexivity. Qed.

(** ** The battery block *)

Lemma batteryManagement_surplus (d : data.t) :
  0 < powerBalance d -> overallSOC d < 95 ->
  data.storage (batteryManagement d) =
  storage.mk (Math.min 95 (overallSOC d + 0.1))
    (storage.totalCapacity (data.storage d))
    (Math.min (powerBalance d * 0.8) 15) 0 (batteryPacks d).
Proof.
  intros Hb Hs. unfold batteryManagement. fold (powerBalance d).
  apply gtb_gt in Hb. apply ltb_lt in Hs. rewrite Hb, Hs. reflexivity.
Qed.

Lemma batteryManagement_deficit (d : data.t) :
  powerBalance d < 0 -> 20 < overallSOC d ->
  data.storage (batteryManagement d) =
  storage.mk (Math.max 20 (overallSOC d - 0.2))
    (storage.totalCapacity (data.storage d))
    0 (Math.min (Math.abs (powerBalance d)) 20) (batteryPacks d).
Proof.
  intros Hb Hs. unfold batteryManagement. fold (powerBalance d).
  assert (gtb (powerBalance d) 0 = false) as ->
    by (apply ltb_ge; lra).
  apply ltb_lt in Hb. apply gtb_gt in Hs. rewrite Hb, Hs. reflexivity.
Qed.

Lemma batteryManagement_hold (d : data.t) :
  ~ (0 < powerBalance d /\ overallSOC d < 95) ->
  ~ (powerBalance d < 0 /\ 20 < overallSOC d) ->
  batteryManagement d = d.
Proof.
  intros H1 H2. unfold batteryManagement. fold (powerBalance d).
  destruct (gtb (powerBalance d) 0 && ltb (overallSOC d) 95) eqn:E1.
  { apply andb_true_iff in E1 as [A B]. apply gtb_gt in A. apply ltb_lt in B. tauto. }
  destruct (ltb (powerBalance d) 0 && gtb (overallSOC d) 20) eqn:E2.
  { apply andb_true_iff in E2 as [A B]. apply ltb_lt in A. apply gtb_gt in B. tauto. }
  reflexivity.
Qed.

(** The three ways through the battery block. *)
Lemma batteryManagement_cases (d : data.t) :
  (0 < powerBalance d /\ overallSOC d < 95) \/
  (powerBalance d < 0 /\ 20 < overallSOC d) \/
  batteryManagement d = d.
Proof.
  destruct (Qlt_le_dec 0 (powerBalance d)) as [Hb | Hb];
    destruct (Qlt_le_dec (overallSOC d) 95) as [Hs | Hs]; auto;
    destruct (Qlt_le_dec (powerBalance d) 0) as [Hb' | Hb'];
    destruct (Qlt_le_dec 20 (overallSOC d)) as [Hs' | Hs']; auto;
    right; right; apply batteryManagement_hold; lra.
Qed.

Lemma batteryManagement_soc (d : data.t) :
  soc_ok (overallSOC d) -> soc_ok (overallSOC (batteryManagement d)).
Proof.
  unfold soc_ok. intros [Hlo Hhi].
  destruct (batteryManagement_cases d) as [[Hb Hs] | [[Hb Hs] | ->]]; [| | auto];
    change (overallSOC (batteryManagement d))
      with (storage.overallSOC (data.storage (batteryManagement d))).
  - rewrite (batteryManagement_surplus d Hb Hs). cbn [storage.overallSOC].
    destruct (min_cases 95 (overallSOC d + 0.1)) as [[H E] | [H E]]; lra.
  - rewrite (batteryManagement_deficit d Hb Hs). cbn [storage.overallSOC].
    destruct (max_cases 20 (overallSOC d - 0.2)) as [[H E] | [H E]]; lra.
Qed.

Lemma batteryManagement_one_way (d : data.t) :
  one_way d -> one_way (batteryManagement d).
Proof.
  intros H.
  destruct (batteryManagement_cases d) as [[Hb Hs] | [[Hb Hs] | ->]]; [| | auto];
    unfold one_way, chargePower, dischargePower.
  - rewrite (batteryManagement_surplus d Hb Hs). right. reflexivity.
  - rewrite (batteryManagement_deficit d Hb Hs). left. reflexivity.
Qed.

(** ** Invariants of the runs *)

Lemma set_batteryPacks_overallSOC (packs : list pack.t) (st : storage.t) :
  storage.overallSOC (storage.set_batteryPacks packs st) = storage.overallSOC st.
Proof. reflexivity. Qed.

Lemma set_batteryPacks_chargePower (packs : list pack.t) (st : storage.t) :
  storage.chargePower (storage.set_batteryPacks packs st) = storage.chargePower st.
Proof. reflexivity. Qed.

Lemma set_batteryPacks_dischargePower (packs : list pack.t) (st : storage.t) :
  storage.dischargePower (storage.set_batteryPacks packs st) =
  storage.dischargePower st.
Proof. reflexivity. Qed.

Lemma run_soc_ok (ticks : list Tick) : soc_ok (overallSOC (run ticks)).
Proof.
  induction ticks as [| t ticks IH] using rev_ind.
  - unfold soc_ok, run, initializeData; cbn [fold_left data.storage storage.overallSOC]. lra.
  - rewrite run_snoc, step_storage, set_batteryPacks_overallSOC.
    apply batteryManagement_soc. rewrite atBattery_storage. exact IH.
Qed.

Lemma step_packs_ok (d : data.t) (t : Tick) :
  Forall (fun p => soc_ok (pack.soc p)) (batteryPacks (step d t)).
Proof. rewrite step_packs. apply forEach_updatePack_soc. Qed.

(** C1. In every state the simulation reaches from the initial snapshot,
    [storage.overallSOC] is within [[20, 95]] and so is the [soc] of every
    battery pack; and whatever snapshot a step starts from, every pack it
    leaves has its [soc] within [[20, 95]]. *)
Theorem soc_within_bounds :
  (forall ticks : list Tick,
      soc_ok (overallSOC (run ticks)) /\
      Forall (fun p => soc_ok (pack.soc p)) (batteryPacks (run ticks))) /\
  (forall (d : data.t) (t : Tick),
      Forall (fun p => soc_ok (pack.soc p)) (batteryPacks (step d t))).
Proof.
  split; [| exact step_packs_ok].
  intros ticks. split; [apply run_soc_ok |].
  destruct ticks as [| t ticks _] using rev_ind.
  - unfold soc_ok, run, initializeData.
    cbn [fold_left data.storage storage.batteryPacks].
    repeat constructor; cbn [pack.soc]; lra.
  - rewrite run_snoc. apply step_packs_ok.
Qed.

(** C2. The battery update of the step.  On the snapshot [b] the block runs
    on (generation and load of this tick already written): with a surplus
    and [overallSOC < 95] it charges at [min(0.8 * surplus, 15)], stops
    discharging and raises the state of charge by 0.1, capped at 95; with a
    deficit and [overallSOC > 20] it discharges at [min(|deficit|, 20)],
    stops charging and lowers the state of charge by 0.2, floored at 20;
    otherwise the three fields stay.  With generation 80 and demand 60 that
    is 15, 0 and [SOC + 0.1]; with generation 50 and demand 70 it is 20, 0
    and [SOC - 0.2].  A step leaves in these three fields what the block
    has written. *)
Theorem battery_update (b : data.t) :
  let b' := batteryManagement b in
  (0 < powerBalance b -> overallSOC b < 95 ->
     chargePower b' = Math.min (powerBalance b * 0.8) 15 /\
     dischargePower b' = 0 /\
     overallSOC b' = Math.min 95 (overallSOC b + 0.1)) /\
  (powerBalance b < 0 -> 20 < overallSOC b ->
     dischargePower b' = Math.min (Math.abs (powerBalance b)) 20 /\
     chargePower b' = 0 /\
     overallSOC b' = Math.max 20 (overallSOC b - 0.2)) /\
  (~ (0 < powerBalance b /\ overallSOC b < 95) ->
   ~ (powerBalance b < 0 /\ 20 < overallSOC b) ->
     chargePower b' = chargePower b /\
     dischargePower b' = dischargePower b /\
     overallSOC b' = overallSOC b) /\
  (totalGeneration b == 80 -> totalLoad b == 60 -> overallSOC b < 95 ->
     chargePower b' == 15 /\ dischargePower b' == 0 /\
     overallSOC b' == Math.min 95 (overallSOC b + 0.1) /\
     (overallSOC b <= 94.9 -> overallSOC b' == overallSOC b + 0.1)) /\
  (totalGeneration b == 50 -> totalLoad b == 70 -> 20 < overallSOC b ->
     dischargePower b' == 20 /\ chargePower b' == 0 /\
     overallSOC b' == Math.max 20 (overallSOC b - 0.2) /\
     (20.2 <= overallSOC b -> overallSOC b' == overallSOC b - 0.2)) /\
  (forall (d : data.t) (t : Tick),
     let at_block := batteryManagement (atBattery (clock t) d (draws t)) in
     overallSOC (atBattery (clock t) d (draws t)) = overallSOC d /\
     chargePower (step d t) = chargePower at_block /\
     dischargePower (step d t) = dischargePower at_block /\
     overallSOC (step d t) = overallSOC at_block).
Proof.
  cbv zeta.
  split; [| split; [| split; [| split; [| split]]]].
  - intros Hb Hs. rewrite (batteryManagement_surplus b Hb Hs). repeat split.
  - intros Hb Hs. rewrite (batteryManagement_deficit b Hb Hs). repeat split.
  - intros H1 H2. rewrite (batteryManagement_hold b H1 H2). repeat split.
  - intros Hg Hl Hs.
    assert (0 < powerBalance b) as Hb by (unfold powerBalance; lra).
    rewrite (batteryManagement_surplus b Hb Hs).
    cbn [storage.chargePower storage.dischargePower storage.overallSOC].
    unfold powerBalance in *.
    destruct (min_cases ((totalGeneration b - totalLoad b) * 0.8) 15) as [[H E] | [H E]];
      destruct (min_cases 95 (overallSOC b + 0.1)) as [[H' E'] | [H' E']];
      repeat split; intros; lra.
  - intros Hg Hl Hs.
    assert (powerBalance b < 0) as Hb by (unfold powerBalance; lra).
    rewrite (batteryManagement_deficit b Hb Hs).
    cbn [storage.chargePower storage.dischargePower storage.overallSOC].
    unfold powerBalance in *.
    assert (Math.abs (totalGeneration b - totalLoad b) == 20) as Ea.
    { unfold Math.abs. rewrite Qabs_neg by lra. lra. }
    destruct (min_cases (Math.abs (totalGeneration b - totalLoad b)) 20) as [[H E] | [H E]];
      destruct (max_cases 20 (overallSOC b - 0.2)) as [[H' E'] | [H' E']];
      repeat split; intros; lra.
  - intros d t. cbv zeta.
    rewrite step_storage, set_batteryPacks_overallSOC, set_batteryPacks_chargePower,
      set_batteryPacks_dischargePower, atBattery_storage.
    repeat split.
Qed.

Lemma run_one_way (ticks : list Tick) : one_way (run ticks).
Proof.
  induction ticks as [| t ticks IH] using rev_ind.
  - right. reflexivity.
  - rewrite run_snoc. unfold one_way.
    rewrite step_storage, set_batteryPacks_chargePower,
      set_batteryPacks_dischargePower.
    apply batteryManagement_one_way. unfold one_way.
    rewrite atBattery_storage. exact IH.
Qed.

(** C8. In every state the simulation reaches from the initial snapshot, at
    most one of [storage.chargePower] and [storage.dischargePower] is
    nonzero: the initial snapshot has [dischargePower = 0], the surplus
    branch writes [dischargePower = 0], the deficit branch writes
    [chargePower = 0], and otherwise both stay as they were. *)
Theorem charge_or_discharge :
  (forall ticks : list Tick,
      chargePower (run ticks) == 0 \/ dischargePower (run ticks) == 0) /\
  dischargePower initializeData = 0 /\
  (forall b : data.t,
      0 < powerBalance b -> overallSOC b < 95 ->
      dischargePower (batteryManagement b) = 0) /\
  (forall b : data.t,
      powerBalance b < 0 -> 20 < overallSOC b ->
      chargePower (batteryManagement b) = 0) /\
  (forall b : data.t,
      ~ (0 < powerBalance b /\ overallSOC b < 95) ->
      ~ (powerBalance b < 0 /\ 20 < overallSOC b) ->
      chargePower (batteryManagement b) = chargePower b /\
      dischargePower (batteryManagement b) = dischargePower b).
Proof.
  split; [| split; [reflexivity | split; [| split]]].
  - intros ticks. destruct (run_one_way ticks) as [-> | ->]; [left | right]; reflexivity.
  - intros b Hb Hs. rewrite (batteryManagement_surplus b Hb Hs). reflexivity.
  - intros b Hb Hs. rewrite (batteryManagement_deficit b Hb Hs). reflexivity.
  - intros b H1 H2. rewrite (batteryManagement_hold b H1 H2). split; reflexivity.
Qed.

Lemma run_untouched (ticks : list Tick) : untouched (run ticks) = untouched initializeData.
Proof.
  induction ticks as [| t ticks IH] using rev_ind; [reflexivity |].
  rewrite run_snoc, step_untouched. exact IH.
Qed.

(** C10. The step assigns none of [weather.humidity],
    [systemMetrics.uptime], [systemMetrics.powerQuality] (voltage,
    frequency, thd), [demand.peakReduction], the [soh] of a pack and the
    three [efficiency] fields: a step leaves them as they were, and after
    any number of steps from the initial snapshot they have their initial
    values. *)
Theorem step_frame :
  (forall (d : data.t) (t : Tick), untouched (step d t) = untouched d) /\
  (forall ticks : list Tick,
      untouched (run ticks) =
      (65, 99.7, powerQuality.mk 230.5 50.02 1.8, 23.4, [96; 94; 97; 95],
       94.3, 89.1, 91.7)).
Proof.
  split; [exact step_untouched |].
  intros ticks. rewrite run_untouched. reflexivity.
Qed.

(** ** The alert window *)

Lemma pushAlert_take (a : alert.t) (l : list alert.t) :
  (length l <= 5)%nat -> pushAlert a l = take 5 (a :: l).
Proof.
  intros Hl. unfold pushAlert, unshift, pop.
  destruct (5 <? length (a :: l))%nat eqn:E.
  - apply Nat.ltb_lt in E. cbn [length] in E.
    rewrite removelast_firstn_len. cbn [length].
    replace (Init.Nat.pred (S (length l))) with 5%nat by lia. reflexivity.
  - apply Nat.ltb_ge in E. symmetry. apply firstn_all2. exact E.
Qed.

Lemma pushAlert_length (a : alert.t) (l : list alert.t) :
  (length l <= 5)%nat -> (length (pushAlert a l) <= 5)%nat.
Proof.
  intros Hl. rewrite pushAlert_take by exact Hl. rewrite length_take. lia.
Qed.

Lemma run_alerts_length (ticks : list Tick) :
  (length (data.alerts (run ticks)) <= 5)%nat.
Proof.
  induction ticks as [| t ticks IH] using rev_ind.
  - unfold run, initializeData. cbn [fold_left data.alerts length]. lia.
  - rewrite run_snoc, step_alerts.
    destruct (ltb _ 0.1); [apply pushAlert_length |]; exact IH.
Qed.

(** C3. In every state the simulation reaches from the initial snapshot
    the alerts are at most 5.  When a step takes the alert branch (its draw
    is below 0.1) the new alert is first, the earlier alerts follow in
    their order, and what would be a sixth entry, the oldest, is dropped;
    when it does not, the alerts stay. *)
Theorem alerts_window :
  (forall ticks : list Tick, (length (data.alerts (run ticks)) <= 5)%nat) /\
  (forall (d : data.t) (t : Tick),
      let r := alertDraws d (draws t) in
      let a := newAlert (clock t) (r 1%nat) (r 2%nat) in
      (r 0%nat < 0.1 -> (length (data.alerts d) <= 5)%nat ->
         data.alerts (step d t) = take 5 (a :: data.alerts d) /\
         data.alerts (step d t) !! 0%nat = Some a) /\
      (0.1 <= r 0%nat -> data.alerts (step d t) = data.alerts d)).
Proof.
  split; [exact run_alerts_length |].
  intros d t r a. rewrite step_alerts. fold r. fold a. split.
  - intros Hr Hl. apply ltb_lt in Hr. rewrite Hr, pushAlert_take by exact Hl.
    split; reflexivity.
  - intros Hr. apply ltb_ge in Hr. rewrite Hr. reflexivity.
Qed.

(** ** The wind power curve *)

Lemma cube_le (x y : Q) : 0 <= x -> x <= y -> Math.pow x 3 <= Math.pow y 3.
Proof.
  intros Hx Hxy. unfold Math.pow.
  assert (forall z : Q, z ^ 3 == z * z * z) as E by (intros z; simpl; ring).
  rewrite !E.
  assert (x * x <= y * y) as H2 by nra.
  assert (0 <= x * x) as H0 by nra.
  nra.
Qed.

Lemma round_le (x y : Q) : x <= y -> Math.round x <= Math.round y.
Proof.
  intros H. unfold Math.round. rewrite <- Zle_Qle.
  apply Qfloor_resp_le. lra.
Qed.

Lemma windCurve_le (s1 s2 : Q) : 0 <= s1 -> s1 <= s2 -> windCurve s1 <= windCurve s2.
Proof.
  intros H0 H12. unfold windCurve.
  assert (Math.pow (s1 / 12) 3 <= Math.pow (s2 / 12) 3) as Hc.
  { apply cube_le.
    - apply Qle_shift_div_l; lra.
    - unfold Qdiv. apply Qmult_le_compat_r; [exact H12 | discriminate]. }
  assert (Math.round (Math.pow (s1 / 12) 3 * 25 * 10) <=
          Math.round (Math.pow (s2 / 12) 3 * 25 * 10)) as Hr
    by (apply round_le; lra).
  unfold Qdiv. apply Qmult_le_compat_r; [exact Hr | discriminate].
Qed.

(** C6. The wind power the step computes from the wind speed,
    [Math.round(Math.pow(s / 12, 3) * 25 * 10) / 10], does not decrease
    with the wind speed on [[0, 12]]; and it is what the wind block writes
    to [generation.wind.power] for the wind speed it has just written. *)
Theorem windCurve_monotone (s1 s2 : Q) :
  0 <= s1 -> s1 <= s2 -> s2 <= 12 ->
  windCurve s1 <= windCurve s2 /\
  (forall (d : data.t) (s : Draws),
      windPower (fst (windVariations d s)) =
      windCurve (weather.windSpeed (data.weather (fst (windVariations d s))))).
Proof.
  intros H0 H12 _. split; [apply windCurve_le; assumption |].
  intros d s. reflexivity.
Qed.

(** ** The scenarios *)

Lemma battery_update_witness :
  (totalGeneration surplus_example == 80 /\ totalLoad surplus_example == 60 /\
   overallSOC surplus_example < 95) /\
  (chargePower (batteryManagement surplus_example) == 15 /\
   dischargePower (batteryManagement surplus_example) == 0 /\
   overallSOC (batteryManagement surplus_example) == 67.1) /\
  (totalGeneration deficit_example == 50 /\ totalLoad deficit_example == 70 /\
   20 < overallSOC deficit_example) /\
  (dischargePower (batteryManagement deficit_example) == 20 /\
   chargePower (batteryManagement deficit_example) == 0 /\
   overallSOC (batteryManagement deficit_example) == 66.8).
Proof.
  assert (totalGeneration surplus_example == 80 /\ totalLoad surplus_example == 60 /\
          overallSOC surplus_example < 95) as Hs by (vm_compute; intuition congruence).
  assert (totalGeneration deficit_example == 50 /\ totalLoad deficit_example == 70 /\
          20 < overallSOC deficit_example) as Hd by (vm_compute; intuition congruence).
  split; [exact Hs |]. split; [| split; [exact Hd |]].
  - destruct Hs as (Hg & Hl & Hsoc).
    destruct (battery_update surplus_example) as (_ & _ & _ & S & _).
    destruct (S Hg Hl Hsoc) as (Hc & Hdis & _ & Hsoc').
    split; [exact Hc | split; [exact Hdis |]].
    rewrite Hsoc' by (vm_compute; discriminate). vm_compute. reflexivity.
  - destruct Hd as (Hg & Hl & Hsoc).
    destruct (battery_update deficit_example) as (_ & _ & _ & _ & D & _).
    destruct (D Hg Hl Hsoc) as (Hdis & Hc & _ & Hsoc').
    split; [exact Hdis | split; [exact Hc |]].
    rewrite Hsoc' by (vm_compute; discriminate). vm_compute. reflexivity.
Defined.

Lemma charge_or_discharge_witness :
  (0 < powerBalance surplus_example /\ overallSOC surplus_example < 95) /\
  dischargePower (batteryManagement surplus_example) = 0 /\
  (powerBalance deficit_example < 0 /\ 20 < overallSOC deficit_example) /\
  chargePower (batteryManagement deficit_example) = 0.
Proof.
  assert (0 < powerBalance surplus_example /\ overallSOC surplus_example < 95) as Hs
    by (vm_compute; split; reflexivity).
  assert (powerBalance deficit_example < 0 /\ 20 < overallSOC deficit_example) as Hd
    by (vm_compute; split; reflexivity).
  destruct charge_or_discharge as (_ & _ & S & D & _).
  split; [exact Hs | split; [apply S; apply Hs | split; [exact Hd | apply D; apply Hd]]].
Defined.

Lemma alerts_window_witness :
  (alertDraws initializeData (draws alert_tick) 0%nat < 0.1 /\
   (length (data.alerts initializeData) <= 5)%nat) /\
  data.alerts (step initializeData alert_tick) !! 0%nat =
    Some (alert.mk 1700000000000 (Some "info"%string)
            (Some "System optimization completed"%string) "12:00").
Proof.
  assert (alertDraws initializeData (draws alert_tick) 0%nat < 0.1) as Hr
    by (vm_compute; reflexivity).
  assert (length (data.alerts initializeData) <= 5)%nat as Hl
    by (vm_compute; lia).
  split; [split; assumption |].
  destruct alerts_window as (_ & W).
  destruct (W initializeData alert_tick) as (T & _).
  destruct (T Hr Hl) as (_ & ->). vm_compute. reflexivity.
Defined.

Lemma windCurve_monotone_witness :
  (0 <= 6 /\ 6 <= 12 /\ 12 <= 12) /\ windCurve 6 <= windCurve 12.
Proof.
  assert (0 <= 6 /\ 6 <= 12 /\ 12 <= 12) as H by (repeat split; discriminate).
  split; [exact H |].
  destruct H as (H0 & H1 & H2).
  exact (proj1 (windCurve_monotone 6 12 H0 H1 H2)).
Defined.

(** * Properties of the render step *)

(** ** The sliding window of the line chart *)

Lemma slide_length {A : Type} (x : A) (l : list A) :
  (length l <= 10)%nat -> length (slide x l) = Nat.min 10 (S (length l)).
Proof.
  intros Hl. unfold slide. destruct (length l <? 10)%nat eqn:E.
  - apply Nat.ltb_lt in E. rewrite length_app. cbn [length]. lia.
  - apply Nat.ltb_ge in E. rewrite length_app.
    destruct l as [| y l]; cbn [length List.tl] in *; lia.
Qed.

Lemma shift_push {A : Type} (x : A) (l : list A) :
  (length l <= 10)%nat ->
  (if (10 <? length (push x l))%nat then shift (push x l) else push x l) = slide x l.
Proof.
  intros Hl. unfold push, shift, slide. rewrite length_app. cbn [length].
  destruct (length l <? 10)%nat eqn:E.
  - apply Nat.ltb_lt in E.
    destruct (10 <? length l + 1)%nat eqn:E'; [apply Nat.ltb_lt in E'; lia | reflexivity].
  - apply Nat.ltb_ge in E.
    destruct (10 <? length l + 1)%nat eqn:E'; [| apply Nat.ltb_ge in E'; lia].
    destruct l as [| y l]; [cbn [length] in E; lia | reflexivity].
Qed.

Lemma updateDemandChart_slide (t : string) (d : data.t) (ch : LineChart) :
  window_ok ch ->
  updateDemandChart t d ch =
  {| labels := slide t (labels ch);
     generationSeries := slide (totalGeneration d) (generationSeries ch);
     demandSeries := slide (totalLoad d) (demandSeries ch) |}.
Proof.
  intros (Hg & Hd & Hl). unfold updateDemandChart. cbn [labels generationSeries demandSeries].
  rewrite <- (shift_push t (labels ch)) by exact Hl.
  rewrite <- (shift_push (totalGeneration d) (generationSeries ch)) by lia.
  rewrite <- (shift_push (totalLoad d) (demandSeries ch)) by lia.
  unfold push. rewrite !length_app, Hg, Hd.
  destruct (10 <? length (labels ch) + length [t])%nat eqn:E; cbn [length] in *;
    rewrite E; reflexivity.
Qed.

Lemma updateDemandChart_ok (t : string) (d : data.t) (ch : LineChart) :
  window_ok ch -> window_ok (updateDemandChart t d ch).
Proof.
  intros H. rewrite (updateDemandChart_slide t d ch H).
  destruct H as (Hg & Hd & Hl). unfold window_ok. cbn [labels generationSeries demandSeries].
  rewrite !slide_length by lia. lia.
Qed.

Lemma runChart_snoc (renders : list (string * data.t)) (p : string * data.t) :
  runChart (renders ++ [p]) = renderChart (runChart renders) p.
Proof. unfold runChart. rewrite fold_left_app. reflexivity. Qed.

Lemma runChart_ok (renders : list (string * data.t)) : window_ok (runChart renders).
Proof.
  induction renders as [| p renders IH] using rev_ind.
  - unfold window_ok, runChart, initialDemandChart.
    cbn [fold_left labels generationSeries demandSeries length]. lia.
  - rewrite runChart_snoc. apply updateDemandChart_ok. exact IH.
Qed.

Lemma updateCharts_returns (c : Clock) (w : World data.t) :
  updateCharts c w =
  Return tt (set_charts (updatedCharts c (currentData w) (charts w)) w).
Proof. reflexivity. Qed.

Lemma createGaugeChart_returns (canvasId : string) (value max : Q)
    (label unit color : string) (w : World data.t) :
  createGaugeChart canvasId value max label unit color w =
  Return (onCanvas (document w) canvasId (newGauge value max unit color)) w.
Proof.
  unfold createGaugeChart, onCanvas, mbind, DOM_bind, getElementById.
  destruct (document w !! canvasId); reflexivity.
Qed.

Lemma createDemandChart_returns (w : World data.t) :
  createDemandChart w =
  Return (onCanvas (document w) "demandChart" initialDemandChart) w.
Proof.
  unfold createDemandChart, onCanvas, mbind, DOM_bind, getElementById.
  destruct (document w !! "demandChart"%string); reflexivity.
Qed.

Lemma initializeCharts_returns (w : World data.t) :
  initializeCharts w =
  Return tt (set_charts (createdCharts (currentData w) (document w)) w).
Proof.
  unfold initializeCharts, mbind, DOM_bind, getData.
  rewrite !createGaugeChart_returns, createDemandChart_returns. reflexivity.
Qed.

(** ** What the render leaves in the charts *)

Lemma outcome_bind {A B : Type} (m : DOM A) (f : A -> DOM B) (w : World data.t)
    (R1 R T : World data.t -> Prop) :
  outcome m w R1 T ->
  (forall a w1, R1 w1 -> outcome (f a) w1 R T) ->
  outcome (m ≫= f) w R T.
Proof.
  unfold outcome, mbind, DOM_bind. intros Hm Hf.
  destruct (m w) as [a w1 | e w1]; [apply Hf; exact Hm | exact Hm].
Qed.

Lemma bind_only {A B : Type} (m : DOM A) (f : A -> DOM B) :
  only_document m -> (forall a, only_document (f a)) -> only_document (m ≫= f).
Proof.
  intros Hm Hf w. unfold mbind, DOM_bind. specialize (Hm w).
  destruct (m w) as [a w1 | e w1]; [| exact Hm].
  specialize (Hf a w1). destruct (f a w1); destruct Hm, Hf; split; congruence.
Qed.

Lemma write_only (id : string) (f : Element -> Element) : only_document (write id f).
Proof.
  intros w. unfold write, mbind, DOM_bind, getElementById.
  destruct (document w !! id); split; reflexivity.
Qed.

Lemma getData_only : only_document getData.
Proof. intros w. split; reflexivity. Qed.

Lemma draw_only : only_document draw.
Proof. intros w. split; reflexivity. Qed.

Lemma sequence_only (l : list (DOM unit)) :
  Forall only_document l -> only_document (sequence l).
Proof.
  induction 1 as [| m l Hm Hl IH]; cbn [sequence].
  - intros w. split; reflexivity.
  - apply bind_only; [exact Hm | intros _; exact IH].
Qed.

Lemma sequence_map_only {A : Type} (f : A -> DOM unit) (l : list A) :
  (forall a, only_document (f a)) -> only_document (sequence (map f l)).
Proof.
  intros Hf. apply sequence_only. induction l as [| a l IH]; cbn [map].
  - constructor.
  - constructor; [apply Hf | exact IH].
Qed.

Ltac writer_only :=
  lazymatch goal with
  | |- only_document (sequence (map _ _)) =>
      apply sequence_map_only; intros; writer_only
  | |- only_document (sequence _) =>
      apply sequence_only; repeat (constructor; [writer_only |]); constructor
  | |- only_document (_ ≫= _) => apply bind_only; [writer_only | intros; writer_only]
  | |- only_document getData => apply getData_only
  | |- only_document draw => apply draw_only
  | |- only_document (write _ _) => apply write_only
  | |- only_document _ =>
      progress unfold showFixed, showRounded, setTextContent, clearChildren,
        appendChild, setWidth, updatePowerFlowDiagram, updateBatteryPacks,
        updateAlerts, updateLoadBars, updateGenerationValues, updateBatteryValues,
        updateDemandValues, updateWeatherValues, updateSystemMetrics,
        updateFooterKPIs;
      writer_only
  end.

(** The charts during a render of the dashboard [w]: as they were until
    [updateCharts] has run, updated from then on. *)
Lemma only_before (c : Clock) (w w1 : World data.t) (m : DOM unit) :
  only_document m ->
  charts w1 = charts w /\ currentData w1 = currentData w ->
  outcome m w1
    (fun w' => charts w' = charts w /\ currentData w' = currentData w)
    (fun w' => charts w' = charts w \/
               charts w' = updatedCharts c (currentData w) (charts w)).
Proof.
  intros Hm [Hc Hd]. unfold outcome. specialize (Hm w1).
  destruct (m w1); destruct Hm; [split | left]; congruence.
Qed.

Lemma only_after (c : Clock) (w w1 : World data.t) (m : DOM unit) :
  only_document m ->
  charts w1 = updatedCharts c (currentData w) (charts w) ->
  outcome m w1
    (fun w' => charts w' = updatedCharts c (currentData w) (charts w))
    (fun w' => charts w' = charts w \/
               charts w' = updatedCharts c (currentData w) (charts w)).
Proof.
  intros Hm Hc. unfold outcome. specialize (Hm w1).
  destruct (m w1); destruct Hm; [| right]; congruence.
Qed.

Lemma updateDashboard_charts (c : Clock) (w : World data.t) :
  outcome (updateDashboard c) w
    (fun w' => charts w' = updatedCharts c (currentData w) (charts w))
    (fun w' => charts w' = charts w \/
               charts w' = updatedCharts c (currentData w) (charts w)).
Proof.
  unfold updateDashboard.
  apply outcome_bind
    with (R1 := fun w' => charts w' = charts w /\ currentData w' = currentData w).
  { split; reflexivity. }
  intros d w0 H0.
  do 6 (eapply outcome_bind;
        [apply (only_before c w); [writer_only | eassumption] | intros [] ? ?]).
  apply outcome_bind
    with (R1 := fun w' => charts w' = updatedCharts c (currentData w) (charts w)).
  { unfold outcome. rewrite updateCharts_returns. cbn [set_charts charts].
    match goal with H : charts _ = charts w /\ _ |- _ => destruct H as [-> ->] end.
    reflexivity. }
  intros [] w7 H7.
  do 3 (eapply outcome_bind;
        [apply (only_after c w); [writer_only | eassumption] | intros [] ? ?]).
  apply (only_after c w); [writer_only | assumption].
Qed.

(** C4. The line chart is created with six points.  From them, after any
    number of renders the labels and the two series have one length, at
    most 10.  A render adds one point at the end of each, and when that
    would make eleven it removes the first, oldest, point of each.
    [updateCharts] does this to the chart the dashboard holds, and so does
    a render pass that returns; one that throws leaves the chart as it was
    or with that one point added. *)
Theorem chart_window :
  (forall w : World data.t,
      is_Some (document w !! "demandChart"%string) ->
      exists w',
        initializeCharts w = Return tt w' /\
        demandChart (charts w') = Some initialDemandChart /\
        length (labels initialDemandChart) = 6%nat) /\
  (forall renders : list (string * data.t), window_ok (runChart renders)) /\
  (forall (t : string) (d : data.t) (ch : LineChart),
      window_ok ch ->
      let ch' := updateDemandChart t d ch in
      ((length (labels ch) < 10)%nat ->
         labels ch' = labels ch ++ [t] /\
         generationSeries ch' = generationSeries ch ++ [totalGeneration d] /\
         demandSeries ch' = demandSeries ch ++ [totalLoad d]) /\
      (length (labels ch) = 10%nat ->
         labels ch' = List.tl (labels ch) ++ [t] /\
         generationSeries ch' = List.tl (generationSeries ch) ++ [totalGeneration d] /\
         demandSeries ch' = List.tl (demandSeries ch) ++ [totalLoad d])) /\
  (forall (c : Clock) (w : World data.t) (ch : LineChart),
      demandChart (charts w) = Some ch ->
      let ch' := updateDemandChart (hhmm c) (currentData w) ch in
      (exists w', updateCharts c w = Return tt w' /\ demandChart (charts w') = Some ch') /\
      outcome (updateDashboard c) w
        (fun w' => demandChart (charts w') = Some ch')
        (fun w' => demandChart (charts w') = Some ch \/
                   demandChart (charts w') = Some ch')).
Proof.
  split; [| split; [exact runChart_ok | split]].
  - intros w [e He]. eexists. split; [apply initializeCharts_returns |].
    split; [| reflexivity].
    cbn [set_charts charts createdCharts demandChart]. unfold onCanvas.
    rewrite He. reflexivity.
  - intros t d ch H ch'. subst ch'. rewrite (updateDemandChart_slide t d ch H).
    destruct H as (Hg & Hd & Hl). cbn [labels generationSeries demandSeries].
    unfold slide. rewrite Hg, Hd. split; intros Hn.
    + apply Nat.ltb_lt in Hn. rewrite Hn. repeat split.
    + assert ((length (labels ch) <? 10)%nat = false) as -> by (apply Nat.ltb_ge; lia).
      repeat split.
  - intros c w ch Hch ch'.
    assert (demandChart (updatedCharts c (currentData w) (charts w)) = Some ch') as Hu
      by (unfold updatedCharts; cbn [demandChart]; rewrite Hch; reflexivity).
    split.
    + eexists. split; [apply updateCharts_returns |]. exact Hu.
    + pose proof (updateDashboard_charts c w) as H. unfold outcome in *.
      destruct (updateDashboard c w) as [a w' | e w'].
      * rewrite H. exact Hu.
      * destruct H as [-> | ->]; [left; exact Hch | right; exact Hu].
Qed.

Lemma chart_window_witness :
  window_ok initialDemandChart /\
  (length (labels initialDemandChart) < 10)%nat /\
  labels (updateDemandChart "14:30" initializeData initialDemandChart) =
    ["14:00"; "14:05"; "14:10"; "14:15"; "14:20"; "14:25"; "14:30"]%string.
Proof.
  assert (window_ok initialDemandChart) as H by (vm_compute; lia).
  assert (length (labels initialDemandChart) < 10)%nat as Hn by (vm_compute; lia).
  split; [exact H | split; [exact Hn |]].
  destruct chart_window as (_ & _ & S & _).
  destruct (S "14:30"%string initializeData initialDemandChart H) as (A & _).
  destruct (A Hn) as (-> & _). reflexivity.
Defined.

(** ** Absent elements *)

Lemma bind_keeps {A B : Type} (m : DOM A) (f : A -> DOM B) :
  keeps_absent m -> (forall a, keeps_absent (f a)) -> keeps_absent (m ≫= f).
Proof.
  intros Hm Hf w id Hid. unfold mbind, DOM_bind.
  specialize (Hm w id Hid). destruct (m w) as [a w' | e w']; [| exact Hm].
  apply Hf. exact Hm.
Qed.

Lemma bind_faults_l {A B : Type} (id : string) (m : DOM A) (f : A -> DOM B) :
  faults_without id m -> faults_without id (m ≫= f).
Proof.
  intros Hm w Hid. unfold mbind, DOM_bind.
  destruct (Hm w Hid) as (e & w' & ->). eauto.
Qed.

Lemma bind_faults_r {A B : Type} (id : string) (m : DOM A) (f : A -> DOM B) :
  keeps_absent m -> (forall a, faults_without id (f a)) ->
  faults_without id (m ≫= f).
Proof.
  intros Hm Hf w Hid. unfold mbind, DOM_bind.
  specialize (Hm w id Hid). destruct (m w) as [a w' | e w']; [| eauto].
  apply Hf. exact Hm.
Qed.

Lemma write_keeps (id : string) (f : Element -> Element) : keeps_absent (write id f).
Proof.
  intros w id' Hid'. unfold write, mbind, DOM_bind, getElementById.
  destruct (document w !! id) as [e |] eqn:E; cbn.
  - rewrite lookup_insert_ne; [exact Hid' | congruence].
  - exact Hid'.
Qed.

Lemma write_faults (id : string) (f : Element -> Element) :
  faults_without id (write id f).
Proof.
  intros w Hid. unfold write, mbind, DOM_bind, getElementById.
  rewrite Hid. cbn. eauto.
Qed.

Lemma getData_keeps : keeps_absent getData.
Proof. intros w id H. exact H. Qed.

Lemma draw_keeps : keeps_absent draw.
Proof. intros w id H. exact H. Qed.

Lemma updateCharts_keeps (c : Clock) : keeps_absent (updateCharts c).
Proof. intros w id H. rewrite updateCharts_returns. exact H. Qed.

Lemma sequence_keeps (l : list (DOM unit)) :
  Forall keeps_absent l -> keeps_absent (sequence l).
Proof.
  induction 1 as [| m l Hm Hl IH]; cbn [sequence].
  - intros w id H. exact H.
  - apply bind_keeps; [exact Hm | intros _; exact IH].
Qed.

Lemma sequence_faults (id : string) (l : list (DOM unit)) :
  Forall keeps_absent l -> Exists (faults_without id) l ->
  faults_without id (sequence l).
Proof.
  intros Hk Hex. induction Hex as [m l Hm | m l Hex IH]; cbn [sequence].
  - apply bind_faults_l. exact Hm.
  - apply Forall_cons_iff in Hk as [Hm Hl].
    apply bind_faults_r; [exact Hm | intros _; apply IH; exact Hl].
Qed.

Lemma sequence_map_keeps {A : Type} (f : A -> DOM unit) (l : list A) :
  (forall a, keeps_absent (f a)) -> keeps_absent (sequence (map f l)).
Proof.
  intros Hf. apply sequence_keeps. induction l as [| a l IH]; cbn [map].
  - constructor.
  - constructor; [apply Hf | exact IH].
Qed.

(** The writers of the render step, one rule each. *)
Ltac writer_keeps :=
  lazymatch goal with
  | |- keeps_absent (sequence (map _ _)) =>
      apply sequence_map_keeps; intros; writer_keeps
  | |- keeps_absent (sequence _) =>
      apply sequence_keeps; repeat (constructor; [writer_keeps |]);
      constructor
  | |- keeps_absent (_ ≫= _) => apply bind_keeps; [writer_keeps | intros; writer_keeps]
  | |- keeps_absent getData => apply getData_keeps
  | |- keeps_absent draw => apply draw_keeps
  | |- keeps_absent (updateCharts _) => apply updateCharts_keeps
  | |- keeps_absent (write _ _) => apply write_keeps
  | |- keeps_absent _ =>
      progress unfold showFixed, showRounded, setTextContent, clearChildren,
        appendChild, setWidth, updatePowerFlowDiagram, updateBatteryPacks,
        updateAlerts, updateLoadBars, updateGenerationValues, updateBatteryValues,
        updateDemandValues, updateWeatherValues, updateSystemMetrics,
        updateFooterKPIs;
      writer_keeps
  end.

Ltac writer_faults :=
  lazymatch goal with
  | |- faults_without ?id (write ?id _) => apply write_faults
  | |- faults_without _ (sequence _) =>
      apply sequence_faults;
      [ repeat (constructor; [writer_keeps |]); constructor
      | first [ constructor 1; writer_faults
              | constructor 2; first [ constructor 1; writer_faults
              | constructor 2; first [ constructor 1; writer_faults
              | constructor 2; first [ constructor 1; writer_faults
              | constructor 2; first [ constructor 1; writer_faults
              | constructor 2; first [ constructor 1; writer_faults
              | constructor 2; first [ constructor 1; writer_faults
              | constructor 2; first [ constructor 1; writer_faults
              | constructor 2; constructor 1; writer_faults ]]]]]]]] ]
  | |- faults_without _ (_ ≫= _) =>
      first [ apply bind_faults_l; writer_faults
            | apply bind_faults_r; [writer_keeps | intros; writer_faults] ]
  | |- faults_without _ _ =>
      progress unfold showFixed, showRounded, setTextContent, clearChildren,
        appendChild, setWidth, updatePowerFlowDiagram, updateBatteryPacks,
        updateAlerts, updateLoadBars, updateGenerationValues, updateBatteryValues,
        updateDemandValues, updateWeatherValues, updateSystemMetrics,
        updateFooterKPIs;
      writer_faults
  end.

Lemma updateDashboard_faults (c : Clock) (id : string) :
  In id writtenElements -> faults_without id (updateDashboard c).
Proof.
  intros Hin. unfold writtenElements in Hin. cbn [In] in Hin.
  unfold updateDashboard, updatePowerFlowDiagram, updateBatteryPacks, updateAlerts,
    updateLoadBars, updateGenerationValues, updateBatteryValues, updateDemandValues,
    updateWeatherValues, updateSystemMetrics, updateFooterKPIs.
  repeat (destruct Hin as [<- | Hin]; [writer_faults |]).
  destruct Hin.
Qed.

Lemma updateGauge_null (x max : Q) : updateGauge None x max = None.
Proof. reflexivity. Qed.

(** C7. Where the canvas of a gauge is absent, [createGaugeChart] returns
    the null handle and does not throw, and [initializeCharts] stores it;
    [updateCharts] never throws, and a gauge whose handle is null is passed
    over and stays null; but every text and list writer of
    [updateDashboard] writes to its element untested, and the render throws
    when one of these elements is absent. *)
Theorem gauges_guarded_writers_not :
  (forall (canvasId : string) (value max : Q) (label unit color : string)
          (w : World data.t),
      document w !! canvasId = None ->
      createGaugeChart canvasId value max label unit color w = Return None w) /\
  (forall w : World data.t,
      exists w',
        initializeCharts w = Return tt w' /\
        document w' = document w /\
        (document w !! "solarGauge"%string = None -> solarGauge (charts w') = None) /\
        (document w !! "windGauge"%string = None -> windGauge (charts w') = None) /\
        (document w !! "cbgGauge"%string = None -> cbgGauge (charts w') = None) /\
        (document w !! "batteryGauge"%string = None -> batteryGauge (charts w') = None)) /\
  (forall (c : Clock) (w : World data.t),
      exists w',
        updateCharts c w = Return tt w' /\
        document w' = document w /\
        (solarGauge (charts w) = None -> solarGauge (charts w') = None) /\
        (windGauge (charts w) = None -> windGauge (charts w') = None) /\
        (cbgGauge (charts w) = None -> cbgGauge (charts w') = None) /\
        (batteryGauge (charts w) = None -> batteryGauge (charts w') = None)) /\
  (forall (c : Clock) (id : string) (w : World data.t),
      In id writtenElements -> document w !! id = None ->
      exists e w', updateDashboard c w = Throw e w').
Proof.
  split; [| split; [| split]].
  - intros canvasId value max label unit color w H.
    rewrite createGaugeChart_returns. unfold onCanvas. rewrite H. reflexivity.
  - intros w. eexists. split; [apply initializeCharts_returns |].
    cbn [set_charts charts document createdCharts solarGauge windGauge cbgGauge
         batteryGauge].
    unfold onCanvas. repeat split; intros ->; reflexivity.
  - intros c w. eexists. split; [apply updateCharts_returns |].
    cbn [set_charts charts document updatedCharts solarGauge windGauge cbgGauge
         batteryGauge].
    repeat split; intros ->; apply updateGauge_null.
  - intros c id w Hin Hid. exact (updateDashboard_faults c id Hin w Hid).
Qed.

Lemma gauges_guarded_writers_not_witness :
  (document noCanvasWorld !! "solarGauge"%string = None /\
   createGaugeChart "solarGauge" 43.2 60 "Solar Power" "kW" "#FFC185" noCanvasWorld =
     Return None noCanvasWorld) /\
  (In "totalGeneration"%string writtenElements /\
   document noTextWorld !! "totalGeneration"%string = None /\
   exists e w', updateDashboard {| sinHour := 0; now := 0; hhmm := "12:00" |} noTextWorld
                = Throw e w').
Proof.
  destruct gauges_guarded_writers_not as (G & _ & _ & T).
  assert (document noCanvasWorld !! "solarGauge"%string = None) as Hc by reflexivity.
  assert (In "totalGeneration"%string writtenElements) as Hin by (left; reflexivity).
  assert (document noTextWorld !! "totalGeneration"%string = None) as Ht by reflexivity.
  split; [split; [exact Hc | apply G; exact Hc] |].
  split; [exact Hin | split; [exact Ht |]].
  exact (T _ "totalGeneration"%string noTextWorld Hin Ht).
Defined.

(** * Properties of the integration seam *)

Lemma spread_provided (cur newData : gmap string JSVal) (key : string) (v : JSVal) :
  newData !! key = Some v -> spread cur newData !! key = Some v.
Proof. intros H. unfold spread. apply lookup_union_Some_l. exact H. Qed.

Lemma spread_other (cur newData : gmap string JSVal) (key : string) :
  newData !! key = None -> spread cur newData !! key = cur !! key.
Proof. intros H. unfold spread. apply lookup_union_r. exact H. Qed.

(** C5. [updateFromServer] leaves in [currentData] the incoming value
    under every top-level key the partial record has and the old value
    under every other key, touches nothing else of the dashboard, and runs
    the render pass once, on that state. *)
Theorem updateFromServer_merge
    (newData : gmap string JSVal) (this : World (gmap string JSVal)) :
  exists this' : World (gmap string JSVal),
    (forall (key : string) (v : JSVal),
        newData !! key = Some v -> currentData this' !! key = Some v) /\
    (forall key : string,
        newData !! key = None -> currentData this' !! key = currentData this !! key) /\
    charts this' = charts this /\ document this' = document this /\
    entropy this' = entropy this /\
    (forall (R : Type) (updateDashboard : World (gmap string JSVal) -> R),
        updateFromServer updateDashboard newData this = updateDashboard this') /\
    (forall passes : nat,
        fst (updateFromServer (countRender passes) newData this) = S passes).
Proof.
  exists (set_currentData (spread (currentData this) newData) this).
  split; [| split; [| repeat split]].
  - intros key v H. apply spread_provided. exact H.
  - intros key H. apply spread_other. exact H.
Qed.

Lemma updateFromServer_merge_witness :
  (solarOnly !! "generation"%string =
     Some (object [ ("solar", object [ ("acPower", JNum 50) ]%string) ]%string) /\
   solarOnly !! "storage"%string = None) /\
  spread (of_data initializeData) solarOnly !! "generation"%string =
    Some (object [ ("solar", object [ ("acPower", JNum 50) ]%string) ]%string) /\
  spread (of_data initializeData) solarOnly !! "storage"%string =
    of_data initializeData !! "storage"%string.
Proof.
  pose (this := {| charts := noCharts; currentData := of_data initializeData;
                   document := ∅; entropy := fun _ => 0 |}).
  assert (solarOnly !! "generation"%string =
            Some (object [ ("solar", object [ ("acPower", JNum 50) ]%string) ]%string))
    as Hg by reflexivity.
  assert (solarOnly !! "storage"%string = None) as Hs by reflexivity.
  split; [split; assumption |].
  destruct (updateFromServer_merge solarOnly this) as (this' & P & O & _ & _ & _ & U & _).
  specialize (U _ (fun w => w)). cbv beta in U. subst this'.
  split; [exact (P _ _ Hg) | exact (O _ Hs)].
Defined.

Lemma path_provided (cur newData : gmap string JSVal) (key : string) (v : JSVal)
    (below : list string) :
  newData !! key = Some v ->
  path (key :: below) (spread cur newData) = path (key :: below) newData.
Proof.
  intros Hk. unfold path. cbn [foldl mbind option_bind prop].
  rewrite (spread_provided cur newData key v Hk), Hk. reflexivity.
Qed.

(** C9. The merge of [updateFromServer] is shallow.  The dashboard the
    render pass is run on, which is the one [updateFromServer] leaves,
    holds in [currentData], under a top-level key the partial record has,
    the incoming value whatever was there: every path below that key reads
    from the partial record alone, so a field below it which the incoming
    value lacks is gone after the call even where the old snapshot had it.
    On a dashboard that holds the initial snapshot, a partial record with
    only [generation.solar] loses [generation.wind], [generation.cbg] and
    [generation.totalGeneration], which were there before the call, and
    keeps what is under the other keys. *)
Theorem updateFromServer_shallow
    (newData : gmap string JSVal) (this : World (gmap string JSVal)) :
  exists this' : World (gmap string JSVal),
    (forall (R : Type) (updateDashboard : World (gmap string JSVal) -> R),
        updateFromServer updateDashboard newData this = updateDashboard this') /\
    (forall (key : string) (v : JSVal) (below : list string),
        newData !! key = Some v ->
        path (key :: below) (currentData this') = path (key :: below) newData) /\
    (forall (key field : string) (v : JSVal),
        newData !! key = Some v -> prop field v = None ->
        path [key; field] (currentData this') = None) /\
    (currentData this = of_data initializeData -> newData = solarOnly ->
     path ["generation"; "wind"]%string (currentData this) =
       Some (of_wind (wind.mk 12.3 8.2 89.1)) /\
     path ["generation"; "cbg"]%string (currentData this) =
       Some (of_cbg (cbg.mk 18.5 "operational" 91.7)) /\
     path ["generation"; "totalGeneration"]%string (currentData this) =
       Some (JNum 74.0) /\
     path ["generation"; "solar"; "acPower"]%string (currentData this') =
       Some (JNum 50) /\
     path ["generation"; "wind"]%string (currentData this') = None /\
     path ["generation"; "cbg"]%string (currentData this') = None /\
     path ["generation"; "totalGeneration"]%string (currentData this') = None /\
     path ["storage"; "overallSOC"]%string (currentData this') = Some (JNum 67)).
Proof.
  exists (set_currentData (spread (currentData this) newData) this).
  cbn [set_currentData currentData].
  split; [reflexivity |]. split; [| split].
  - intros key v below Hk. apply (path_provided _ _ key v below Hk).
  - intros key field v Hk Hf. rewrite (path_provided _ _ key v [field] Hk).
    unfold path. cbn [foldl mbind option_bind prop]. rewrite Hk. exact Hf.
  - intros -> ->. repeat split; vm_compute; reflexivity.
Qed.

Lemma updateFromServer_shallow_witness :
  (currentData {| charts := noCharts; currentData := of_data initializeData;
                  document := ∅; entropy := fun _ => 0 |}
   = of_data initializeData /\
   solarOnly !! "generation"%string =
     Some (object [ ("solar", object [ ("acPower", JNum 50) ]%string) ]%string) /\
   prop "wind" (object [ ("solar", object [ ("acPower", JNum 50) ]%string) ]%string)
   = None) /\
  path ["generation"; "wind"]%string
    (currentData
       (updateFromServer (fun this' => this') solarOnly
          {| charts := noCharts; currentData := of_data initializeData;
             document := ∅; entropy := fun _ => 0 |})) = None /\
  path ["storage"; "overallSOC"]%string
    (currentData
       (updateFromServer (fun this' => this') solarOnly
          {| charts := noCharts; currentData := of_data initializeData;
             document := ∅; entropy := fun _ => 0 |})) = Some (JNum 67).
Proof.
  assert (solarOnly !! "generation"%string =
            Some (object [ ("solar", object [ ("acPower", JNum 50) ]%string) ]%string))
    as Hg by reflexivity.
  assert (prop "wind" (object [ ("solar", object [ ("acPower", JNum 50) ]%string) ]%string)
          = None) as Hw by reflexivity.
  split; [split; [reflexivity | split; assumption] |].
  destruct (updateFromServer_shallow solarOnly
              {| charts := noCharts; currentData := of_data initializeData;
                 document := ∅; entropy := fun _ => 0 |})
    as (this' & U & _ & S & I).
  rewrite (U _ (fun this' => this')).
  split; [exact (S _ _ _ Hg Hw) |].
  destruct (I eq_refl eq_refl) as (_ & _ & _ & _ & _ & _ & _ & Hs). exact Hs.
Defined.

(** * Further properties of the simulation step *)

(** ** The step, field by field *)

Lemma updatePacks_draws (d : data.t) (s : Draws) :
  snd (updatePacks d s) = afterPacks (length (batteryPacks d)) s.
Proof. apply updatePacks_frame. Qed.

Lemma batteryManagement_packs (d : data.t) :
  batteryPacks (batteryManagement d) = batteryPacks d.
Proof. apply batteryManagement_frame. Qed.

Lemma simulateDataChanges_alert (c : Clock) (d : data.t) (s : Draws) :
  simulateDataChanges c d s = spawnAlert c (beforeAlert c d s) (alertDraws d s).
Proof.
  unfold simulateDataChanges.
  name_block solarVariations_draws.
  name_block windVariations_draws.
  name_block cbgVariations_draws.
  cbv zeta. fold (atBattery c d s).
  name_block updatePacks_draws.
  rewrite batteryManagement_packs, atBattery_storage.
  name_block weatherChanges_draws.
  name_block systemEfficiency_draws.
  reflexivity.
Qed.

(** The four records a block other than the readings may leave alone. *)
Lemma batteryManagement_others (d : data.t) :
  data.generation (batteryManagement d) = data.generation d /\
  data.demand (batteryManagement d) = data.demand d /\
  data.weather (batteryManagement d) = data.weather d /\
  data.systemMetrics (batteryManagement d) = data.systemMetrics d.
Proof.
  unfold batteryManagement.
  destruct (gtb _ 0 && ltb _ 95); [repeat split |].
  destruct (ltb _ 0 && gtb _ 20); repeat split.
Qed.

Lemma updatePacks_others (d : data.t) (s : Draws) :
  data.generation (fst (updatePacks d s)) = data.generation d /\
  data.demand (fst (updatePacks d s)) = data.demand d /\
  data.weather (fst (updatePacks d s)) = data.weather d /\
  data.systemMetrics (fst (updatePacks d s)) = data.systemMetrics d.
Proof.
  unfold updatePacks. cbv beta iota delta [mbind mret Rand_bind Rand_ret].
  destruct (forEach _ _ s) as [packs s']. repeat split.
Qed.

Lemma weatherChanges_others (d : data.t) (s : Draws) :
  data.generation (fst (weatherChanges d s)) = data.generation d /\
  data.demand (fst (weatherChanges d s)) = data.demand d /\
  data.weather (fst (weatherChanges d s)) =
    weather.set_cloudCover
      (Math.max 0 (Math.min 100 (cloudCover d + (s 1%nat - 0.5) * 10)))
      (weather.set_temperature (28.5 + (s 0%nat - 0.5) * 6) (data.weather d)) /\
  data.systemMetrics (fst (weatherChanges d s)) = data.systemMetrics d.
Proof. straight_line. repeat split. Qed.

Lemma systemEfficiency_others (d : data.t) (s : Draws) :
  data.generation (fst (systemEfficiency d s)) = data.generation d /\
  data.demand (fst (systemEfficiency d s)) = data.demand d /\
  data.weather (fst (systemEfficiency d s)) = data.weather d /\
  data.systemMetrics (fst (systemEfficiency d s)) =
    systemMetrics.set_overallEfficiency (92.8 + (s 0%nat - 0.5) * 2)
      (data.systemMetrics d).
Proof. straight_line. repeat split. Qed.

Lemma spawnAlert_others (c : Clock) (d : data.t) (s : Draws) :
  data.generation (fst (spawnAlert c d s)) = data.generation d /\
  data.demand (fst (spawnAlert c d s)) = data.demand d /\
  data.weather (fst (spawnAlert c d s)) = data.weather d /\
  data.systemMetrics (fst (spawnAlert c d s)) = data.systemMetrics d.
Proof.
  unfold spawnAlert.
  cbv beta iota zeta delta [mbind mret Rand_bind Rand_ret Math.random fst snd].
  destruct (ltb (s 0%nat) 0.1); repeat split.
Qed.

(** The readings the first blocks of the step write. *)
Lemma atBattery_generation (c : Clock) (d : data.t) (s : Draws) :
  let ac := acPowerOf (dcPowerOf (irradianceOf (cloudCover d) (s 0%nat))) in
  let wind := windCurve (windSpeedOf (s 1%nat)) in
  let cbg := cbgPowerOf (s 2%nat) in
  acPower (atBattery c d s) = ac /\
  dcPower (atBattery c d s) = dcPowerOf (irradianceOf (cloudCover d) (s 0%nat)) /\
  windPower (atBattery c d s) = wind /\
  cbgPower (atBattery c d s) = cbg /\
  totalGeneration (atBattery c d s) = ac + wind + cbg.
Proof.
  cbv zeta. unfold atBattery. straight_line. repeat split.
Qed.

Lemma atBattery_demand (c : Clock) (d : data.t) (s : Draws) :
  data.demand (atBattery c d s) =
  demand.mk (totalLoadOf (sinHour c))
    (criticalLoadsOf (totalLoadOf (sinHour c)))
    (flexibleLoadsOf (totalLoadOf (sinHour c)))
    (demand.peakReduction (data.demand d)).
Proof. unfold atBattery. straight_line. reflexivity. Qed.

Lemma atBattery_weather (c : Clock) (d : data.t) (s : Draws) :
  data.weather (atBattery c d s) =
  weather.mk (weather.temperature (data.weather d))
    (weather.humidity (data.weather d))
    (windSpeedOf (s 1%nat))
    (irradianceOf (cloudCover d) (s 0%nat))
    (cloudCover d).
Proof. unfold atBattery. straight_line. reflexivity. Qed.

Lemma atBattery_systemMetrics (c : Clock) (d : data.t) (s : Draws) :
  data.systemMetrics (atBattery c d s) = data.systemMetrics d.
Proof. unfold atBattery. straight_line. reflexivity. Qed.

Lemma beforeAlert_others (c : Clock) (d : data.t) (s : Draws) :
  data.generation (beforeAlert c d s) = data.generation (atBattery c d s) /\
  data.demand (beforeAlert c d s) = data.demand (atBattery c d s) /\
  data.weather (beforeAlert c d s) =
    weather.set_cloudCover
      (Math.max 0 (Math.min 100 (cloudCover d + (weatherDraws d s 1%nat - 0.5) * 10)))
      (weather.set_temperature (28.5 + (weatherDraws d s 0%nat - 0.5) * 6)
         (data.weather (atBattery c d s))) /\
  data.systemMetrics (beforeAlert c d s) =
    systemMetrics.set_overallEfficiency (92.8 + (weatherDraws d s 2%nat - 0.5) * 2)
      (data.systemMetrics d).
Proof.
  unfold beforeAlert. cbv zeta.
  set (b := batteryManagement (atBattery c d s)).
  set (p := fst (updatePacks b (tail (tail (tail s))))).
  set (w := fst (weatherChanges p (weatherDraws d s))).
  destruct (batteryManagement_others (atBattery c d s)) as (B1 & B2 & B3 & B4).
  destruct (updatePacks_others b (tail (tail (tail s)))) as (P1 & P2 & P3 & P4).
  destruct (weatherChanges_others p (weatherDraws d s)) as (W1 & W2 & W3 & W4).
  destruct (systemEfficiency_others w (tail (tail (weatherDraws d s))))
    as (S1 & S2 & S3 & S4).
  fold b in B1, B2, B3, B4. fold p in P1, P2, P3, P4. fold w in W1, W2, W3, W4.
  rewrite S1, S2, S3, S4, W1, W2, W3, W4, P1, P2, P3, P4, B1, B2, B3, B4.
  rewrite atBattery_systemMetrics.
  replace (cloudCover (atBattery c d s)) with (cloudCover d)
    by (rewrite atBattery_weather; reflexivity).
  repeat split.
Qed.

Lemma step_others (d : data.t) (t : Tick) :
  data.generation (step d t) = data.generation (atBattery (clock t) d (draws t)) /\
  data.demand (step d t) = data.demand (atBattery (clock t) d (draws t)) /\
  data.weather (step d t) =
    weather.set_cloudCover
      (Math.max 0
         (Math.min 100 (cloudCover d + (weatherDraws d (draws t) 1%nat - 0.5) * 10)))
      (weather.set_temperature (28.5 + (weatherDraws d (draws t) 0%nat - 0.5) * 6)
         (data.weather (atBattery (clock t) d (draws t)))) /\
  data.systemMetrics (step d t) =
    systemMetrics.set_overallEfficiency
      (92.8 + (weatherDraws d (draws t) 2%nat - 0.5) * 2) (data.systemMetrics d).
Proof.
  unfold step. rewrite simulateDataChanges_alert.
  destruct (spawnAlert_others (clock t) (beforeAlert (clock t) d (draws t))
              (alertDraws d (draws t))) as (-> & -> & -> & ->).
  apply beforeAlert_others.
Qed.

(** ** Rounding and clamping *)

Lemma one_half : 1 / 2 == 1 # 2.
Proof. reflexivity. Qed.

Lemma round_near (x : Q) : x - (1 # 2) < Math.round x /\ Math.round x <= x + (1 # 2).
Proof.
  unfold Math.round. pose proof one_half as Hh. split.
  - pose proof (Qlt_floor (x + 1 / 2)) as H.
    rewrite inject_Z_plus in H. change (inject_Z 1) with 1 in H. lra.
  - pose proof (Qfloor_le (x + 1 / 2)) as H. lra.
Qed.

Lemma round_integer (z : Z) : Math.round (inject_Z z) == inject_Z z.
Proof.
  destruct (round_near (inject_Z z)) as [H2 H1]. unfold Math.round in *.
  assert (Qfloor (inject_Z z + 1 / 2) = z) as ->; [| reflexivity].
  remember (Qfloor (inject_Z z + 1 / 2)) as f eqn:Hf in *. clear Hf.
  assert (forall qf qz : Q,
             qz - (1 # 2) < qf -> qf <= qz + (1 # 2) ->
             qf < qz + 1 /\ qz + - (1) < qf) as L by (intros; split; lra).
  destruct (L _ _ H2 H1) as [H1' H2'].
  change 1 with (inject_Z 1) in H1'. change (- (1)) with (inject_Z (-1)) in H2'.
  rewrite <- inject_Z_plus in H1', H2'.
  rewrite <- Zlt_Qlt in H1', H2'. lia.
Qed.

Lemma clamp_near (lo hi x y : Q) :
  lo <= x -> x <= hi ->
  Qabs (Math.max lo (Math.min hi y) - x) <= Qabs (y - x).
Proof.
  intros Hlo Hhi.
  destruct (max_cases lo (Math.min hi y)) as [[H E] | [H E]];
    destruct (min_cases hi y) as [[H' E'] | [H' E']];
    apply Qabs_case; intros; apply Qabs_case; intros; lra.
Qed.

Lemma unit_draws_tail (s : Draws) : unit_draws s -> unit_draws (tail s).
Proof. intros H k. apply H. Qed.

Lemma unit_draws_afterPacks (n : nat) (s : Draws) :
  unit_draws s -> unit_draws (afterPacks n s).
Proof.
  revert s. induction n as [| n IH]; intros s H; [exact H |].
  rewrite afterPacks_S. apply IH. apply unit_draws_tail, unit_draws_tail, H.
Qed.

Lemma unit_draws_weather (d : data.t) (s : Draws) :
  unit_draws s -> unit_draws (weatherDraws d s).
Proof.
  intros H. unfold weatherDraws.
  apply unit_draws_afterPacks, unit_draws_tail, unit_draws_tail, unit_draws_tail, H.
Qed.

Ltac flat_div :=
  unfold Qdiv in *;
  change (/ 2) with (1 # 2) in *; change (/ 10) with (1 # 10) in *;
  change (/ 12) with (1 # 12) in *; change (/ 100) with (1 # 100) in *;
  change (/ 1000) with (1 # 1000) in *.

(** ** Cloud cover *)

Lemma step_cloudCover (d : data.t) (t : Tick) :
  cloudCover (step d t) =
  Math.max 0 (Math.min 100 (cloudCover d + (weatherDraws d (draws t) 1%nat - 0.5) * 10)).
Proof. destruct (step_others d t) as (_ & _ & -> & _). reflexivity. Qed.

Lemma run_cloud_ok (ticks : list Tick) : percent_ok (cloudCover (run ticks)).
Proof.
  destruct ticks as [| t ticks _] using rev_ind.
  - unfold percent_ok, run, initializeData.
    cbn [fold_left data.weather weather.cloudCover]. lra.
  - rewrite run_snoc, step_cloudCover. apply clamp_range. lra.
Qed.

(** X1. The cloud cover is a bounded random walk: it stays within
    [[0, 100]] in every state the simulation reaches, and with draws in
    [[0, 1)] a step moves it by 5 at most. *)
Theorem cloudCover_walk :
  (forall ticks : list Tick, percent_ok (cloudCover (run ticks))) /\
  (forall (d : data.t) (t : Tick),
      percent_ok (cloudCover d) -> unit_draws (draws t) ->
      Qabs (cloudCover (step d t) - cloudCover d) <= 5).
Proof.
  split; [exact run_cloud_ok |].
  intros d t [H0 H100] Hu. rewrite step_cloudCover.
  destruct (unit_draws_weather d (draws t) Hu 1%nat) as [Hr0 Hr1].
  eapply Qle_trans; [apply clamp_near; assumption |].
  apply Qabs_case; intros; lra.
Qed.

Lemma cloudCover_walk_witness :
  (percent_ok (cloudCover initializeData) /\ unit_draws (draws alert_tick)) /\
  Qabs (cloudCover (step initializeData alert_tick) - cloudCover initializeData) <= 5.
Proof.
  assert (percent_ok (cloudCover initializeData)) as Hp
    by (vm_compute; split; discriminate).
  assert (unit_draws (draws alert_tick)) as Hu
    by (intros k; vm_compute; split; [discriminate | reflexivity]).
  split; [split; assumption |].
  exact (proj2 cloudCover_walk initializeData alert_tick Hp Hu).
Defined.

(** ** The battery *)

Lemma batteryManagement_power (d : data.t) :
  power_ok d -> power_ok (batteryManagement d).
Proof.
  intros H.
  destruct (batteryManagement_cases d) as [[Hb Hs] | [[Hb Hs] | ->]]; [| | exact H];
    unfold power_ok.
  - rewrite (batteryManagement_surplus d Hb Hs).
    cbn [storage.chargePower storage.dischargePower].
    destruct (min_cases (powerBalance d * 0.8) 15) as [[H1 E] | [H1 E]];
      repeat split; lra.
  - rewrite (batteryManagement_deficit d Hb Hs).
    cbn [storage.chargePower storage.dischargePower].
    assert (Math.abs (powerBalance d) == - powerBalance d) as Ea
      by (unfold Math.abs; apply Qabs_neg; lra).
    destruct (min_cases (Math.abs (powerBalance d)) 20) as [[H1 E] | [H1 E]];
      repeat split; lra.
Qed.

Lemma run_power_ok (ticks : list Tick) : power_ok (run ticks).
Proof.
  induction ticks as [| t ticks IH] using rev_ind.
  - unfold power_ok, run, initializeData.
    cbn [fold_left data.storage storage.chargePower storage.dischargePower]. lra.
  - rewrite run_snoc. unfold power_ok.
    rewrite step_storage, set_batteryPacks_chargePower,
      set_batteryPacks_dischargePower.
    apply batteryManagement_power. unfold power_ok.
    rewrite atBattery_storage. exact IH.
Qed.

(** X2. In every state the simulation reaches the battery charges at
    between 0 and 15 kW and discharges at between 0 and 20 kW. *)
Theorem battery_power_bounded (ticks : list Tick) :
  (0 <= chargePower (run ticks) /\ chargePower (run ticks) <= 15) /\
  (0 <= dischargePower (run ticks) /\ dischargePower (run ticks) <= 20).
Proof. exact (run_power_ok ticks). Qed.

Lemma batteryManagement_slew (d : data.t) :
  (overallSOC d - 0.2 <= overallSOC (batteryManagement d) /\
   overallSOC (batteryManagement d) <= overallSOC d + 0.1) /\
  (0 <= powerBalance d -> overallSOC d <= overallSOC (batteryManagement d)) /\
  (powerBalance d <= 0 -> overallSOC (batteryManagement d) <= overallSOC d).
Proof.
  destruct (batteryManagement_cases d) as [[Hb Hs] | [[Hb Hs] | ->]].
  - rewrite (batteryManagement_surplus d Hb Hs). cbn [storage.overallSOC].
    destruct (min_cases 95 (overallSOC d + 0.1)) as [[H E] | [H E]];
      repeat split; intros; lra.
  - rewrite (batteryManagement_deficit d Hb Hs). cbn [storage.overallSOC].
    destruct (max_cases 20 (overallSOC d - 0.2)) as [[H E] | [H E]];
      repeat split; intros; lra.
  - repeat split; intros; lra.
Qed.

(** X3. A step moves the state of charge of the battery by little and in
    the direction of the power balance of the tick: it raises it by 0.1 at
    most and lowers it by 0.2 at most, does not lower it when generation
    covers the load, and does not raise it when it does not exceed the
    load. *)
Theorem soc_slew (d : data.t) (t : Tick) :
  let balance := powerBalance (atBattery (clock t) d (draws t)) in
  (overallSOC d - 0.2 <= overallSOC (step d t) /\
   overallSOC (step d t) <= overallSOC d + 0.1) /\
  (0 <= balance -> overallSOC d <= overallSOC (step d t)) /\
  (balance <= 0 -> overallSOC (step d t) <= overallSOC d).
Proof.
  cbv zeta. rewrite step_storage, set_batteryPacks_overallSOC.
  pose proof (batteryManagement_slew (atBattery (clock t) d (draws t))) as H.
  rewrite atBattery_storage in H. exact H.
Qed.

Lemma soc_slew_witness :
  powerBalance (atBattery (clock alert_tick) initializeData (draws alert_tick)) <= 0 /\
  overallSOC (step initializeData alert_tick) <= overallSOC initializeData.
Proof.
  assert (powerBalance
            (atBattery (clock alert_tick) initializeData (draws alert_tick)) <= 0) as H
    by (vm_compute; discriminate).
  split; [exact H |].
  destruct (soc_slew initializeData alert_tick) as (_ & _ & Down). exact (Down H).
Defined.

(** ** Generation and load *)

Lemma step_generation_sum (d : data.t) (t : Tick) :
  totalGeneration (step d t) =
  acPower (step d t) + windPower (step d t) + cbgPower (step d t).
Proof.
  destruct (step_others d t) as (-> & _).
  destruct (atBattery_generation (clock t) d (draws t)) as (-> & _ & -> & -> & ->).
  reflexivity.
Qed.

Lemma step_demand (d : data.t) (t : Tick) :
  data.demand (step d t) =
  demand.mk (totalLoadOf (sinHour (clock t)))
    (criticalLoadsOf (totalLoadOf (sinHour (clock t))))
    (flexibleLoadsOf (totalLoadOf (sinHour (clock t))))
    (demand.peakReduction (data.demand d)).
Proof.
  destruct (step_others d t) as (_ & -> & _). apply atBattery_demand.
Qed.

(** The two shares of a load given to a tenth: they sum to the load or to
    a tenth more. *)
Lemma shares_sum (n : Z) :
  let load := inject_Z n / 10 in
  0 <= criticalLoadsOf load + flexibleLoadsOf load - load /\
  criticalLoadsOf load + flexibleLoadsOf load - load <= 0.1.
Proof.
  cbv zeta. unfold criticalLoadsOf, flexibleLoadsOf.
  destruct (round_near (inject_Z n / 10 * 0.43 * 10)) as [A1 A2].
  destruct (round_near (inject_Z n / 10 * 0.57 * 10)) as [B1 B2].
  unfold Math.round in *.
  remember (Qfloor (inject_Z n / 10 * 0.43 * 10 + 1 / 2)) as za eqn:Ha in *. clear Ha.
  remember (Qfloor (inject_Z n / 10 * 0.57 * 10 + 1 / 2)) as zb eqn:Hb in *. clear Hb.
  assert (forall qn qa qb : Q,
             qn / 10 * 0.43 * 10 - (1 # 2) < qa -> qa <= qn / 10 * 0.43 * 10 + (1 # 2) ->
             qn / 10 * 0.57 * 10 - (1 # 2) < qb -> qb <= qn / 10 * 0.57 * 10 + (1 # 2) ->
             qn + - (1) < qa + qb /\ qa + qb < qn + 2) as L
    by (intros; flat_div; split; lra).
  destruct (L _ _ _ A1 A2 B1 B2) as [Hlo Hhi].
  change (- (1)) with (inject_Z (-1)) in Hlo. change 2 with (inject_Z 2) in Hhi.
  rewrite <- !inject_Z_plus in Hlo, Hhi. rewrite <- Zlt_Qlt in Hlo, Hhi.
  assert (forall qn qa qb : Q,
             qa + qb == qn \/ qa + qb == qn + 1 ->
             0 <= qa / 10 + qb / 10 - qn / 10 /\ qa / 10 + qb / 10 - qn / 10 <= 0.1) as M
    by (intros qn qa qb [E | E]; flat_div; split; lra).
  apply M.
  assert (za + zb = n \/ za + zb = n + 1)%Z as [E | E] by lia; [left | right].
  - rewrite <- inject_Z_plus, E. reflexivity.
  - rewrite <- inject_Z_plus, E, inject_Z_plus. reflexivity.
Qed.

(** X4. After every step the total generation is the sum of the solar AC
    power, the wind power and the CBG power, and the critical and flexible
    loads are the 43 % and 57 % shares of the total load, each rounded to a
    tenth; the two shares sum to the total load or to 0.1 more, never to
    less. *)
Theorem totals_consistent (d : data.t) (t : Tick) :
  let d' := step d t in
  totalGeneration d' = acPower d' + windPower d' + cbgPower d' /\
  demand.criticalLoads (data.demand d') = Math.round (totalLoad d' * 0.43 * 10) / 10 /\
  demand.flexibleLoads (data.demand d') = Math.round (totalLoad d' * 0.57 * 10) / 10 /\
  0 <= demand.criticalLoads (data.demand d') + demand.flexibleLoads (data.demand d')
       - totalLoad d' /\
  demand.criticalLoads (data.demand d') + demand.flexibleLoads (data.demand d')
    - totalLoad d' <= 0.1.
Proof.
  cbv zeta. split; [apply step_generation_sum |].
  rewrite step_demand. cbn [demand.totalLoad demand.criticalLoads demand.flexibleLoads].
  split; [reflexivity | split; [reflexivity |]].
  exact (shares_sum (Qfloor (65.5 * (1 + 0.2 * sinHour (clock t)) * 10 + 1 / 2))).
Qed.

(** ** The ranges of the readings *)

Lemma irradianceOf_range (cloud r : Q) :
  percent_ok cloud -> 0 <= r -> r < 1 ->
  0 <= irradianceOf cloud r /\ irradianceOf cloud r <= 950.
Proof.
  intros [Hc0 Hc1] Hr0 Hr1. unfold irradianceOf.
  assert (0 <= (850 + r * 100) * ((100 - cloud) / 100) /\
          (850 + r * 100) * ((100 - cloud) / 100) <= 950) as [Hlo Hhi]
    by (flat_div; split; nra).
  split.
  - eapply Qle_trans; [| apply round_le; exact Hlo]. vm_compute. discriminate.
  - eapply Qle_trans; [apply round_le; exact Hhi |]. vm_compute. discriminate.
Qed.

Lemma dcPowerOf_range (irr : Q) :
  0 <= irr -> irr <= 950 -> 0 <= dcPowerOf irr /\ dcPowerOf irr <= 49.4.
Proof.
  intros H0 H1. unfold dcPowerOf.
  assert (0 <= irr / 1000 * 52 * 10 /\ irr / 1000 * 52 * 10 <= 494) as [Hlo Hhi]
    by (flat_div; split; lra).
  pose proof (round_le _ _ Hlo) as Rlo. pose proof (round_le _ _ Hhi) as Rhi.
  assert (Math.round 0 == 0) as E0 by (vm_compute; reflexivity).
  assert (Math.round 494 == 494) as E1 by (vm_compute; reflexivity).
  remember (Math.round (irr / 1000 * 52 * 10)) as x in *.
  remember (Math.round 0) as a in *. remember (Math.round 494) as b in *.
  flat_div. split; lra.
Qed.

Lemma acPowerOf_range (dc : Q) :
  0 <= dc -> dc <= 49.4 -> 0 <= acPowerOf dc /\ acPowerOf dc <= 46.4.
Proof.
  intros H0 H1. unfold acPowerOf.
  assert (0 <= dc * 0.94 * 10 /\ dc * 0.94 * 10 <= 464.36) as [Hlo Hhi]
    by (split; lra).
  pose proof (round_le _ _ Hlo) as Rlo. pose proof (round_le _ _ Hhi) as Rhi.
  assert (Math.round 0 == 0) as E0 by (vm_compute; reflexivity).
  assert (Math.round 464.36 == 464) as E1 by (vm_compute; reflexivity).
  remember (Math.round (dc * 0.94 * 10)) as x in *.
  remember (Math.round 0) as a in *. remember (Math.round 464.36) as b in *.
  flat_div. split; lra.
Qed.

Lemma windSpeedOf_range (r : Q) :
  0 <= r -> r < 1 -> 6.2 <= windSpeedOf r /\ windSpeedOf r < 10.2.
Proof.
  intros H0 H1. unfold windSpeedOf.
  destruct (max_cases 0 (8.2 + (r - 0.5) * 4)) as [[H E] | [H E]]; split; lra.
Qed.

Lemma windCurve_range (speed : Q) :
  6.2 <= speed -> speed < 10.2 -> 3.4 <= windCurve speed /\ windCurve speed <= 15.4.
Proof.
  intros H0 H1.
  assert (windCurve 6.2 <= windCurve speed) as Hlo by (apply windCurve_le; lra).
  assert (windCurve speed <= windCurve 10.2) as Hhi by (apply windCurve_le; lra).
  assert (windCurve 6.2 == 3.4) as E0 by (vm_compute; reflexivity).
  assert (windCurve 10.2 == 15.4) as E1 by (vm_compute; reflexivity).
  split; lra.
Qed.

Lemma step_readings_ok (d : data.t) (t : Tick) :
  percent_ok (cloudCover d) -> unit_draws (draws t) -> readings_ok (step d t).
Proof.
  intros Hc Hu. unfold readings_ok.
  destruct (step_others d t) as (-> & _ & -> & _).
  destruct (atBattery_generation (clock t) d (draws t)) as (-> & -> & -> & -> & _).
  rewrite atBattery_weather.
  cbn [weather.set_cloudCover weather.set_temperature weather.irradiance
       weather.windSpeed weather.temperature weather.humidity weather.cloudCover].
  destruct (Hu 0%nat) as [A0 A1]. destruct (Hu 1%nat) as [B0 B1].
  destruct (Hu 2%nat) as [C0 C1].
  pose proof (irradianceOf_range (cloudCover d) (draws t 0%nat) Hc A0 A1) as [I0 I1].
  pose proof (dcPowerOf_range _ I0 I1) as [D0 D1].
  pose proof (acPowerOf_range _ D0 D1) as HA.
  pose proof (windSpeedOf_range (draws t 1%nat) B0 B1) as [W0 W1].
  pose proof (windCurve_range _ W0 W1) as HW.
  repeat split; try assumption; try apply HA; try apply HW; unfold cbgPowerOf; lra.
Qed.

Lemma run_readings_ok (ticks : list Tick) :
  Forall (fun t => unit_draws (draws t)) ticks -> readings_ok (run ticks).
Proof.
  destruct ticks as [| t ticks _] using rev_ind; intros H.
  - unfold readings_ok, run, initializeData.
    cbn [fold_left data.weather data.generation generation.solar generation.wind
         generation.cbg weather.irradiance weather.windSpeed solar.dcPower
         solar.acPower wind.power cbg.power].
    repeat split; lra.
  - rewrite run_snoc. apply Forall_app in H as [_ Ht].
    apply Forall_cons_iff in Ht as [Ht _].
    apply step_readings_ok; [apply run_cloud_ok | exact Ht].
Qed.

(** X5. With draws in [[0, 1)], a step from a snapshot whose cloud cover is
    a percentage leaves an irradiance in [[0, 950]], a solar DC power in
    [[0, 49.4]] and AC power in [[0, 46.4]], a wind speed in [[6.1, 10.2]]
    and wind power in [[3.4, 15.4]], and a CBG power in [[17.5, 19.5]],
    ends included.  So
    in every state such a simulation reaches, each gauge value is within
    the scale of its gauge (60, 25, 30 and 100): no remainder
    [max - value] is negative. *)
Theorem readings_in_range :
  (forall (d : data.t) (t : Tick),
      percent_ok (cloudCover d) -> unit_draws (draws t) -> readings_ok (step d t)) /\
  (forall ticks : list Tick,
      Forall (fun t => unit_draws (draws t)) ticks ->
      readings_ok (run ticks) /\
      0 <= 60 - acPower (run ticks) /\ 0 <= 25 - windPower (run ticks) /\
      0 <= 30 - cbgPower (run ticks) /\ 0 <= 100 - overallSOC (run ticks)).
Proof.
  split; [exact step_readings_ok |].
  intros ticks H. pose proof (run_readings_ok ticks H) as R.
  split; [exact R |].
  destruct R as (_ & _ & (_ & Ha) & _ & (_ & Hw) & (_ & Hc)).
  destruct (run_soc_ok ticks) as [_ Hs]. repeat split; lra.
Qed.

Lemma readings_in_range_witness :
  (percent_ok (cloudCover initializeData) /\ unit_draws (draws alert_tick)) /\
  readings_ok (step initializeData alert_tick).
Proof.
  assert (percent_ok (cloudCover initializeData)) as Hp
    by (vm_compute; split; discriminate).
  assert (unit_draws (draws alert_tick)) as Hu
    by (intros k; vm_compute; split; [discriminate | reflexivity]).
  split; [split; assumption |].
  exact (proj1 readings_in_range initializeData alert_tick Hp Hu).
Defined.

(** ** The battery packs *)

Lemma forEach_updatePack_ids (soc : Q) (l : list pack.t) (s : Draws) :
  map pack.id (fst (forEach (updatePack soc) l s)) = map pack.id l.
Proof.
  revert s. induction l as [| p l IH]; intros s; [reflexivity |].
  cbn [forEach map]. rewrite <- (IH (tail (tail s))).
  straight_line. destruct (forEach _ l _). reflexivity.
Qed.

Lemma forEach_updatePack_voltage (soc : Q) (l : list pack.t) (s : Draws) :
  Forall (fun p => pack.voltage p = 47.5 + pack.soc p / 100 * 1.5)
    (fst (forEach (updatePack soc) l s)).
Proof.
  revert s. induction l as [| p l IH]; intros s; [constructor |].
  cbn [forEach]. specialize (IH (tail (tail s))).
  straight_line. destruct (forEach _ l _). constructor; [reflexivity | exact IH].
Qed.

Lemma forEach_updatePack_near (soc : Q) (l : list pack.t) (s : Draws) :
  soc_ok soc -> unit_draws s ->
  Forall (pack_near soc) (fst (forEach (updatePack soc) l s)).
Proof.
  intros [Hlo Hhi]. revert s. induction l as [| p l IH]; intros s Hu; [constructor |].
  cbn [forEach]. specialize (IH (tail (tail s)) (unit_draws_tail _ (unit_draws_tail _ Hu))).
  straight_line. destruct (forEach _ l _). constructor; [| exact IH].
  destruct (Hu 0%nat) as [A0 A1]. destruct (Hu 1%nat) as [B0 B1].
  unfold pack_near, tail. cbn [pack.soc pack.temp pack.set_soc pack.set_temp
                               pack.set_voltage].
  split; [| split; lra].
  eapply Qle_trans; [apply clamp_near; assumption |].
  apply Qabs_case; intros; lra.
Qed.

Lemma run_pack_ids (ticks : list Tick) :
  map pack.id (batteryPacks (run ticks)) = [1; 2; 3; 4]%Z.
Proof.
  induction ticks as [| t ticks IH] using rev_ind; [reflexivity |].
  rewrite run_snoc, step_packs, forEach_updatePack_ids. exact IH.
Qed.

(** X6. The step keeps the battery packs and their ids, so there are
    always the four packs 1 to 4.  It leaves every pack with the voltage
    [47.5 + soc / 100 * 1.5], which is then between 47.8 and 48.925; and
    with draws in [[0, 1)] and the state of charge of the battery in
    [[20, 95]], every pack is left with a state of charge within 4 of the
    battery's new one and a temperature in [[22, 26]], ends included. *)
Theorem packs_follow_battery :
  (forall ticks : list Tick,
      map pack.id (batteryPacks (run ticks)) = [1; 2; 3; 4]%Z) /\
  (forall (d : data.t) (t : Tick),
      Forall (fun p => pack.voltage p = 47.5 + pack.soc p / 100 * 1.5 /\
                       47.8 <= pack.voltage p /\ pack.voltage p <= 48.925)
        (batteryPacks (step d t))) /\
  (forall (d : data.t) (t : Tick),
      soc_ok (overallSOC d) -> unit_draws (draws t) ->
      Forall (pack_near (overallSOC (step d t))) (batteryPacks (step d t))).
Proof.
  split; [exact run_pack_ids | split].
  - intros d t. rewrite step_packs.
    pose proof (forEach_updatePack_voltage
                  (overallSOC (batteryManagement (atBattery (clock t) d (draws t))))
                  (batteryPacks d) (tail (tail (tail (draws t))))) as Hv.
    pose proof (forEach_updatePack_soc
                  (overallSOC (batteryManagement (atBattery (clock t) d (draws t))))
                  (batteryPacks d) (tail (tail (tail (draws t))))) as Hs.
    rewrite Forall_forall in *. intros p Hp.
    specialize (Hv p Hp). destruct (Hs p Hp) as [Hlo Hhi].
    split; [exact Hv |]. rewrite Hv. flat_div. split; lra.
  - intros d t Hsoc Hu.
    rewrite step_storage at 1. rewrite set_batteryPacks_overallSOC, step_packs.
    apply forEach_updatePack_near.
    + apply batteryManagement_soc. rewrite atBattery_storage. exact Hsoc.
    + apply unit_draws_tail, unit_draws_tail, unit_draws_tail, Hu.
Qed.

Lemma packs_follow_battery_witness :
  (soc_ok (overallSOC initializeData) /\ unit_draws (draws alert_tick)) /\
  Forall (pack_near (overallSOC (step initializeData alert_tick)))
    (batteryPacks (step initializeData alert_tick)).
Proof.
  assert (soc_ok (overallSOC initializeData)) as Hs
    by (vm_compute; split; discriminate).
  assert (unit_draws (draws alert_tick)) as Hu
    by (intros k; vm_compute; split; [discriminate | reflexivity]).
  split; [split; assumption |].
  destruct packs_follow_battery as (_ & _ & N).
  exact (N initializeData alert_tick Hs Hu).
Defined.

(** ** The alerts *)

Lemma at_index_unit {A : Type} (arr : list A) (r : Q) :
  arr <> [] -> 0 <= r -> r < 1 ->
  exists x,
    at_index arr (Math.floor (r * inject_Z (Z.of_nat (length arr)))) = Some x /\
    In x arr.
Proof.
  intros Hne H0 H1. unfold at_index, Math.floor.
  set (n := Z.of_nat (length arr)).
  assert (0 < n)%Z as Hn by (destruct arr; [congruence | subst n; cbn [length]; lia]).
  assert (0 < inject_Z n) as Hqn
    by (change 0 with (inject_Z 0); rewrite <- Zlt_Qlt; exact Hn).
  assert (0 <= Qfloor (r * inject_Z n))%Z as Hlo.
  { change 0%Z with (Qfloor 0). apply Qfloor_resp_le.
    remember (inject_Z n) as qn in *. clear Heqqn. nra. }
  assert (Qfloor (r * inject_Z n) < n)%Z as Hhi.
  { rewrite Zlt_Qlt. eapply Qle_lt_trans; [apply Qfloor_le |].
    remember (inject_Z n) as qn in *. clear Heqqn. nra. }
  assert ((Qfloor (r * inject_Z n) <? 0)%Z = false) as -> by (apply Z.ltb_ge; lia).
  destruct (lookup_lt_is_Some_2 arr (Z.to_nat (Qfloor (r * inject_Z n)))) as [x Hx].
  { subst n. lia. }
  exists x. split; [exact Hx |].
  apply list_elem_of_In. apply list_elem_of_lookup. eauto.
Qed.

Lemma newAlert_ok (c : Clock) (r1 r2 : Q) :
  0 <= r1 -> r1 < 1 -> 0 <= r2 -> r2 < 1 -> alert_ok (newAlert c r1 r2).
Proof.
  intros A0 A1 B0 B1. unfold alert_ok, newAlert.
  cbn [alert.type alert.message].
  destruct (at_index_unit alertTypes r1) as (ty & -> & Hty); [discriminate | assumption.. |].
  destruct (at_index_unit messages r2) as (m & -> & Hm); [discriminate | assumption.. |].
  split; eexists; (split; [reflexivity |]).
  - exact Hty.
  - right. right. exact Hm.
Qed.

Lemma unit_draws_alert (d : data.t) (s : Draws) :
  unit_draws s -> unit_draws (alertDraws d s).
Proof.
  intros H. unfold alertDraws.
  apply unit_draws_tail, unit_draws_tail, unit_draws_tail, unit_draws_afterPacks,
    unit_draws_tail, unit_draws_tail, unit_draws_tail, H.
Qed.

Lemma run_alerts_ok (ticks : list Tick) :
  Forall (fun t => unit_draws (draws t)) ticks ->
  Forall alert_ok (data.alerts (run ticks)).
Proof.
  induction ticks as [| t ticks IH] using rev_ind; intros H.
  - unfold run, initializeData. cbn [fold_left data.alerts].
    constructor; [| constructor; [| constructor]];
      unfold alert_ok; cbn [alert.type alert.message];
      (split; eexists; (split; [reflexivity |]); cbn [In alertTypes messages];
       auto 10).
  - apply Forall_app in H as [Hticks Ht]. apply Forall_cons_iff in Ht as [Ht _].
    specialize (IH Hticks). rewrite run_snoc, step_alerts.
    destruct (ltb _ 0.1); [| exact IH].
    rewrite pushAlert_take by apply run_alerts_length.
    apply Forall_take. constructor; [| exact IH].
    pose proof (unit_draws_alert (run ticks) (draws t) Ht) as Hu.
    apply newAlert_ok; apply Hu.
Qed.

(** X7. With draws in [[0, 1)], every alert of every state the simulation
    reaches has a type and a message that are defined: the type is one of
    info, warning and error, the message one of the two initial messages
    or of the pool of five. *)
Theorem alerts_well_formed (ticks : list Tick) :
  Forall (fun t => unit_draws (draws t)) ticks ->
  Forall alert_ok (data.alerts (run ticks)).
Proof. exact (run_alerts_ok ticks). Qed.

Lemma alerts_well_formed_witness :
  Forall (fun t => unit_draws (draws t)) [alert_tick; alert_tick] /\
  Forall alert_ok (data.alerts (run [alert_tick; alert_tick])).
Proof.
  assert (unit_draws (draws alert_tick)) as Hu
    by (intros k; vm_compute; split; [discriminate | reflexivity]).
  assert (Forall (fun t => unit_draws (draws t)) [alert_tick; alert_tick]) as H.
  { constructor; [exact Hu |]. constructor; [exact Hu |]. constructor. }
  split; [exact H | exact (alerts_well_formed _ H)].
Defined.

(** ** The draws a step takes *)

Lemma afterPacks_at (n : nat) (s : Draws) (k : nat) :
  afterPacks n s k = s (2 * n + k)%nat.
Proof.
  revert s. induction n as [| n IH]; intros s; [reflexivity |].
  rewrite afterPacks_S, IH. unfold tail. f_equal. lia.
Qed.

Lemma alertDraws_at (d : data.t) (s : Draws) (k : nat) :
  alertDraws d s k = s (3 + 2 * length (batteryPacks d) + 3 + k)%nat.
Proof.
  unfold alertDraws, tail. rewrite afterPacks_at. f_equal. lia.
Qed.

Lemma spawnAlert_draws (c : Clock) (d : data.t) (s : Draws) :
  snd (spawnAlert c d s) =
  if ltb (s 0%nat) 0.1 then tail (tail (tail s)) else tail s.
Proof.
  unfold spawnAlert.
  cbv beta iota zeta delta [mbind mret Rand_bind Rand_ret Math.random fst snd].
  destruct (ltb (s 0%nat) 0.1); reflexivity.
Qed.

Lemma beforeAlert_alerts (c : Clock) (d : data.t) (s : Draws) :
  data.alerts (beforeAlert c d s) = data.alerts d.
Proof.
  unfold beforeAlert. cbv zeta.
  set (b := batteryManagement (atBattery c d s)).
  set (p := fst (updatePacks b (tail (tail (tail s))))).
  set (w := fst (weatherChanges p (weatherDraws d s))).
  destruct (systemEfficiency_keeps w (tail (tail (weatherDraws d s)))) as (_ & -> & _).
  destruct (weatherChanges_keeps p (weatherDraws d s)) as (_ & Hw & _).
  fold w in Hw. rewrite Hw.
  destruct (updatePacks_frame b (tail (tail (tail s)))) as (_ & Hp & _).
  fold p in Hp. rewrite Hp.
  destruct (batteryManagement_frame (atBattery c d s)) as (Hb & _).
  fold b in Hb. rewrite Hb.
  destruct (simulateDataChanges_blocks c d s) as (_ & _ & _ & _ & _ & K).
  apply K.
Qed.

(** X8. A step takes its draws in a fixed order and number: from a
    snapshot with [n] battery packs, 7 + 2 n draws, and two more when it
    spawns an alert, which the draw at position 6 + 2 n decides (counting
    from 0); the next call of [Math.random()] after the step gets the draw
    that follows. *)
Theorem draws_taken (c : Clock) (d : data.t) (s : Draws) :
  let n := length (batteryPacks d) in
  let alert := ltb (s (6 + 2 * n)%nat) 0.1 in
  (forall k : nat,
      snd (simulateDataChanges c d s) k = s (drawsTaken n alert + k)%nat) /\
  (alert = true ->
     data.alerts (fst (simulateDataChanges c d s)) =
     pushAlert (newAlert c (s (7 + 2 * n)%nat) (s (8 + 2 * n)%nat)) (data.alerts d)) /\
  (alert = false ->
     data.alerts (fst (simulateDataChanges c d s)) = data.alerts d).
Proof.
  cbv zeta.
  assert (alertDraws d s 0%nat = s (6 + 2 * length (batteryPacks d))%nat) as E0
    by (rewrite alertDraws_at; f_equal; lia).
  assert (alertDraws d s 1%nat = s (7 + 2 * length (batteryPacks d))%nat) as E1
    by (rewrite alertDraws_at; f_equal; lia).
  assert (alertDraws d s 2%nat = s (8 + 2 * length (batteryPacks d))%nat) as E2
    by (rewrite alertDraws_at; f_equal; lia).
  rewrite simulateDataChanges_alert, spawnAlert_draws, spawnAlert_alerts,
    beforeAlert_alerts, E0, E1, E2.
  split; [| split; intros ->; reflexivity].
  intros k. unfold drawsTaken.
  destruct (ltb (s (6 + 2 * length (batteryPacks d))%nat) 0.1);
    unfold tail; rewrite alertDraws_at; f_equal; lia.
Qed.

Lemma draws_taken_witness :
  ltb (draws alert_tick (6 + 2 * length (batteryPacks initializeData))%nat) 0.1 = true /\
  data.alerts (fst (simulateDataChanges (clock alert_tick) initializeData
                      (draws alert_tick))) =
  pushAlert (newAlert (clock alert_tick) (1 / 20) (1 / 20)) (data.alerts initializeData).
Proof.
  assert (ltb (draws alert_tick (6 + 2 * length (batteryPacks initializeData))%nat) 0.1
          = true) as H by reflexivity.
  split; [exact H |].
  destruct (draws_taken (clock alert_tick) initializeData (draws alert_tick))
    as (_ & A & _).
  exact (A H).
Defined.

(** * Further properties of the render step *)

(** ** Plain writers *)

Lemma same_refl (w : World data.t) : same_but_contents w w.
Proof. repeat split. Qed.

Lemma same_trans (w1 w2 w3 : World data.t) :
  same_but_contents w1 w2 -> same_but_contents w2 w3 -> same_but_contents w1 w3.
Proof.
  intros (A1 & A2 & A3 & A4) (B1 & B2 & B3 & B4). repeat split; congruence.
Qed.

Lemma present_same (ids : list string) (w w' : World data.t) :
  same_but_contents w w' -> present ids w -> present ids w'.
Proof.
  intros (_ & _ & _ & Hd) H. unfold present in *.
  eapply Forall_impl; [exact H |]. intros id Hid. cbv beta in *.
  apply elem_of_dom. rewrite Hd. apply elem_of_dom. exact Hid.
Qed.

Lemma write_plain (ids : list string) (id : string) (f : Element -> Element) :
  In id ids -> plain ids (write id f).
Proof.
  intros Hin w. unfold outcome, write, mbind, DOM_bind, getElementById, putElement,
    throw.
  destruct (document w !! id) as [e |] eqn:E.
  - split; [| eauto]. repeat split. cbn [set_document document].
    apply dom_insert_lookup_L. rewrite E. eauto.
  - split; [apply same_refl |]. intros Hp. unfold present in Hp.
    rewrite Forall_forall in Hp. apply list_elem_of_In in Hin.
    destruct (Hp id Hin) as [e He]. congruence.
Qed.

Lemma bind_plain (ids : list string) (m : DOM unit) (f : unit -> DOM unit) :
  plain ids m -> (forall a, plain ids (f a)) -> plain ids (m ≫= f).
Proof.
  intros Hm Hf w. destruct (Hm w) as [Ho Hr]. unfold outcome, mbind, DOM_bind in *.
  destruct (m w) as [a w1 | e w1] eqn:E.
  - destruct (Hf a w1) as [Ho1 Hr1]. unfold outcome in Ho1. split.
    + destruct (f a w1); eapply same_trans; eassumption.
    + intros Hp. apply Hr1. eapply present_same; eassumption.
  - split; [exact Ho |]. intros Hp. destruct (Hr Hp) as [w' Hw']. congruence.
Qed.

Lemma getData_plain (ids : list string) (f : data.t -> DOM unit) :
  (forall d, plain ids (f d)) -> plain ids (getData ≫= f).
Proof. intros Hf w. exact (Hf (currentData w) w). Qed.

Lemma sequence_plain (ids : list string) (l : list (DOM unit)) :
  Forall (plain ids) l -> plain ids (sequence l).
Proof.
  induction 1 as [| m l Hm Hl IH]; cbn [sequence].
  - intros w. split; [apply same_refl | eauto].
  - apply bind_plain; [exact Hm | intros _; exact IH].
Qed.

Lemma sequence_map_plain {A : Type} (ids : list string) (f : A -> DOM unit)
    (l : list A) :
  (forall a, plain ids (f a)) -> plain ids (sequence (map f l)).
Proof.
  intros Hf. apply sequence_plain. induction l as [| a l IH]; cbn [map].
  - constructor.
  - constructor; [apply Hf | exact IH].
Qed.

Ltac in_written :=
  unfold writtenElements; cbn [In];
  repeat first [left; reflexivity | right].

Ltac writer_plain :=
  lazymatch goal with
  | |- plain _ (sequence (map _ _)) => apply sequence_map_plain; intros; writer_plain
  | |- plain _ (sequence _) =>
      apply sequence_plain; repeat (constructor; [writer_plain |]); constructor
  | |- plain _ (getData ≫= _) => apply getData_plain; intros; writer_plain
  | |- plain _ (_ ≫= _) => apply bind_plain; [writer_plain | intros; writer_plain]
  | |- plain _ (write _ _) => apply write_plain; in_written
  | |- plain _ _ =>
      progress unfold showFixed, showRounded, setTextContent, clearChildren,
        appendChild, setWidth, updatePowerFlowDiagram, updateBatteryPacks,
        updateAlerts, updateLoadBars, updateGenerationValues, updateBatteryValues,
        updateDemandValues, updateWeatherValues, updateFooterKPIs;
      writer_plain
  end.

Lemma updateGenerationValues_plain (d : data.t) :
  plain writtenElements (sequence (updateGenerationValues d)).
Proof. writer_plain. Qed.

Lemma updateBatteryValues_plain (d : data.t) :
  plain writtenElements (sequence (updateBatteryValues d)).
Proof. writer_plain. Qed.

Lemma updateDemandValues_plain (d : data.t) :
  plain writtenElements (sequence (updateDemandValues d)).
Proof. writer_plain. Qed.

Lemma updateWeatherValues_plain (d : data.t) :
  plain writtenElements (sequence (updateWeatherValues d)).
Proof. writer_plain. Qed.

Lemma updateFooterKPIs_plain (d : data.t) :
  plain writtenElements (sequence (updateFooterKPIs d)).
Proof. writer_plain. Qed.

Lemma updatePowerFlowDiagram_plain : plain writtenElements updatePowerFlowDiagram.
Proof. writer_plain. Qed.

Lemma updateBatteryPacks_plain : plain writtenElements updateBatteryPacks.
Proof. writer_plain. Qed.

Lemma updateAlerts_plain : plain writtenElements updateAlerts.
Proof. writer_plain. Qed.

Lemma updateLoadBars_plain : plain writtenElements updateLoadBars.
Proof. writer_plain. Qed.

(** ** A render pass, block by block *)

Lemma present_dom (ids : list string) (w w' : World data.t) :
  dom (document w') = dom (document w) -> present ids w' -> present ids w.
Proof.
  intros Hd H. unfold present in *.
  eapply Forall_impl; [exact H |]. intros id Hid. cbv beta in *.
  apply elem_of_dom. rewrite <- Hd. apply elem_of_dom. exact Hid.
Qed.

Lemma plain_during (m : DOM unit) (ch : Charts) (s : Draws) (w w1 : World data.t) :
  plain writtenElements m ->
  s = entropy w \/ s = tail (entropy w) ->
  during ch s w w1 ->
  outcome m w1 (during ch s w) (thrown w).
Proof.
  intros Hm Hs (Hc & Hd & He & Hdom). destruct (Hm w1) as [Ho Hr]. unfold outcome in *.
  destruct (m w1) as [a w2 | e w2].
  - destruct Ho as (A1 & A2 & A3 & A4). repeat split; congruence.
  - destruct Ho as (A1 & A2 & A3 & A4). split; [congruence |].
    split; [congruence |]. split.
    + intros Hp. destruct Hr as [w' Hw']; [| discriminate].
      eapply present_dom; [| exact Hp]. congruence.
    + rewrite A3, He. exact Hs.
Qed.

Lemma updateSystemMetrics_during (d : data.t) (ch : Charts) (w w1 : World data.t) :
  during ch (entropy w) w w1 ->
  outcome (sequence (updateSystemMetrics d)) w1
    (during ch (tail (entropy w)) w) (thrown w).
Proof.
  intros H. unfold updateSystemMetrics. cbn [sequence].
  do 3 (eapply outcome_bind;
        [apply (plain_during _ ch (entropy w) w);
           [writer_plain | left; reflexivity | eassumption]
        | intros [] ? ?]).
  eapply outcome_bind.
  - eapply outcome_bind with (R1 := during ch (tail (entropy w)) w).
    + unfold outcome, draw.
      match goal with H : during _ _ _ _ |- _ => destruct H as (A1 & A2 & A3 & A4) end.
      repeat split; cbn [set_entropy charts currentData entropy document];
        congruence.
    + intros r wr Hr.
      apply (plain_during _ ch (tail (entropy w)) w);
        [writer_plain | right; reflexivity | exact Hr].
  - intros [] wz Hz. exact Hz.
Qed.

Lemma updateDashboard_during (c : Clock) (w : World data.t) :
  outcome (updateDashboard c) w
    (during (updatedCharts c (currentData w) (charts w)) (tail (entropy w)) w)
    (thrown w).
Proof.
  unfold updateDashboard.
  apply outcome_bind with (R1 := during (charts w) (entropy w) w).
  { repeat split. }
  intros d w0 H0.
  eapply outcome_bind;
    [eapply (plain_during _ _ _ w);
       [apply updateGenerationValues_plain | left; reflexivity | eassumption]
    | intros [] ? ?].
  eapply outcome_bind;
    [eapply (plain_during _ _ _ w);
       [apply updateBatteryValues_plain | left; reflexivity | eassumption]
    | intros [] ? ?].
  eapply outcome_bind;
    [eapply (plain_during _ _ _ w);
       [apply updateDemandValues_plain | left; reflexivity | eassumption]
    | intros [] ? ?].
  eapply outcome_bind;
    [eapply (plain_during _ _ _ w);
       [apply updateWeatherValues_plain | left; reflexivity | eassumption]
    | intros [] ? ?].
  eapply outcome_bind;
    [apply updateSystemMetrics_during; eassumption | intros [] ? ?].
  eapply outcome_bind;
    [eapply (plain_during _ _ _ w);
       [apply updateFooterKPIs_plain | right; reflexivity | eassumption]
    | intros [] ? ?].
  apply outcome_bind
    with (R1 := during (updatedCharts c (currentData w) (charts w))
                  (tail (entropy w)) w).
  { unfold outcome. rewrite updateCharts_returns.
    match goal with H : during (charts w) (tail _) _ _ |- _ =>
      destruct H as (A1 & A2 & A3 & A4) end.
    repeat split; cbn [set_charts charts currentData entropy document]; congruence. }
  intros [] w7 H7.
  eapply outcome_bind;
    [eapply (plain_during _ _ _ w);
       [apply updatePowerFlowDiagram_plain | right; reflexivity | eassumption]
    | intros [] ? ?].
  eapply outcome_bind;
    [eapply (plain_during _ _ _ w);
       [apply updateBatteryPacks_plain | right; reflexivity | eassumption]
    | intros [] ? ?].
  eapply outcome_bind;
    [eapply (plain_during _ _ _ w);
       [apply updateAlerts_plain | right; reflexivity | eassumption]
    | intros [] ? ?].
  eapply (plain_during _ _ _ w);
    [apply updateLoadBars_plain | right; reflexivity | eassumption].
Qed.

Lemma updateDashboard_returns (c : Clock) (w : World data.t) :
  present writtenElements w -> exists w', updateDashboard c w = Return tt w'.
Proof.
  intros Hp. pose proof (updateDashboard_during c w) as H. unfold outcome in H.
  destruct (updateDashboard c w) as [[] w' | e w']; [eauto |].
  destruct H as (_ & _ & Hn & _). contradiction.
Qed.

Lemma noCanvasWorld_present : present writtenElements noCanvasWorld.
Proof.
  unfold present, writtenElements.
  repeat (apply Forall_cons_2; [vm_compute; eauto |]). apply Forall_nil_2.
Qed.



(** ** What a render pass leaves in the elements *)

Lemma only_data_kept {A : Type} (m : DOM A) : only_document m -> data_kept m.
Proof.
  intros H w. specialize (H w). unfold outcome. destruct (m w); apply H.
Qed.

Lemma updateCharts_data_kept (c : Clock) : data_kept (updateCharts c).
Proof. intros w. unfold outcome. rewrite updateCharts_returns. reflexivity. Qed.

Lemma write_leaves (id id' : string) (f : Element -> Element) :
  id' <> id -> leaves id (write id' f).
Proof.
  intros Hne w. unfold outcome, write, mbind, DOM_bind, getElementById, putElement,
    throw.
  destruct (document w !! id'); [| exact I].
  cbn [set_document document]. apply lookup_insert_ne. exact Hne.
Qed.

Lemma bind_leaves {A B : Type} (id : string) (m : DOM A) (f : A -> DOM B) :
  leaves id m -> (forall a, leaves id (f a)) -> leaves id (m ≫= f).
Proof.
  intros Hm Hf w. specialize (Hm w). unfold outcome, mbind, DOM_bind in *.
  destruct (m w) as [a w1 | e w1]; [| exact I].
  specialize (Hf a w1). unfold outcome in Hf.
  destruct (f a w1); [congruence | exact I].
Qed.

Lemma getData_leaves (id : string) : leaves id getData.
Proof. intros w. reflexivity. Qed.

Lemma draw_leaves (id : string) : leaves id draw.
Proof. intros w. reflexivity. Qed.

Lemma updateCharts_leaves (c : Clock) (id : string) : leaves id (updateCharts c).
Proof. intros w. unfold outcome. rewrite updateCharts_returns. reflexivity. Qed.

Lemma sequence_leaves (id : string) (l : list (DOM unit)) :
  Forall (leaves id) l -> leaves id (sequence l).
Proof.
  induction 1 as [| m l Hm Hl IH]; cbn [sequence].
  - intros w. reflexivity.
  - apply bind_leaves; [exact Hm | intros _; exact IH].
Qed.

Lemma sequence_map_leaves {A : Type} (id : string) (f : A -> DOM unit) (l : list A) :
  (forall a, leaves id (f a)) -> leaves id (sequence (map f l)).
Proof.
  intros Hf. apply sequence_leaves. induction l as [| a l IH]; cbn [map].
  - constructor.
  - constructor; [apply Hf | exact IH].
Qed.

Ltac writer_leaves :=
  lazymatch goal with
  | |- leaves _ (sequence (map _ _)) => apply sequence_map_leaves; intros; writer_leaves
  | |- leaves _ (sequence _) =>
      apply sequence_leaves; repeat (constructor; [writer_leaves |]); constructor
  | |- leaves _ (_ ≫= _) => apply bind_leaves; [writer_leaves | intros; writer_leaves]
  | |- leaves _ getData => apply getData_leaves
  | |- leaves _ draw => apply draw_leaves
  | |- leaves _ (updateCharts _) => apply updateCharts_leaves
  | |- leaves _ (write _ _) => apply write_leaves; discriminate
  | |- leaves _ _ =>
      progress unfold showFixed, showRounded, setTextContent, clearChildren,
        appendChild, setWidth, updatePowerFlowDiagram, updateBatteryPacks,
        updateAlerts, updateLoadBars, updateGenerationValues, updateBatteryValues,
        updateDemandValues, updateWeatherValues, updateSystemMetrics,
        updateFooterKPIs;
      writer_leaves
  end.

Lemma write_at (id : string) (f : Element -> Element) (w : World data.t) :
  write id f w
  = match document w !! id with
    | Some e => Return tt (set_document (<[id := f e]> (document w)) w)
    | None => Throw nullError w
    end.
Proof.
  unfold write, mbind, DOM_bind, getElementById. destruct (document w !! id); reflexivity.
Qed.

Lemma bind_at {A B : Type} (m : DOM A) (f : A -> DOM B) (w : World data.t) :
  (m ≫= f) w
  = match m w with
    | Return a w1 => f a w1
    | Throw e w1 => Throw e w1
    end.
Proof. reflexivity. Qed.

Lemma write_shows (d : data.t) (id : string) (v : list Piece) (f : Element -> Element) :
  (forall e, textContent (f e) = v) -> settles d id (shows v) (write id f).
Proof.
  intros Hf w _. unfold outcome, write, mbind, DOM_bind, getElementById, putElement,
    throw, shows.
  destruct (document w !! id); [| exact I].
  cbn [set_document document]. rewrite lookup_insert_eq. cbn. rewrite Hf. reflexivity.
Qed.

Lemma write_spans (d : data.t) (id : string) (v : list Piece) (f : Element -> Element) :
  (forall e, width (f e) = v) -> settles d id (spans v) (write id f).
Proof.
  intros Hf w _. unfold outcome, spans. rewrite write_at.
  destruct (document w !! id); [| exact I].
  cbn [set_document document]. rewrite lookup_insert_eq. cbn. rewrite Hf. reflexivity.
Qed.

Lemma bind_settles_now {A B : Type} (d : data.t) (id : string)
    (P : option Element -> Prop) (m : DOM A) (f : A -> DOM B) :
  settles d id P m -> (forall a, leaves id (f a)) -> settles d id P (m ≫= f).
Proof.
  intros Hm Hf w Hw. specialize (Hm w Hw). unfold outcome, mbind, DOM_bind in *.
  destruct (m w) as [a w1 | e w1]; [| exact I].
  specialize (Hf a w1). unfold outcome in Hf.
  destruct (f a w1); [| exact I]. rewrite Hf. exact Hm.
Qed.

Lemma bind_settles_later {A B : Type} (d : data.t) (id : string)
    (P : option Element -> Prop) (m : DOM A) (f : A -> DOM B) :
  data_kept m -> (forall a, settles d id P (f a)) -> settles d id P (m ≫= f).
Proof.
  intros Hm Hf w Hw. specialize (Hm w). unfold outcome, mbind, DOM_bind in *.
  destruct (m w) as [a w1 | e w1]; [| exact I].
  apply (Hf a w1). congruence.
Qed.

Lemma getData_settles {B : Type} (d : data.t) (id : string)
    (P : option Element -> Prop) (f : data.t -> DOM B) :
  settles d id P (f d) -> settles d id P (getData ≫= f).
Proof.
  intros Hf w Hw. specialize (Hf w Hw).
  unfold mbind, DOM_bind, getData, outcome in *. rewrite Hw. exact Hf.
Qed.

Lemma sequence_settles_now (d : data.t) (id : string) (P : option Element -> Prop)
    (m : DOM unit) (l : list (DOM unit)) :
  settles d id P m -> Forall (leaves id) l -> settles d id P (sequence (m :: l)).
Proof.
  intros Hm Hl. cbn [sequence]. apply bind_settles_now; [exact Hm |].
  intros _. apply sequence_leaves. exact Hl.
Qed.

Lemma sequence_settles_later (d : data.t) (id : string) (P : option Element -> Prop)
    (m : DOM unit) (l : list (DOM unit)) :
  data_kept m -> settles d id P (sequence l) -> settles d id P (sequence (m :: l)).
Proof.
  intros Hm Hl. cbn [sequence]. apply bind_settles_later; [exact Hm |].
  intros _. exact Hl.
Qed.

(** The items appended one by one come after those that were there. *)
Lemma appendChild_all {A : Type} (id : string) (f : A -> Item) (l : list A)
    (w : World data.t) :
  outcome (sequence (map (fun a => appendChild id (f a)) l)) w
    (fun w' => children <$> document w' !! id
               = (fun cs => cs ++ map f l) <$> (children <$> document w !! id))
    (fun _ => True).
Proof.
  revert w. induction l as [| a l IH]; intros w; cbn [map sequence].
  - unfold outcome. cbn. destruct (document w !! id); cbn; [| reflexivity].
    rewrite app_nil_r. reflexivity.
  - unfold outcome. rewrite bind_at.
    replace (appendChild id (f a) w) with (write id (fun e =>
      {| textContent := textContent e; children := children e ++ [f a];
         width := width e |}) w) by reflexivity.
    rewrite write_at.
    destruct (document w !! id) as [e |] eqn:E; [| exact I].
    match goal with |- context [sequence ?l ?w1] =>
      pose proof (IH w1) as H; unfold outcome in H; destruct (sequence l w1) end;
      [| exact I].
    cbv beta in H. rewrite H. cbn [set_document document]. rewrite lookup_insert_eq. cbn.
    rewrite <- app_assoc. reflexivity.
Qed.

Lemma relist_settles {A : Type} (d : data.t) (id : string) (f : A -> Item)
    (l : data.t -> list A) :
  settles d id (lists (map f (l d)))
    (d ← getData; _ ← clearChildren id; sequence (map (fun a => appendChild id (f a)) (l d))).
Proof.
  apply getData_settles. intros w Hw.
  unfold outcome, lists. rewrite bind_at.
  replace (clearChildren id w) with (write id (fun e =>
    {| textContent := textContent e; children := []; width := width e |}) w)
    by reflexivity.
  rewrite write_at.
  destruct (document w !! id) as [e |] eqn:E; [| exact I].
  match goal with |- context [sequence ?ms ?w1] =>
    pose proof (appendChild_all id f (l d) w1) as H; unfold outcome in H;
    destruct (sequence ms w1) end; [| exact I].
  cbv beta in H. rewrite H. cbn [set_document document]. rewrite lookup_insert_eq.
  reflexivity.
Qed.

Ltac writer_kept :=
  first [ apply updateCharts_data_kept | apply only_data_kept; writer_only ].

Ltac writer_settles :=
  lazymatch goal with
  | |- settles _ _ _ (getData ≫= _) =>
      first [ apply (relist_settles _ _ packElement (fun d => batteryPacks d))
            | apply (relist_settles _ _ alertElement data.alerts)
            | apply getData_settles; writer_settles ]
  | |- settles _ _ _ (_ ≫= _) =>
      first [ apply bind_settles_now; [writer_settles | intros; writer_leaves]
            | apply bind_settles_later; [writer_kept | intros; writer_settles] ]
  | |- settles _ _ _ (sequence (_ :: _)) =>
      first [ apply sequence_settles_now;
              [writer_settles | repeat (constructor; [writer_leaves |]); constructor]
            | apply sequence_settles_later; [writer_kept | writer_settles] ]
  | |- settles _ _ (shows _) (write _ _) => apply write_shows; intros; reflexivity
  | |- settles _ _ (spans _) (write _ _) => apply write_spans; intros; reflexivity
  | |- settles _ _ _ _ =>
      progress unfold showFixed, showRounded, setTextContent, setWidth,
        updatePowerFlowDiagram, updateBatteryPacks, updateLoadBars,
        updateAlerts, updateGenerationValues, updateBatteryValues,
        updateDemandValues, updateWeatherValues, updateSystemMetrics,
        updateFooterKPIs;
      writer_settles
  end.

Lemma updateDashboard_shows (c : Clock) (d : data.t) (id : string) (v : list Piece) :
  In (id, v) (textFields d) -> settles d id (shows v) (updateDashboard c).
Proof.
  intros H. unfold textFields in H. cbn [In] in H.
  unfold updateDashboard.
  repeat (destruct H as [H | H];
          [injection H as <- <-; writer_settles |]).
  contradiction.
Qed.

Lemma updateDashboard_lists (c : Clock) (d : data.t) :
  settles d "batteryPacksList" (lists (map packElement (batteryPacks d)))
    (updateDashboard c) /\
  settles d "alertsList" (lists (map alertElement (data.alerts d)))
    (updateDashboard c).
Proof.
  unfold updateDashboard. split; writer_settles.
Qed.

Lemma getData_outcome {B : Type} (f : data.t -> DOM B) (w : World data.t)
    (R T : World data.t -> Prop) :
  outcome (f (currentData w)) w R T -> outcome (getData ≫= f) w R T.
Proof. exact (fun H => H). Qed.

Lemma plain_same (ids : list string) (m : DOM unit) (w w1 : World data.t) :
  plain ids m -> same_but_contents w w1 ->
  outcome m w1 (same_but_contents w) (fun _ => True).
Proof.
  intros Hm H. destruct (Hm w1) as [Ho _]. unfold outcome in *.
  destruct (m w1); [| exact I]. eapply same_trans; eassumption.
Qed.

Lemma leaves_after {A : Type} (id : string) (m : DOM A) (w : World data.t)
    (P : option Element -> Prop) :
  leaves id m -> P (document w !! id) ->
  outcome m w (fun w' => P (document w' !! id)) (fun _ => True).
Proof.
  intros Hm H. specialize (Hm w). unfold outcome in *.
  destruct (m w); [| exact I]. rewrite Hm. exact H.
Qed.

(** The storage utilisation shown is made of the state of charge and of
    the draw of the render pass. *)
Lemma updateDashboard_storage (c : Clock) (w : World data.t) :
  outcome (updateDashboard c) w
    (fun w' => shows [fixed1 (overallSOC (currentData w) * 0.87 + entropy w 0%nat * 10);
                      lit "%"]
                 (document w' !! "storageUtilization"))
    (fun _ => True).
Proof.
  unfold updateDashboard. apply getData_outcome.
  eapply outcome_bind;
    [apply (plain_same writtenElements _ w);
       [apply updateGenerationValues_plain | apply same_refl]
    | intros [] ? ?].
  eapply outcome_bind;
    [apply (plain_same writtenElements _ w);
       [apply updateBatteryValues_plain | eassumption]
    | intros [] ? ?].
  eapply outcome_bind;
    [apply (plain_same writtenElements _ w);
       [apply updateDemandValues_plain | eassumption]
    | intros [] ? ?].
  eapply outcome_bind;
    [apply (plain_same writtenElements _ w);
       [apply updateWeatherValues_plain | eassumption]
    | intros [] ? ?].
  eapply outcome_bind.
  - unfold updateSystemMetrics. cbn [sequence].
    do 3 (eapply outcome_bind;
          [apply (plain_same writtenElements _ w); [writer_plain | eassumption]
          | intros [] ? ?]).
    eapply outcome_bind with
      (R1 := fun w' =>
         shows [fixed1 (overallSOC (currentData w) * 0.87 + entropy w 0%nat * 10);
                lit "%"] (document w' !! "storageUtilization")).
    + match goal with H : same_but_contents w ?w1 |- outcome _ ?w1 _ _ =>
        destruct H as (_ & _ & He & _) end.
      unfold outcome. rewrite bind_at. unfold draw at 1. cbv iota beta.
      unfold showFixed, setTextContent. rewrite write_at.
      cbn [set_entropy document]. rewrite He.
      match goal with |- context [document ?w1 !! ?i] =>
        destruct (document w1 !! i) end; [| exact I].
      unfold shows. cbn [set_document document]. rewrite lookup_insert_eq.
      reflexivity.
    + intros [] wz Hz. exact Hz.
  - intros [] w5 H5. cbv beta in H5. apply leaves_after; [| exact H5].
    writer_leaves.
Qed.

Lemma updateDashboard_spans (c : Clock) (d : data.t) :
  settles d ".load-fill.critical"
    (spans [num (demand.criticalLoads (data.demand d) / totalLoad d * 100); lit "%"])
    (updateDashboard c) /\
  settles d ".load-fill.flexible"
    (spans [num (demand.flexibleLoads (data.demand d) / totalLoad d * 100); lit "%"])
    (updateDashboard c).
Proof.
  unfold updateDashboard. split; writer_settles.
Qed.

Lemma settles_returned {A : Type} (d : data.t) (id : string)
    (P : option Element -> Prop) (m : DOM A) (w w' : World data.t) (a : A) :
  settles d id P m -> currentData w = d -> m w = Return a w' -> P (document w' !! id).
Proof.
  intros Hm Hw E. specialize (Hm w Hw). unfold outcome in Hm. rewrite E in Hm.
  exact Hm.
Qed.

(** X10. After a render pass that returns, every text field of the page
    shows the value of the snapshot the pass started from, formatted as
    the table [textFields] says, whatever it showed before; the storage
    utilisation shows 0.87 times the state of charge plus ten times the
    draw of the pass. *)
Theorem render_text (c : Clock) (w w' : World data.t) :
  updateDashboard c w = Return tt w' ->
  (forall id v, In (id, v) (textFields (currentData w)) ->
                textContent <$> document w' !! id = Some v) /\
  textContent <$> document w' !! "storageUtilization"
  = Some [fixed1 (overallSOC (currentData w) * 0.87 + entropy w 0%nat * 10); lit "%"].
Proof.
  intros E. split.
  - intros id v Hin.
    exact (settles_returned _ id _ _ w w' tt
             (updateDashboard_shows c (currentData w) id v Hin) eq_refl E).
  - pose proof (updateDashboard_storage c w) as H. unfold outcome in H.
    rewrite E in H. exact H.
Qed.

Lemma render_text_witness :
  exists w',
    updateDashboard noon noCanvasWorld = Return tt w' /\
    textContent <$> document w' !! "overallSOC" = Some [num 67; lit "%"] /\
    textContent <$> document w' !! "storageUtilization"
    = Some [fixed1 (overallSOC (currentData noCanvasWorld) * 0.87
                    + entropy noCanvasWorld 0%nat * 10); lit "%"].
Proof.
  destruct (updateDashboard_returns noon noCanvasWorld noCanvasWorld_present)
    as [w' E].
  exists w'. split; [exact E |].
  destruct (render_text noon noCanvasWorld w' E) as [Ht Hs].
  split; [| exact Hs].
  apply (Ht "overallSOC"%string [num 67; lit "%"]).
  vm_compute. auto 20.
Defined.



(** ** The dashboard at work *)

Lemma simulate_returns (c : Clock) (w : World data.t) :
  simulate c w
  = Return tt (set_entropy (snd (simulateDataChanges c (currentData w) (entropy w)))
                 (set_currentData
                    (fst (simulateDataChanges c (currentData w) (entropy w))) w)).
Proof.
  unfold simulate. destruct (simulateDataChanges c (currentData w) (entropy w)).
  reflexivity.
Qed.

Lemma tick_at (c c' : Clock) (w : World data.t) :
  tick c c' w
  = updateDashboard c'
      (set_entropy (snd (simulateDataChanges c (currentData w) (entropy w)))
         (set_currentData
            (fst (simulateDataChanges c (currentData w) (entropy w))) w)).
Proof. unfold tick. rewrite bind_at, simulate_returns. reflexivity. Qed.

Lemma simulateDataChanges_unit_draws (c : Clock) (d : data.t) (s : Draws) :
  unit_draws s -> unit_draws (snd (simulateDataChanges c d s)).
Proof.
  intros H. rewrite simulateDataChanges_alert, spawnAlert_draws.
  pose proof (unit_draws_alert d s H) as Ha.
  destruct (ltb (alertDraws d s 0%nat) 0.1).
  - do 3 apply unit_draws_tail. exact Ha.
  - apply unit_draws_tail. exact Ha.
Qed.

Lemma present_set (ids : list string) (w : World data.t) (d : data.t) (s : Draws) :
  present ids (set_entropy s (set_currentData d w)) <-> present ids w.
Proof. reflexivity. Qed.

(** What a tick leaves, whether the render pass returns or throws. *)
Lemma tick_after (c c' : Clock) (w : World data.t) :
  currentData (after (tick c c' w))
  = step (currentData w) {| clock := c; draws := entropy w |} /\
  dom (document (after (tick c c' w))) = dom (document w) /\
  (unit_draws (entropy w) -> unit_draws (entropy (after (tick c c' w)))).
Proof.
  rewrite tick_at. unfold step. cbn [clock draws].
  pose proof (simulateDataChanges_unit_draws c (currentData w) (entropy w)) as Hs.
  destruct (simulateDataChanges c (currentData w) (entropy w)) as [d s].
  cbn [fst snd] in *.
  pose proof (updateDashboard_during c' (set_entropy s (set_currentData d w))) as H.
  unfold outcome in H.
  destruct (updateDashboard c' (set_entropy s (set_currentData d w)))
    as [[] w' | e w']; cbn [after].
  - destruct H as (_ & Hd & He & Hdom).
    cbn [set_entropy set_currentData currentData entropy document] in *.
    split; [exact Hd |]. split; [exact Hdom |].
    intros Hu. rewrite He. apply unit_draws_tail, Hs, Hu.
  - destruct H as (Hd & Hdom & _ & He).
    cbn [set_entropy set_currentData currentData entropy document] in *.
    split; [exact Hd |]. split; [exact Hdom |].
    intros Hu. destruct He as [-> | ->]; [| apply unit_draws_tail]; apply Hs, Hu.
Qed.

Lemma tick_returns (c c' : Clock) (w : World data.t) :
  present writtenElements w ->
  exists w',
    tick c c' w = Return tt w' /\
    charts w' = updatedCharts c' (currentData w') (charts w) /\
    entropy w' = tail (snd (simulateDataChanges c (currentData w) (entropy w))).
Proof.
  intros Hp. rewrite tick_at.
  destruct (simulateDataChanges c (currentData w) (entropy w)) as [d s].
  cbn [fst snd].
  pose proof (updateDashboard_during c' (set_entropy s (set_currentData d w))) as H.
  unfold outcome in H.
  destruct (updateDashboard_returns c' (set_entropy s (set_currentData d w)) Hp)
    as [w' E].
  rewrite E in H. destruct H as (Hc & Hd & He & _).
  cbn [set_entropy set_currentData currentData entropy document charts] in *.
  exists w'. split; [exact E |]. split; [| exact He].
  rewrite Hc, Hd. reflexivity.
Qed.

Lemma interval_snoc (cs : list (Clock * Clock)) (p : Clock * Clock) (w : World data.t) :
  interval (cs ++ [p]) w = after (tick (fst p) (snd p) (interval cs w)).
Proof. unfold interval. rewrite fold_left_app. reflexivity. Qed.

Lemma fold_left_cons {A B : Type} (f : A -> B -> A) (x : B) (l : list B) (a : A) :
  fold_left f (x :: l) a = fold_left f l (f a x).
Proof. reflexivity. Qed.

Lemma interval_cons (p : Clock * Clock) (cs : list (Clock * Clock)) (w : World data.t) :
  interval (p :: cs) w = interval cs (after (tick (fst p) (snd p) w)).
Proof. unfold interval. rewrite fold_left_cons. reflexivity. Qed.

Lemma ticksOf_snoc (cs : list (Clock * Clock)) (p : Clock * Clock) (w : World data.t) :
  ticksOf (cs ++ [p]) w
  = ticksOf cs w ++ [{| clock := fst p; draws := entropy (interval cs w) |}].
Proof.
  revert w. induction cs as [| q cs IH]; intros w.
  - cbn [app ticksOf]. unfold interval. cbn [fold_left]. reflexivity.
  - rewrite interval_cons. cbn [app ticksOf]. rewrite IH. reflexivity.
Qed.

Lemma interval_after (cs : list (Clock * Clock)) (w : World data.t) :
  currentData (interval cs w) = fold_left step (ticksOf cs w) (currentData w) /\
  dom (document (interval cs w)) = dom (document w) /\
  (unit_draws (entropy w) ->
   unit_draws (entropy (interval cs w)) /\
   Forall (fun t => unit_draws (draws t)) (ticksOf cs w)).
Proof.
  induction cs as [| p cs IH] using rev_ind.
  - split; [reflexivity |]. split; [reflexivity |].
    intros H. split; [exact H | constructor].
  - destruct IH as (Hd & Hdom & Hu).
    destruct (tick_after (fst p) (snd p) (interval cs w)) as (Td & Tdom & Tu).
    rewrite interval_snoc, ticksOf_snoc, fold_left_app. cbn [fold_left].
    split; [rewrite Td, Hd; reflexivity |].
    split; [rewrite Tdom; exact Hdom |].
    intros H. destruct (Hu H) as [Hs Hf]. split; [apply Tu; exact Hs |].
    apply Forall_app. split; [exact Hf |]. constructor; [exact Hs | constructor].
Qed.






Lemma ticksOf_clocks (cs : list (Clock * Clock)) (w : World data.t) :
  map clock (ticksOf cs w) = map fst cs.
Proof.
  revert w. induction cs as [| p cs IH]; intros w; [reflexivity |].
  cbn [ticksOf map clock]. rewrite IH. reflexivity.
Qed.

(** X13. The snapshot of a dashboard that began with the initial one is,
    after any number of firings of the simulation interval, a state of the
    simulation: the one its steps reach on the clocks read and the draws
    found, whether or not the render passes have thrown.  So the state of
    charge is within [[20, 95]], the battery power within its limits and
    the cloud cover a percentage; and with draws in [[0, 1)] the draws of
    every step are in [[0, 1)], the generation readings are in their
    ranges and every alert is well formed. *)
Theorem interval_is_run (cs : list (Clock * Clock)) (w : World data.t) :
  currentData w = initializeData ->
  let d := currentData (interval cs w) in
  d = run (ticksOf cs w) /\
  map clock (ticksOf cs w) = map fst cs /\
  soc_ok (overallSOC d) /\ power_ok d /\ percent_ok (cloudCover d) /\
  (unit_draws (entropy w) ->
   Forall (fun t => unit_draws (draws t)) (ticksOf cs w) /\
   readings_ok d /\ Forall alert_ok (data.alerts d)).
Proof.
  intros H0 d. destruct (interval_after cs w) as (Hd & _ & Hu).
  assert (d = run (ticksOf cs w)) as E.
  { unfold d, run. rewrite Hd, H0. reflexivity. }
  split; [exact E |]. split; [apply ticksOf_clocks |].
  rewrite E.
  split; [apply run_soc_ok |]. split; [apply run_power_ok |].
  split; [apply run_cloud_ok |].
  intros H. destruct (Hu H) as [_ Hf].
  split; [exact Hf |]. split; [apply run_readings_ok | apply run_alerts_ok]; exact Hf.
Qed.

Lemma half_draws : unit_draws (fun _ => 1 / 2).
Proof. intros k. split; [discriminate | reflexivity]. Qed.

Lemma interval_is_run_witness :
  currentData noTextWorld = initializeData /\
  unit_draws (entropy noTextWorld) /\
  soc_ok (overallSOC (currentData (interval [(noon, noon); (noon, noon)] noTextWorld))) /\
  readings_ok (currentData (interval [(noon, noon); (noon, noon)] noTextWorld)).
Proof.
  split; [reflexivity |]. split; [exact half_draws |].
  destruct (interval_is_run [(noon, noon); (noon, noon)] noTextWorld eq_refl)
    as (_ & _ & Hs & _ & _ & Hu).
  split; [exact Hs |]. destruct (Hu half_draws) as (_ & Hr & _). exact Hr.
Defined.

Lemma present_interval (ids : list string) (cs : list (Clock * Clock))
    (w : World data.t) :
  present ids w -> present ids (interval cs w).
Proof.
  intros H. destruct (interval_after cs w) as (_ & Hdom & _).
  apply (present_dom ids _ w); [symmetry; exact Hdom | exact H].
Qed.

(** What a tick that returns leaves on the page. *)
Lemma tick_page (c c' : Clock) (w w' : World data.t) :
  tick c c' w = Return tt w' ->
  (forall id v, In (id, v) (textFields (currentData w')) ->
                textContent <$> document w' !! id = Some v) /\
  children <$> document w' !! "batteryPacksList"
  = Some (map packElement (batteryPacks (currentData w'))) /\
  children <$> document w' !! "alertsList"
  = Some (map alertElement (data.alerts (currentData w'))).
Proof.
  rewrite tick_at.
  destruct (simulateDataChanges c (currentData w) (entropy w)) as [d s].
  cbn [fst snd]. intros E.
  pose proof (updateDashboard_during c' (set_entropy s (set_currentData d w))) as H.
  unfold outcome in H. rewrite E in H. destruct H as (_ & Hd & _).
  cbn [set_entropy set_currentData currentData] in Hd. rewrite Hd.
  destruct (updateDashboard_lists c' d) as [Hp Ha].
  split; [| split].
  - intros id v Hin.
    exact (settles_returned d id _ _ (set_entropy s (set_currentData d w)) w' tt
             (updateDashboard_shows c' d id v Hin) eq_refl E).
  - exact (settles_returned d _ _ _ (set_entropy s (set_currentData d w)) w' tt
             Hp eq_refl E).
  - exact (settles_returned d _ _ _ (set_entropy s (set_currentData d w)) w' tt
             Ha eq_refl E).
Qed.

Lemma round_soc_ok (x : Q) : soc_ok x -> soc_ok (Math.round x).
Proof.
  intros [Hlo Hhi]. unfold soc_ok.
  pose proof (round_le 20 x Hlo) as H1. pose proof (round_le x 95 Hhi) as H2.
  pose proof (round_integer 20) as E1. pose proof (round_integer 95) as E2.
  change (inject_Z 20) with 20 in E1. change (inject_Z 95) with 95 in E2.
  split; lra.
Qed.

(** X14. After a firing of the simulation interval on a page that has
    every element the render pass writes to, the page shows the snapshot
    the firing has left: every text field shows its value of that
    snapshot, and the two lists hold its packs and its alerts.  On a
    dashboard that began with the initial snapshot the state of charge
    shown is a whole number within [[20, 95]]. *)
Theorem page_follows_data (cs : list (Clock * Clock)) (p : Clock * Clock)
    (w : World data.t) :
  present writtenElements w ->
  let w' := interval (cs ++ [p]) w in
  let d := currentData w' in
  (forall id v, In (id, v) (textFields d) ->
                textContent <$> document w' !! id = Some v) /\
  children <$> document w' !! "batteryPacksList"
  = Some (map packElement (batteryPacks d)) /\
  children <$> document w' !! "alertsList"
  = Some (map alertElement (data.alerts d)) /\
  (currentData w = initializeData ->
   textContent <$> document w' !! "overallSOC"
   = Some [num (Math.round (overallSOC d)); lit "%"] /\
   soc_ok (Math.round (overallSOC d)) /\
   Math.round (overallSOC d) == inject_Z (Qfloor (Math.round (overallSOC d)))).
Proof.
  intros Hp w' d.
  destruct (tick_returns (fst p) (snd p) (interval cs w)
              (present_interval _ cs w Hp)) as (w1 & E & _).
  assert (w' = w1) as Hw.
  { unfold w'. rewrite interval_snoc, E. reflexivity. }
  destruct (tick_page _ _ _ _ E) as (Ht & Hl & Ha).
  unfold d. rewrite Hw.
  split; [exact Ht |]. split; [exact Hl |]. split; [exact Ha |].
  intros H0. split; [| split].
  - apply Ht. unfold textFields. cbn [In]. do 9 right. left. reflexivity.
  - apply round_soc_ok. rewrite <- Hw.
    destruct (interval_after (cs ++ [p]) w) as (Hd & _).
    fold w' in Hd. rewrite Hd, H0. apply (run_soc_ok (ticksOf (cs ++ [p]) w)).
  - unfold Math.round. rewrite Qfloor_Z. reflexivity.
Qed.

Lemma page_follows_data_witness :
  present writtenElements noCanvasWorld /\
  currentData noCanvasWorld = initializeData /\
  soc_ok (Math.round (overallSOC (currentData (interval ([(noon, noon)] ++ [(noon, noon)])
                                                  noCanvasWorld)))).
Proof.
  split; [exact noCanvasWorld_present |]. split; [reflexivity |].
  destruct (page_follows_data [(noon, noon)] (noon, noon) noCanvasWorld
              noCanvasWorld_present) as (_ & _ & _ & H).
  destruct (H eq_refl) as (_ & Hs & _). exact Hs.
Defined.

(** ** The charts of a dashboard at work *)

Lemma slide_last {A : Type} (x : A) (l : list A) : last (slide x l) = Some x.
Proof. unfold slide. destruct (length l <? 10)%nat; apply last_snoc. Qed.

Lemma updateDemandChart_window (t : string) (d : data.t) (ch : LineChart) :
  window_ok ch -> window_ok (updateDemandChart t d ch).
Proof.
  intros H. rewrite (updateDemandChart_slide t d ch H).
  destruct H as (Hg & Hd & Hl). unfold window_ok.
  cbn [labels generationSeries demandSeries].
  rewrite !slide_length by lia. rewrite Hg, Hd. repeat split. lia.
Qed.

Lemma chartsMadeFor_created (w : World data.t) :
  present canvases w ->
  chartsMadeFor (currentData w) (createdCharts (currentData w) (document w)).
Proof.
  intros H. unfold present, canvases in H.
  repeat match goal with
         | H : Forall _ (_ :: _) |- _ =>
             apply Forall_cons_1 in H; let e := fresh "e" in
                                       let He := fresh "He" in
                                       destruct H as [[e He] H]
         end.
  unfold chartsMadeFor, createdCharts, onCanvas.
  cbn [solarGauge windGauge cbgGauge batteryGauge demandChart].
  rewrite He, He0, He1, He2, He3.
  repeat split; try (eexists; reflexivity).
  exists initialDemandChart. split; [reflexivity |].
  unfold window_ok, initialDemandChart. cbn. lia.
Qed.

Lemma chartsMadeFor_updated (c : Clock) (d0 d : data.t) (ch : Charts) :
  chartsMadeFor d0 ch -> chartsMadeFor d0 (updatedCharts c d ch).
Proof.
  intros ([x1 H1] & [x2 H2] & [x3 H3] & [x4 H4] & (l & Hl & Hw)).
  unfold chartsMadeFor, updatedCharts.
  cbn [solarGauge windGauge cbgGauge batteryGauge demandChart].
  rewrite H1, H2, H3, H4, Hl. unfold updateGauge, drawnGauge.
  cbn [centerText color].
  repeat split; try (eexists; reflexivity).
  eexists. split; [reflexivity |]. apply updateDemandChart_window. exact Hw.
Qed.

Lemma tick_charts (c c' : Clock) (w : World data.t) :
  charts (after (tick c c' w)) = charts w \/
  charts (after (tick c c' w))
  = updatedCharts c' (currentData (after (tick c c' w))) (charts w).
Proof.
  destruct (tick_after c c' w) as (Hd & _). rewrite Hd. clear Hd.
  rewrite tick_at. unfold step. cbn [clock draws].
  destruct (simulateDataChanges c (currentData w) (entropy w)) as [d s].
  cbn [fst snd].
  pose proof (updateDashboard_charts c' (set_entropy s (set_currentData d w))) as H.
  unfold outcome in H.
  destruct (updateDashboard c' (set_entropy s (set_currentData d w)))
    as [[] w' | e w']; cbn [after];
    cbn [set_entropy set_currentData currentData charts] in H.
  - right. exact H.
  - exact H.
Qed.

Lemma interval_charts (d0 : data.t) (cs : list (Clock * Clock)) (w : World data.t) :
  chartsMadeFor d0 (charts w) -> chartsMadeFor d0 (charts (interval cs w)).
Proof.
  intros H. induction cs as [| p cs IH] using rev_ind; [exact H |].
  rewrite interval_snoc.
  destruct (tick_charts (fst p) (snd p) (interval cs w)) as [-> | ->];
    [exact IH | apply chartsMadeFor_updated; exact IH].
Qed.

(** X15. The charts of a dashboard at work.  When the charts have been
    made on a page with the five canvases, then after any firings of the
    simulation interval the four doughnut charts and the line chart are
    still there, the text in the centre of each doughnut chart is still
    the reading it was made for, and the line chart keeps its window.
    When moreover the page has every element the render pass writes to,
    so that the render pass reaches the charts, then after any firing
    each doughnut chart is drawn for the reading of the snapshot the
    firing has left, out of its full scale, and the newest point of the
    line chart is the label of the firing with the total generation and
    the total load of that snapshot. *)
Theorem charts_follow_data (w : World data.t) :
  present canvases w ->
  let d0 := currentData w in
  let w0 := after (initializeCharts w) in
  (forall cs : list (Clock * Clock), chartsMadeFor d0 (charts (interval cs w0))) /\
  (present writtenElements w ->
   forall (cs : list (Clock * Clock)) (p : Clock * Clock),
     let w' := interval (cs ++ [p]) w0 in
     let d := currentData w' in
     solarGauge (charts w')
     = Some (drawnGauge (acPower d0) (acPower d) 60 "kW" "#FFC185") /\
     windGauge (charts w')
     = Some (drawnGauge (windPower d0) (windPower d) 25 "kW" "#1FB8CD") /\
     cbgGauge (charts w')
     = Some (drawnGauge (cbgPower d0) (cbgPower d) 30 "kW" "#B4413C") /\
     batteryGauge (charts w')
     = Some (drawnGauge (overallSOC d0) (overallSOC d) 100 "%" "#5D878F") /\
     exists l,
       demandChart (charts w') = Some l /\ window_ok l /\
       last (labels l) = Some (hhmm (snd p)) /\
       last (generationSeries l) = Some (totalGeneration d) /\
       last (demandSeries l) = Some (totalLoad d)).
Proof.
  intros Hc d0 w0.
  assert (w0 = set_charts (createdCharts (currentData w) (document w)) w) as E0.
  { unfold w0. rewrite initializeCharts_returns. reflexivity. }
  assert (chartsMadeFor d0 (charts w0)) as Hm0.
  { rewrite E0. cbn [set_charts charts]. apply chartsMadeFor_created. exact Hc. }
  split; [intros cs; apply interval_charts; exact Hm0 |].
  intros Hp cs p w' d.
  assert (present writtenElements w0) as Hp0 by (rewrite E0; exact Hp).
  pose proof (interval_charts d0 cs w0 Hm0) as Hm.
  destruct (tick_returns (fst p) (snd p) (interval cs w0)
              (present_interval _ cs w0 Hp0)) as (w1 & E & Hch & _).
  assert (w' = w1) as Hw.
  { unfold w'. rewrite interval_snoc, E. reflexivity. }
  unfold d. rewrite Hw, Hch.
  destruct Hm as ([x1 H1] & [x2 H2] & [x3 H3] & [x4 H4] & (l & Hl & Hwin)).
  unfold updatedCharts.
  cbn [solarGauge windGauge cbgGauge batteryGauge demandChart].
  rewrite H1, H2, H3, H4, Hl.
  repeat (split; [reflexivity |]).
  eexists. split; [reflexivity |].
  split; [apply updateDemandChart_window; exact Hwin |].
  rewrite (updateDemandChart_slide _ _ l Hwin).
  cbn [labels generationSeries demandSeries].
  rewrite !slide_last. repeat split.
Qed.

Lemma wholePage_present :
  present writtenElements wholePage /\ present canvases wholePage.
Proof.
  split.
  - unfold present, writtenElements.
    repeat (apply Forall_cons_2; [vm_compute; eauto |]). apply Forall_nil_2.
  - unfold present, canvases.
    repeat (apply Forall_cons_2; [vm_compute; eauto |]). apply Forall_nil_2.
Qed.

Lemma charts_follow_data_witness :
  present canvases wholePage /\ present writtenElements wholePage /\
  solarGauge (charts (interval ([] ++ [(noon, noon)])
                        (after (initializeCharts wholePage))))
  = Some (drawnGauge 43.2
            (acPower (currentData (interval ([] ++ [(noon, noon)])
                                     (after (initializeCharts wholePage)))))
            60 "kW" "#FFC185") /\
  chartsMadeFor initializeData
    (charts (interval [(noon, noon)] (after (initializeCharts noTextWorld)))).
Proof.
  destruct wholePage_present as [H1 H2].
  split; [exact H2 |]. split; [exact H1 |]. split.
  - destruct (charts_follow_data wholePage H2) as [_ H].
    exact (proj1 (H H1 [] (noon, noon))).
  - assert (present canvases noTextWorld) as H3.
    { unfold present, canvases.
      repeat (apply Forall_cons_2; [vm_compute; eauto |]). apply Forall_nil_2. }
    destruct (charts_follow_data noTextWorld H3) as [H _].
    exact (H [(noon, noon)]).
Defined.

(** ** The load and the surroundings *)

Lemma totalLoadOf_range (sine : Q) :
  -1 <= sine -> sine <= 1 -> 52.4 <= totalLoadOf sine /\ totalLoadOf sine <= 78.6.
Proof.
  intros H0 H1. unfold totalLoadOf.
  assert (Math.round 524 <= Math.round (65.5 * (1 + 0.2 * sine) * 10)) as Hlo
    by (apply round_le; lra).
  assert (Math.round (65.5 * (1 + 0.2 * sine) * 10) <= Math.round 786) as Hhi
    by (apply round_le; lra).
  pose proof (round_integer 524) as E0. pose proof (round_integer 786) as E1.
  change (inject_Z 524) with 524 in E0. change (inject_Z 786) with 786 in E1.
  rewrite E0 in Hlo. rewrite E1 in Hhi.
  remember (Math.round (65.5 * (1 + 0.2 * sine) * 10)) as y eqn:Hy. clear Hy.
  flat_div. split; lra.
Qed.

Lemma percent_near (load share k : Q) :
  52.4 <= load -> load * k - 0.05 <= share -> share <= load * k + 0.05 ->
  100 * k - 0.1 <= share / load * 100 /\ share / load * 100 <= 100 * k + 0.1.
Proof.
  intros Hl H1 H2.
  assert (share / load * 100 == (share * 100) / load) as -> by (field; lra).
  split.
  - apply Qle_shift_div_l; [lra |]. nra.
  - apply Qle_shift_div_r; [lra |]. nra.
Qed.

Lemma tenth_near (y : Q) :
  y / 10 - 0.05 <= Math.round y / 10 /\ Math.round y / 10 <= y / 10 + 0.05.
Proof.
  destruct (round_near y) as [H1 H2].
  remember (Math.round y) as r eqn:Hr. clear Hr. flat_div. split; lra.
Qed.

Lemma shares_of_load (load : Q) :
  52.4 <= load ->
  (42.9 <= criticalLoadsOf load / load * 100 /\
   criticalLoadsOf load / load * 100 <= 43.1) /\
  (56.9 <= flexibleLoadsOf load / load * 100 /\
   flexibleLoadsOf load / load * 100 <= 57.1).
Proof.
  intros Hl. unfold criticalLoadsOf, flexibleLoadsOf.
  destruct (tenth_near (load * 0.43 * 10)) as [A1 A2].
  destruct (tenth_near (load * 0.57 * 10)) as [B1 B2].
  remember (Math.round (load * 0.43 * 10) / 10) as a eqn:Ha. clear Ha.
  remember (Math.round (load * 0.57 * 10) / 10) as b eqn:Hb. clear Hb.
  destruct (percent_near load a 0.43 Hl) as [P1 P2];
    [flat_div; lra | flat_div; lra |].
  destruct (percent_near load b 0.57 Hl) as [R1 R2];
    [flat_div; lra | flat_div; lra |].
  repeat split; lra.
Qed.

Lemma step_ambient (d : data.t) (t : Tick) :
  genuine t -> ambient_ok (step d t) /\ shares_ok (step d t).
Proof.
  intros (Hu & Hs0 & Hs1).
  destruct (totalLoadOf_range (sinHour (clock t)) Hs0 Hs1) as [L0 L1].
  pose proof (unit_draws_weather d (draws t) Hu) as Hw.
  unfold ambient_ok, shares_ok, criticalPct, flexiblePct.
  destruct (step_others d t) as (_ & _ & -> & ->).
  rewrite step_demand.
  cbn [demand.totalLoad demand.criticalLoads demand.flexibleLoads
       weather.set_cloudCover weather.set_temperature weather.temperature
       systemMetrics.set_overallEfficiency systemMetrics.overallEfficiency].
  destruct (Hw 0%nat) as [T0 T1]. destruct (Hw 2%nat) as [E0 E1].
  split; [| apply shares_of_load; exact L0].
  repeat split; lra.
Qed.

Lemma run_ambient (ticks : list Tick) :
  Forall genuine ticks -> ambient_ok (run ticks) /\ shares_ok (run ticks).
Proof.
  destruct ticks as [| t ticks _] using rev_ind; intros H.
  - unfold ambient_ok, shares_ok, criticalPct, flexiblePct, run, initializeData.
    cbn [fold_left data.demand data.weather data.systemMetrics demand.totalLoad
         demand.criticalLoads demand.flexibleLoads weather.temperature
         systemMetrics.overallEfficiency].
    repeat split; try lra; vm_compute; congruence.
  - rewrite run_snoc. apply step_ambient.
    apply Forall_app in H. destruct H as [_ H]. apply Forall_cons_1 in H. tauto.
Qed.

(** X16. The load and the surroundings.  Whatever snapshot a step starts
    from, on a tick of the browser it leaves a total load within
    [[52.4, 78.6]], a temperature within [[25.5, 31.5]] and an overall
    efficiency within [[91.8, 93.8]], ends included; the total load is
    never zero, and
    the widths of the two load bars are 43% and 57%, to a tenth.  The same
    holds in every state that ticks of the browser reach from the initial
    snapshot. *)
Theorem ambient_in_range :
  (forall (d : data.t) (t : Tick),
      genuine t -> ambient_ok (step d t) /\ shares_ok (step d t)) /\
  (forall ticks : list Tick,
      Forall genuine ticks -> ambient_ok (run ticks) /\ shares_ok (run ticks)).
Proof. split; [exact step_ambient | exact run_ambient]. Qed.

Lemma alert_tick_genuine : genuine alert_tick.
Proof.
  split; [| split; cbn; lra].
  intros k. cbn. split; [discriminate | reflexivity].
Qed.

Lemma ambient_in_range_witness :
  genuine alert_tick /\
  ambient_ok (step initializeData alert_tick) /\
  shares_ok (run [alert_tick; alert_tick]).
Proof.
  split; [exact alert_tick_genuine |].
  destruct ambient_in_range as [Hs Hr].
  split; [exact (proj1 (Hs initializeData alert_tick alert_tick_genuine)) |].
  apply Hr. constructor; [exact alert_tick_genuine |].
  constructor; [exact alert_tick_genuine | constructor].
Defined.

Lemma tick_bars (c c' : Clock) (w w' : World data.t) :
  tick c c' w = Return tt w' ->
  width <$> document w' !! ".load-fill.critical"
  = Some [num (criticalPct (currentData w')); lit "%"] /\
  width <$> document w' !! ".load-fill.flexible"
  = Some [num (flexiblePct (currentData w')); lit "%"].
Proof.
  rewrite tick_at.
  destruct (simulateDataChanges c (currentData w) (entropy w)) as [d s].
  cbn [fst snd]. intros E.
  pose proof (updateDashboard_during c' (set_entropy s (set_currentData d w))) as H.
  unfold outcome in H. rewrite E in H. destruct H as (_ & Hd & _).
  cbn [set_entropy set_currentData currentData] in Hd. rewrite Hd.
  destruct (updateDashboard_spans c' d) as [Hc Hf].
  split.
  - exact (settles_returned d _ _ _ (set_entropy s (set_currentData d w)) w' tt
             Hc eq_refl E).
  - exact (settles_returned d _ _ _ (set_entropy s (set_currentData d w)) w' tt
             Hf eq_refl E).
Qed.

Lemma toFixed1_le (x y : Q) : 0 <= x -> x <= y -> (toFixed1 x <= toFixed1 y)%Z.
Proof.
  intros H0 H. unfold toFixed1.
  assert (Qle_bool 0 x = true) as -> by (apply Qle_bool_iff; exact H0).
  assert (Qle_bool 0 y = true) as -> by (apply Qle_bool_iff; lra).
  apply Qfloor_resp_le. lra.
Qed.

Lemma toFixed1_range (lo hi x : Q) :
  0 <= lo -> lo <= x -> x <= hi ->
  (toFixed1 lo <= toFixed1 x)%Z /\ (toFixed1 x <= toFixed1 hi)%Z.
Proof.
  intros H0 H1 H2. split; apply toFixed1_le; lra.
Qed.

(** X17. What the page shows after a firing of the simulation interval
    that returns, on a tick of the browser and whatever the snapshot
    before.  The efficiency gain is shown with its plus sign and, to one
    decimal as [toFixed(1)] prints it, a number from 16.2 to 18.2, so the
    sign is right; the temperature is shown, to one decimal, as a number
    from 25.5 to 31.5; and the two load bars are 43% and 57% wide, to a
    tenth. *)
Theorem page_in_range (c c' : Clock) (w w' : World data.t) :
  -1 <= sinHour c -> sinHour c <= 1 ->
  unit_draws (entropy w) ->
  tick c c' w = Return tt w' ->
  (exists x,
      textContent <$> document w' !! "efficiencyGain"
      = Some [lit "+"; fixed1 x; lit "%"] /\
      (162 <= toFixed1 x)%Z /\ (toFixed1 x <= 182)%Z) /\
  (exists x,
      textContent <$> document w' !! "temperature" = Some [fixed1 x; lit "°C"] /\
      (255 <= toFixed1 x)%Z /\ (toFixed1 x <= 315)%Z) /\
  (exists p,
      width <$> document w' !! ".load-fill.critical" = Some [num p; lit "%"] /\
      42.9 <= p /\ p <= 43.1) /\
  (exists p,
      width <$> document w' !! ".load-fill.flexible" = Some [num p; lit "%"] /\
      56.9 <= p /\ p <= 57.1).
Proof.
  intros Hs0 Hs1 Hu E.
  destruct (tick_page c c' w w' E) as (Ht & _).
  destruct (tick_bars c c' w w' E) as (Hc & Hf).
  destruct (tick_after c c' w) as (Hd & _). rewrite E in Hd. cbn [after] in Hd.
  assert (genuine {| clock := c; draws := entropy w |}) as Hg
    by (split; [exact Hu | split; [exact Hs0 | exact Hs1]]).
  destruct (step_ambient (currentData w) _ Hg) as [Ha Hsh].
  rewrite <- Hd in Ha, Hsh.
  destruct Ha as (_ & (T0 & T1) & (E0 & E1)).
  destruct Hsh as ((C0 & C1) & (F0 & F1)).
  split; [| split; [| split]].
  - eexists. split.
    + apply Ht. unfold textFields. cbn [In]. do 24 right. left. reflexivity.
    + apply (toFixed1_range 16.2 18.2); lra.
  - eexists. split.
    + apply Ht. unfold textFields. cbn [In]. do 14 right. left. reflexivity.
    + apply (toFixed1_range 25.5 31.5); lra.
  - eexists. split; [exact Hc | split; [exact C0 | exact C1]].
  - eexists. split; [exact Hf | split; [exact F0 | exact F1]].
Qed.

Lemma page_in_range_witness :
  exists w',
    tick noon noon noCanvasWorld = Return tt w' /\
    exists x,
      textContent <$> document w' !! "efficiencyGain"
      = Some [lit "+"; fixed1 x; lit "%"] /\
      (162 <= toFixed1 x)%Z /\ (toFixed1 x <= 182)%Z.
Proof.
  destruct (tick_returns noon noon noCanvasWorld noCanvasWorld_present)
    as (w' & E & _).
  exists w'. split; [exact E |].
  assert (-1 <= sinHour noon) as H0 by (cbn; lra).
  assert (sinHour noon <= 1) as H1 by (cbn; lra).
  exact (proj1 (page_in_range noon noon noCanvasWorld w' H0 H1 half_draws E)).
Defined.

(** ** The battery on the power flow diagram *)

(** X18. The battery power on the power flow diagram.  On a dashboard
    that began with the initial snapshot and has every element the render
    pass writes to, after any firing of the simulation interval the
    diagram shows the net power of the battery: a plus sign and the charge
    power when the battery charges, the discharge power being zero then,
    and otherwise a minus sign and the discharge power, the charge power
    being zero. *)
Theorem battery_flow_shown (cs : list (Clock * Clock)) (p : Clock * Clock)
    (w : World data.t) :
  present writtenElements w ->
  currentData w = initializeData ->
  let w' := interval (cs ++ [p]) w in
  let d := currentData w' in
  (0 < chargePower d /\ dischargePower d = 0 /\
   textContent <$> document w' !! "batteryPowerValue"
   = Some [lit "+"; fixed1 (chargePower d); lit "kW"]) \/
  (chargePower d == 0 /\ 0 <= dischargePower d /\
   textContent <$> document w' !! "batteryPowerValue"
   = Some [lit "-"; fixed1 (dischargePower d); lit "kW"]).
Proof.
  intros Hp H0 w' d.
  destruct (tick_returns (fst p) (snd p) (interval cs w)
              (present_interval _ cs w Hp)) as (w1 & E & _).
  assert (w' = w1) as Hw.
  { unfold w'. rewrite interval_snoc, E. reflexivity. }
  destruct (tick_page _ _ _ _ E) as (Ht & _).
  assert (d = run (ticksOf (cs ++ [p]) w)) as Hd.
  { destruct (interval_after (cs ++ [p]) w) as (Hd & _).
    unfold d, w', run. rewrite Hd, H0. reflexivity. }
  pose proof (run_one_way (ticksOf (cs ++ [p]) w)) as Ho.
  pose proof (run_power_ok (ticksOf (cs ++ [p]) w)) as Hk.
  rewrite <- Hd in Ho, Hk. destruct Hk as ((C0 & _) & (D0 & _)).
  assert (textContent <$> document w' !! "batteryPowerValue"
          = Some (if gtb (chargePower d) 0
                  then [lit "+"; fixed1 (chargePower d); lit "kW"]
                  else [lit "-"; fixed1 (dischargePower d); lit "kW"])) as Hs.
  { unfold d. rewrite Hw. apply Ht. unfold textFields. cbn [In].
    do 29 right. left. reflexivity. }
  destruct (gtb (chargePower d) 0) eqn:G.
  - apply gtb_gt in G. left. split; [exact G |]. split; [| exact Hs].
    destruct Ho as [Ho | Ho]; [| exact Ho]. rewrite Ho in G.
    exfalso. revert G. apply Qlt_irrefl.
  - apply ltb_ge in G. right. split; [lra |]. split; [exact D0 | exact Hs].
Qed.

Lemma battery_flow_shown_witness :
  present writtenElements noCanvasWorld /\
  currentData noCanvasWorld = initializeData /\
  ((0 < chargePower (currentData (interval ([] ++ [(noon, noon)]) noCanvasWorld)) /\
    dischargePower (currentData (interval ([] ++ [(noon, noon)]) noCanvasWorld)) = 0 /\
    textContent <$> document (interval ([] ++ [(noon, noon)]) noCanvasWorld)
                      !! "batteryPowerValue"
    = Some [lit "+";
            fixed1 (chargePower (currentData (interval ([] ++ [(noon, noon)])
                                                noCanvasWorld)));
            lit "kW"]) \/
   (chargePower (currentData (interval ([] ++ [(noon, noon)]) noCanvasWorld)) == 0 /\
    0 <= dischargePower (currentData (interval ([] ++ [(noon, noon)]) noCanvasWorld)) /\
    textContent <$> document (interval ([] ++ [(noon, noon)]) noCanvasWorld)
                      !! "batteryPowerValue"
    = Some [lit "-";
            fixed1 (dischargePower (currentData (interval ([] ++ [(noon, noon)])
                                                   noCanvasWorld)));
            lit "kW"])).
Proof.
  split; [exact noCanvasWorld_present |]. split; [reflexivity |].
  exact (battery_flow_shown [] (noon, noon) noCanvasWorld noCanvasWorld_present
           eq_refl).
Defined.

(** ** The views *)

Lemma elem_of_removeClass (c a : string) (n : Node) :
  c ∈ classList (removeClass a n) <-> c ∈ classList n /\ c <> a.
Proof. unfold removeClass. cbn. rewrite list_elem_of_filter. tauto. Qed.

Lemma elem_of_addClass (c a : string) (n : Node) :
  c ∈ classList (addClass a n) <-> c ∈ classList n \/ c = a.
Proof.
  unfold addClass. cbn. case_bool_decide as H.
  - split; [tauto |]. intros [? | ->]; assumption.
  - rewrite elem_of_app, list_elem_of_singleton. tauto.
Qed.

Lemma hasClass_true (c : string) (n : Node) : hasClass c n = true <-> c ∈ classList n.
Proof. unfold hasClass. apply bool_decide_eq_true. Qed.

Lemma firstIndex_fmap (P : Node -> Prop) `{!forall n, Decision (P n)}
    (f : Node -> Node) (nodes : list Node) :
  (forall n, P (f n) <-> P n) ->
  firstIndex P (f <$> nodes) = firstIndex P nodes.
Proof.
  intros Hf. unfold firstIndex. rewrite list_find_fmap.
  rewrite (list_find_ext (P ∘ f) P) by (intros n; apply Hf).
  destruct (list_find P nodes) as [[i n] |]; reflexivity.
Qed.

Lemma firstIndex_alter (P : Node -> Prop) `{!forall n, Decision (P n)}
    (f : Node -> Node) (i : nat) (nodes : list Node) :
  (forall n, P (f n) <-> P n) ->
  firstIndex P (alter f i nodes) = firstIndex P nodes.
Proof.
  intros Hf. unfold firstIndex. revert i.
  induction nodes as [| n nodes IH]; intros i; [reflexivity |].
  destruct i as [| i]; cbn [alter list_alter list_find].
  - destruct (Hf n) as [Hf1 Hf2].
    destruct (decide (P (f n))) as [Hp | Hp], (decide (P n)) as [Hn | Hn];
      try reflexivity; exfalso; tauto.
  - specialize (IH i).
    destruct (decide (P n)); [reflexivity |].
    destruct (list_find P (alter f i nodes)) as [[? ?] |],
             (list_find P nodes) as [[? ?] |]; simpl in *; simplify_eq; reflexivity.
Qed.

Lemma firstIndex_deactivate (P : Node -> Prop) `{!forall n, Decision (P n)}
    (c : string) (nodes : list Node) :
  (forall a n, P (removeClass a n) <-> P n) ->
  firstIndex P (deactivate c nodes) = firstIndex P nodes.
Proof.
  intros Hf. unfold deactivate. apply firstIndex_fmap.
  intros n. destruct (hasClass c n); [apply Hf | reflexivity].
Qed.

Lemma deactivate_lookup (c : string) (nodes : list Node) (k : nat) :
  deactivate c nodes !! k
  = (fun n => if hasClass c n then removeClass "active" n else n) <$> nodes !! k.
Proof. unfold deactivate. apply list_lookup_fmap. Qed.

Lemma same_but_active_refl (n : Node) : same_but_active n n.
Proof. unfold same_but_active. tauto. Qed.

Lemma same_elements_refl (nodes : list Node) : same_elements nodes nodes.
Proof.
  induction nodes as [| n nodes IH]; constructor;
    [apply same_but_active_refl | exact IH].
Qed.

Lemma same_elements_trans (p1 p2 p3 : list Node) :
  same_elements p1 p2 -> same_elements p2 p3 -> same_elements p1 p3.
Proof.
  apply Forall2_trans.
  intros n1 n2 n3 (A1 & A2 & A3) (B1 & B2 & B3).
  split; [congruence |]. split; [congruence |].
  intros c Hc. rewrite (B3 c Hc). apply A3. exact Hc.
Qed.

Lemma same_elements_deactivate (c : string) (nodes : list Node) :
  same_elements nodes (deactivate c nodes).
Proof.
  induction nodes as [| n nodes IH]; [constructor |].
  cbn [deactivate fmap list_fmap]. constructor; [| exact IH].
  destruct (hasClass c n); [| apply same_but_active_refl].
  split; [reflexivity |]. split; [reflexivity |]. intros a Ha.
  rewrite elem_of_removeClass. tauto.
Qed.

Lemma same_elements_alter (i : nat) (nodes : list Node) :
  same_elements nodes (alter (addClass "active") i nodes).
Proof.
  apply Forall2_alter_r; [apply same_elements_refl |].
  intros n n' _ _ (A1 & A2 & A3).
  split; [exact A1 |]. split; [exact A2 |]. intros c Hc.
  rewrite elem_of_addClass. rewrite <- (A3 c Hc). tauto.
Qed.

Lemma alter_lookup (f : Node -> Node) (i : nat) (nodes : list Node) (k : nat) :
  alter f i nodes !! k = (fun n => if decide (k = i) then f n else n) <$> nodes !! k.
Proof.
  rewrite list_lookup_alter.
  destruct (decide (i = k)) as [-> | Hne].
  - destruct (nodes !! k); cbn; [| reflexivity]. rewrite decide_True by reflexivity.
    reflexivity.
  - destruct (nodes !! k); cbn; [| reflexivity]. rewrite decide_False by congruence.
    reflexivity.
Qed.

Lemma hasClass_false (c : string) (n : Node) : hasClass c n = false <-> c ∉ classList n.
Proof. unfold hasClass. apply bool_decide_eq_false. Qed.

Lemma active_removed (c : string) (n : Node) :
  active (if hasClass c n then removeClass "active" n else n)
  <-> active n /\ c ∉ classList n.
Proof.
  unfold active. destruct (hasClass c n) eqn:E.
  - apply hasClass_true in E. rewrite elem_of_removeClass. tauto.
  - apply hasClass_false in E. tauto.
Qed.

Lemma others_removed (c x : string) (n : Node) :
  x <> "active"%string ->
  x ∈ classList (if hasClass c n then removeClass "active" n else n)
  <-> x ∈ classList n.
Proof.
  intros Hx. destruct (hasClass c n); [| reflexivity].
  rewrite elem_of_removeClass. tauto.
Qed.

Lemma active_added (P : Prop) `{!Decision P} (n : Node) :
  active (if decide P then addClass "active" n else n) <-> active n \/ P.
Proof.
  unfold active. destruct (decide P) as [H | H].
  - rewrite elem_of_addClass. tauto.
  - tauto.
Qed.

Lemma others_added (P : Prop) `{!Decision P} (x : string) (n : Node) :
  x <> "active"%string ->
  x ∈ classList (if decide P then addClass "active" n else n) <-> x ∈ classList n.
Proof.
  intros Hx. destruct (decide P); [| reflexivity].
  rewrite elem_of_addClass. tauto.
Qed.

Ltac classes :=
  rewrite ?hasClass_true, ?hasClass_false;
  repeat first
    [ rewrite active_added | rewrite active_removed
    | rewrite others_added by discriminate
    | rewrite others_removed by discriminate ];
  tauto.

Ltac node_at k :=
  rewrite ?alter_lookup, ?deactivate_lookup, ?alter_lookup, ?deactivate_lookup;
  match goal with
  | |- context [?nodes !! k] =>
      let n := fresh "n" in
      destruct (nodes !! k) as [n |]; cbn [fmap option_fmap option_map];
      [intros [= <-] | intros [=]]
  end.

Theorem switchView_outcome (v : string) (nodes : list Node) :
  plainName v = true ->
  let view := firstIndex (fun n => nodeId n = Some (v +:+ "-view")) nodes in
  let nav := firstIndex (fun n => dataView n = Some v) nodes in
  match switchView v nodes with
  | Shown nodes' =>
      same_elements nodes nodes' /\
      exists i j,
        view = Some i /\ nav = Some j /\
        forall k n',
          nodes' !! k = Some n' ->
          (k = j -> active n') /\
          (k <> j -> hasClass "nav-item" n' = true -> ~ active n') /\
          (k = i -> hasClass "nav-item" n' = false -> active n') /\
          (k <> i -> k <> j -> hasClass "view-content" n' = true -> ~ active n')
  | NoElement nodes' =>
      same_elements nodes nodes' /\
      ((view = None /\
        (forall k n', nodes' !! k = Some n' ->
                      hasClass "view-content" n' = true -> ~ active n') /\
        (forall k n', nodes' !! k = Some n' ->
                      hasClass "view-content" n' = false -> nodes !! k = Some n')) \/
       (exists i,
           view = Some i /\ nav = None /\
           forall k n',
             nodes' !! k = Some n' ->
             (hasClass "nav-item" n' = true -> ~ active n') /\
             (k = i -> hasClass "nav-item" n' = false -> active n') /\
             (k <> i -> hasClass "view-content" n' = true -> ~ active n')))
  | Unmodelled => False
  end.
Proof.
  intros Hv view nav. unfold switchView. rewrite Hv.
  rewrite firstIndex_deactivate by reflexivity. fold view.
  destruct view as [i |].
  2:{ split; [apply same_elements_deactivate |]. left.
      split; [reflexivity |]. split.
      - intros k n'. node_at k. classes.
      - intros k n'. rewrite deactivate_lookup.
        destruct (nodes !! k) as [n |]; cbn [fmap option_fmap option_map];
          [intros [= <-] | intros [=]].
        destruct (hasClass "view-content" n) eqn:E; [| reflexivity].
        intros H. exfalso. apply hasClass_true in E. apply hasClass_false in H.
        apply H. apply elem_of_removeClass. split; [exact E | discriminate]. }
  rewrite firstIndex_deactivate by reflexivity.
  rewrite firstIndex_alter by reflexivity.
  rewrite firstIndex_deactivate by reflexivity.
  fold nav.
  assert (same_elements nodes
            (deactivate "nav-item"
               (alter (addClass "active") i (deactivate "view-content" nodes)))) as Hs.
  { eapply same_elements_trans; [| apply same_elements_deactivate].
    eapply same_elements_trans; [| apply same_elements_alter].
    apply same_elements_deactivate. }
  destruct nav as [j |].
  - split; [eapply same_elements_trans; [exact Hs | apply same_elements_alter] |].
    exists i, j. split; [reflexivity |]. split; [reflexivity |].
    intros k n'. node_at k. classes.
  - split; [exact Hs |]. right. exists i.
    split; [reflexivity |]. split; [reflexivity |].
    intros k n'. node_at k. classes.
Qed.

Lemma switchView_outcome_witness :
  plainName "storage" = true /\
  switchView "storage" twoViews
  = Shown
      [ {| nodeId := None; classList := ["nav-item"]; dataView := Some "overview" |};
        {| nodeId := None; classList := ["nav-item"; "active"];
           dataView := Some "storage" |};
        {| nodeId := Some "overview-view"; classList := ["view-content"];
           dataView := None |};
        {| nodeId := Some "storage-view"; classList := ["view-content"; "active"];
           dataView := None |} ]%string /\
  exists nodes',
    switchView "storage" twoViews = Shown nodes' /\ same_elements twoViews nodes'.
Proof.
  split; [reflexivity |]. split; [vm_compute; reflexivity |].
  pose proof (switchView_outcome "storage" twoViews eq_refl) as H. cbv zeta in H.
  destruct (switchView "storage" twoViews) as [nodes' | nodes' |];
    [| exfalso | contradiction].
  - exists nodes'. split; [reflexivity | exact (proj1 H)].
  - destruct H as [_ [(Hv & _) | (i & _ & Hn & _)]]; vm_compute in *; discriminate.
Defined.

(** ** The dashboard object and the page *)

Lemma script_bind_at {A B : Type} (m : Script A) (f : A -> Script B) (b : Browser) :
  (m ≫= f) b
  = match m b with
    | Done a b' => f a b'
    | Failed e b' => Failed e b'
    end.
Proof. reflexivity. Qed.

Lemma forEachDo_listeners (items : list (option string)) (b : Browser) :
  forEachDo (fun view => addEventListener (navListener view)) items b
  = Done tt (set_listeners (listeners b ++ map navListener items) b).
Proof.
  revert b. induction items as [| v items IH]; intros b.
  - cbn [forEachDo map]. rewrite app_nil_r. destruct b. reflexivity.
  - cbn [forEachDo map]. rewrite script_bind_at.
    unfold addEventListener at 1, assign. rewrite IH.
    destruct b. cbn. rewrite <- app_assoc. reflexivity.
Qed.

Lemma listenOn_at (id ev : string) (c : Callback) (b : Browser) :
  listenOn id ev c b
  = match document (dashboard b) !! id with
    | Some _ =>
        Done tt (set_listeners
                   (listeners b ++ [{| target := id; event := ev; listener := c |}]) b)
    | None => Failed nullRead b
    end.
Proof.
  unfold listenOn. rewrite script_bind_at. unfold getElement.
  destruct (document (dashboard b) !! id); reflexivity.
Qed.

Lemma setupEventListeners_at (b : Browser) :
  setupEventListeners b
  = let ls := listeners b ++ map navListener (navItems b) in
    match document (dashboard b) !! "emergencyStop" with
    | None => Failed nullRead (set_listeners ls b)
    | Some _ =>
        match document (dashboard b) !! "flowViewSelect" with
        | None =>
            Failed nullRead
              (set_listeners
                 (ls ++ [{| target := "emergencyStop"; event := "click";
                            listener := emergencyStopClick |}]) b)
        | Some _ =>
            Done tt
              (set_listeners
                 (ls ++ [{| target := "emergencyStop"; event := "click";
                            listener := emergencyStopClick |};
                         {| target := "flowViewSelect"; event := "change";
                            listener := flowViewChange |}]) b)
        end
    end.
Proof.
  unfold setupEventListeners. cbv zeta.
  rewrite script_bind_at. rewrite script_bind_at, forEachDo_listeners.
  rewrite script_bind_at, listenOn_at.
  cbn [set_listeners dashboard listeners].
  destruct (document (dashboard b) !! "emergencyStop"); [| reflexivity].
  rewrite listenOn_at. cbn [set_listeners dashboard listeners].
  destruct (document (dashboard b) !! "flowViewSelect"); [| reflexivity].
  rewrite <- app_assoc. reflexivity.
Qed.

Ltac read_fields :=
  cbn [set_dashboard set_simulationInterval set_isConnected set_listeners set_timers
       set_exported set_classNames dashboard isConnected simulationInterval navItems
       classNames listeners timers exported
       set_charts set_currentData set_document set_entropy charts currentData
       document entropy].

Ltac run_assign := rewrite script_bind_at; unfold assign at 1; cbv beta iota.
Ltac run_timer := rewrite script_bind_at; unfold setTimer at 1; cbv beta iota.

(** X20. Loading the page.  The listener of [DOMContentLoaded] runs to its
    end exactly when the page has the elements [emergencyStop],
    [flowViewSelect] and [currentTime]; no canvas, navigation item or text
    field is needed.  Then [window.dashboard] is set, the three timers of
    the simulation, the clock and the connection check are registered in
    this order after those there were, with one click listener for each
    navigation item and the two listeners of the controls; the snapshot
    is the initial one and the charts are made for it; and of the page
    only the clock is written: no text field is rendered before the
    first tick.  Without [emergencyStop] or [flowViewSelect] it throws
    with no timer registered and no chart made; without [currentTime]
    only, it throws with the simulation running, but with no clock and no
    connection check; and [window.dashboard] is never set then. *)
Theorem onLoad_outcome (ts : string) (b : Browser) :
  let doc := document (dashboard b) in
  match onLoad ts b with
  | Done _ b' =>
      Forall (fun id => is_Some (doc !! id)) neededElements /\
      exported b' = true /\ isConnected b' = true /\
      timers b' = timers b ++ [simulationTimer; clockTimer; connectionTimer] /\
      simulationInterval b' = Some (length (timers b)) /\
      listeners b'
      = listeners b ++ map navListener (navItems b)
        ++ [ {| target := "emergencyStop"; event := "click";
                listener := emergencyStopClick |};
             {| target := "flowViewSelect"; event := "change";
                listener := flowViewChange |} ] /\
      currentData (dashboard b') = initializeData /\
      charts (dashboard b') = createdCharts initializeData doc /\
      entropy (dashboard b') = entropy (dashboard b) /\
      textContent <$> document (dashboard b') !! "currentTime" = Some [lit ts] /\
      (forall id, id <> "currentTime"%string ->
                  document (dashboard b') !! id = doc !! id)
  | Failed _ b' =>
      exported b' = exported b /\
      document (dashboard b') = doc /\
      currentData (dashboard b') = initializeData /\
      (((doc !! "emergencyStop" = None \/ doc !! "flowViewSelect" = None) /\
        timers b' = timers b /\ simulationInterval b' = None /\
        charts (dashboard b') = noCharts) \/
       (is_Some (doc !! "emergencyStop") /\ is_Some (doc !! "flowViewSelect") /\
        doc !! "currentTime" = None /\
        timers b' = timers b ++ [simulationTimer] /\
        simulationInterval b' = Some (length (timers b)) /\
        charts (dashboard b') = createdCharts initializeData doc))
  end.
Proof.
  cbv zeta. unfold onLoad, construct.
  rewrite script_bind_at. do 4 run_assign.
  rewrite script_bind_at, setupEventListeners_at. cbv zeta. read_fields.
  destruct (document (dashboard b) !! "emergencyStop"%string) as [e1 |] eqn:E1.
  2:{ read_fields. repeat split. left. repeat split. left. reflexivity. }
  destruct (document (dashboard b) !! "flowViewSelect"%string) as [e2 |] eqn:E2.
  2:{ read_fields. repeat split. left. repeat split. right. reflexivity. }
  rewrite script_bind_at. unfold inDashboard at 1.
  rewrite initializeCharts_returns. read_fields.
  rewrite script_bind_at. unfold startSimulation.
  run_timer. unfold assign at 1. cbv beta iota.
  rewrite script_bind_at. unfold updateTime, inDashboard at 1, setTextContent.
  rewrite write_at. read_fields.
  destruct (document (dashboard b) !! "currentTime"%string) as [e3 |] eqn:E3.
  2:{ read_fields. repeat split. right. repeat split; eauto. }
  run_timer. unfold mret at 1, Script_ret at 1. cbv beta iota.
  run_assign. unfold simulateConnectionStatus.
  run_timer. unfold mret at 1, Script_ret at 1. read_fields.
  split.
  { unfold neededElements. repeat constructor; eauto. }
  do 2 (split; [reflexivity |]).
  split; [rewrite <- !app_assoc; reflexivity |].
  split; [reflexivity |].
  split; [rewrite <- app_assoc; reflexivity |].
  do 3 (split; [reflexivity |]).
  split; [rewrite lookup_insert_eq; reflexivity |].
  intros id Hid. apply lookup_insert_ne. congruence.
Qed.

Lemma onLoad_outcome_witness :
  exists b',
    onLoad "12:00:00" (loaded (page neededElements) [Some "overview"; None]%string
                         (fun _ => 1 / 2))
    = Done tt b' /\
    exported b' = true /\
    timers b' = [simulationTimer; clockTimer; connectionTimer] /\
    length (listeners b') = 4%nat /\
    charts (dashboard b') = noCharts.
Proof.
  pose proof (onLoad_outcome "12:00:00"
                (loaded (page neededElements) [Some "overview"; None]%string
                   (fun _ => 1 / 2))) as H.
  cbv zeta in H.
  destruct (onLoad "12:00:00"
              (loaded (page neededElements) [Some "overview"; None]%string
                 (fun _ => 1 / 2))) as [[] b' | e b'].
  - exists b'. split; [reflexivity |].
    destruct H as (_ & He & _ & Ht & _ & Hl & _ & Hc & _).
    split; [exact He |]. split; [exact Ht |].
    split; [rewrite Hl; reflexivity |]. rewrite Hc. reflexivity.
  - exfalso. destruct H as (_ & _ & _ & [([H | H] & _) | (_ & _ & H & _)]);
      vm_compute in H; discriminate.
Defined.

Lemma setClassName_at (id c : string) (b : Browser) :
  setClassName id c b
  = match document (dashboard b) !! id with
    | Some _ => Done tt (set_classNames (<[id := c]> (classNames b)) b)
    | None => Failed nullError b
    end.
Proof.
  unfold setClassName. rewrite script_bind_at. unfold getElement.
  destruct (document (dashboard b) !! id); reflexivity.
Qed.

(** X21. The connection status.  The callback of the connection check
    takes one draw; when the draw is 0.05 or more nothing else changes.
    When it is less, the flag [isConnected] is lowered first; with the
    element [connectionStatus] on the page the callback shows
    [Disconnected] with the error class, takes a second draw and asks for
    the reconnection once, after 3000 ms plus 7000 ms times that draw,
    which is within [[3000, 10000]] for a draw in [[0, 1)]; without the
    element it throws with the flag lowered and no reconnection asked
    for.  The callback of the reconnection raises the flag first; with
    the element on the page it shows [Connected] with the success class,
    and without it it throws with the flag raised; it takes no draw.
    Neither callback touches the snapshot, the charts, the listeners or
    the timers there were. *)
Theorem connection_status (b : Browser) :
  let s := entropy (dashboard b) in
  let doc := document (dashboard b) in
  match checkConnection b with
  | Done _ b' =>
      currentData (dashboard b') = currentData (dashboard b) /\
      charts (dashboard b') = charts (dashboard b) /\
      listeners b' = listeners b /\
      ((0.05 <= s 0%nat /\
        isConnected b' = isConnected b /\ timers b' = timers b /\
        classNames b' = classNames b /\ document (dashboard b') = doc /\
        entropy (dashboard b') = tail s) \/
       (s 0%nat < 0.05 /\ is_Some (doc !! "connectionStatus") /\
        isConnected b' = false /\
        textContent <$> document (dashboard b') !! "connectionStatus"
        = Some [lit "Disconnected"] /\
        classNames b' !! "connectionStatus" = Some "status status--error"%string /\
        timers b'
        = timers b ++ [{| callback := reconnection; delay := 3000 + s 1%nat * 7000;
                          repeating := false |}] /\
        entropy (dashboard b') = tail (tail s) /\
        (unit_draws s ->
         3000 <= 3000 + s 1%nat * 7000 /\ 3000 + s 1%nat * 7000 <= 10000)))
  | Failed _ b' =>
      currentData (dashboard b') = currentData (dashboard b) /\
      charts (dashboard b') = charts (dashboard b) /\
      listeners b' = listeners b /\
      s 0%nat < 0.05 /\ doc !! "connectionStatus" = None /\
      isConnected b' = false /\ timers b' = timers b /\
      entropy (dashboard b') = tail s
  end /\
  match reconnect b with
  | Done _ b' =>
      is_Some (doc !! "connectionStatus") /\
      isConnected b' = true /\
      textContent <$> document (dashboard b') !! "connectionStatus"
      = Some [lit "Connected"] /\
      classNames b' !! "connectionStatus" = Some "status status--success"%string /\
      timers b' = timers b /\ listeners b' = listeners b /\
      entropy (dashboard b') = entropy (dashboard b) /\
      currentData (dashboard b') = currentData (dashboard b) /\
      charts (dashboard b') = charts (dashboard b)
  | Failed _ b' =>
      doc !! "connectionStatus" = None /\
      isConnected b' = true /\
      timers b' = timers b /\ document (dashboard b') = doc /\
      classNames b' = classNames b
  end.
Proof.
  cbv zeta. split.
  - unfold checkConnection.
    rewrite script_bind_at. unfold inDashboard at 1, draw at 1. cbv beta iota.
    destruct (ltb (entropy (dashboard b) 0%nat) 0.05) eqn:L.
    2:{ apply ltb_ge in L. unfold mret, Script_ret. read_fields.
        do 3 (split; [reflexivity |]). left. repeat split. exact L. }
    apply ltb_lt in L. run_assign.
    rewrite script_bind_at. unfold inDashboard at 1, setTextContent.
    rewrite write_at. read_fields.
    destruct (document (dashboard b) !! "connectionStatus"%string) as [e |] eqn:E.
    2:{ read_fields. repeat split. exact L. }
    rewrite script_bind_at, setClassName_at. read_fields.
    rewrite lookup_insert_eq.
    rewrite script_bind_at. unfold inDashboard at 1, draw at 1. cbv beta iota.
    run_timer. unfold mret, Script_ret. read_fields.
    do 3 (split; [reflexivity |]). right.
    split; [exact L |]. split; [eauto |]. split; [reflexivity |].
    split; [rewrite lookup_insert_eq; reflexivity |].
    split; [apply lookup_insert_eq |]. split; [reflexivity |].
    split; [reflexivity |].
    intros Hu. destruct (Hu 1%nat) as [H0 H1]. unfold tail. split; lra.
  - unfold reconnect. run_assign.
    rewrite script_bind_at. unfold inDashboard at 1, setTextContent.
    rewrite write_at. read_fields.
    destruct (document (dashboard b) !! "connectionStatus"%string) as [e |] eqn:E.
    2:{ read_fields. repeat split. }
    rewrite setClassName_at. read_fields. rewrite lookup_insert_eq. read_fields.
    split; [eauto |]. split; [reflexivity |].
    split; [rewrite lookup_insert_eq; reflexivity |].
    split; [apply lookup_insert_eq |]. repeat split.
Qed.

Lemma connection_status_witness :
  exists b',
    checkConnection (loaded (page ["connectionStatus"%string]) [] (fun _ => 1 / 100))
    = Done tt b' /\
    isConnected b' = false /\
    timers b' = [{| callback := reconnection; delay := 3000 + (1 / 100) * 7000;
                    repeating := false |}].
Proof.
  pose proof (connection_status
                (loaded (page ["connectionStatus"%string]) [] (fun _ => 1 / 100)))
    as H.
  cbv zeta in H. destruct H as [H _].
  remember (checkConnection
              (loaded (page ["connectionStatus"%string]) [] (fun _ => 1 / 100)))
    as r eqn:Er.
  clear Er. destruct r as [[] b' | e b'].
  - exists b'. split; [reflexivity |].
    destruct H as (_ & _ & _ & [(H & _) | (_ & _ & Hc & _ & _ & Ht & _)]).
    + exfalso. vm_compute in H. apply H. reflexivity.
    + split; [exact Hc | exact Ht].
  - exfalso. destruct H as (_ & _ & _ & _ & H & _). vm_compute in H. discriminate.
Defined.
